(** * AppImage packaging pipeline: [cmake/AppImage.cmake] and
    [cmake/LinuxDeployAppImage.cmake]

    The two CMake files are embedded as Rocq functions.  CMake values are
    strings; a list is a string whose elements are separated by [;].  The
    built-in commands the scripts call ([string(REPLACE)], list expansion,
    [list(APPEND)], [cmake_parse_arguments], [if()] truth values) are
    modelled in module [CMake] after the CMake documentation; the scripts
    themselves are translated statement by statement. *)

From Stdlib Require Import String Ascii List ZArith Bool Lia Arith.
Import ListNotations.

Open Scope list_scope.
Open Scope string_scope.

(** ** The CMake language primitives used by the two files *)
Module CMake.

(** [string(REPLACE <match> <replace> <out> <input>)]: every occurrence of
    [match] in [input], found scanning from the left and never overlapping
    an earlier occurrence, is replaced by [replace].  [skip] counts the
    characters of an occurrence that are still to be consumed. *)
Fixpoint replace_from (m r : string) (skip : nat) (s : string) : string :=
  match s with
  | EmptyString => EmptyString
  | String c s' =>
      match skip with
      | S k => replace_from m r k s'
      | O =>
          if prefix m s
          then r ++ replace_from m r (String.length m - 1) s'
          else String c (replace_from m r 0 s')
      end
  end.

(** An empty match string leaves the input unchanged. *)
Definition string_REPLACE (m r s : string) : string :=
  match m with
  | EmptyString => s
  | _ => replace_from m r 0 s
  end.

(** Does [m] occur somewhere in [s]? *)
Fixpoint occurs (m s : string) : bool :=
  match s with
  | EmptyString => match m with EmptyString => true | _ => false end
  | String _ s' => prefix m s || occurs m s'
  end.

(** *** Lists

    "A string is divided into list elements by splitting on [;] characters
    not following an unequal number of [[] and []] characters and not
    immediately preceded by a [\].  The sequence [\;] does not divide a
    value but is replaced by [;] in the resulting element."

    [split_list nest s] returns the element in progress and the elements
    that follow it; [nest] is the number of [[] minus the number of []]
    seen so far. *)
Definition push (c : ascii) (p : string * list string) : string * list string :=
  (String c (fst p), snd p).

Definition next_element (p : string * list string) : string * list string :=
  (EmptyString, fst p :: snd p).

Fixpoint split_list (nest : Z) (s : string) : string * list string :=
  match s with
  | EmptyString => (EmptyString, [])
  | String c s' =>
      if (c =? "\")%char then
        match s' with
        | String c' s'' =>
            if (c' =? ";")%char
            then push ";" (split_list nest s'')
            else push c (split_list nest s')
        | EmptyString => push c (split_list nest s')
        end
      else if (c =? "[")%char then push c (split_list (nest + 1) s')
      else if (c =? "]")%char then push c (split_list (nest - 1) s')
      else if (c =? ";")%char then
        if (nest =? 0)%Z
        then next_element (split_list nest s')
        else push c (split_list nest s')
      else push c (split_list nest s')
  end.

Definition nonempty (s : string) : bool :=
  match s with EmptyString => false | _ => true end.

(** Expansion of a list value.  With [emptyArgs = false] (evaluation of an
    unquoted argument) empty elements are dropped; [foreach(... IN LISTS)]
    keeps them. *)
Definition cmExpandList (emptyArgs : bool) (arg : string) : list string :=
  let (e, r) := split_list 0 arg in
  if emptyArgs then e :: r else filter nonempty (e :: r).

(** An unquoted argument [${VAR}] or [text${VAR}text] is evaluated to a
    string and then expanded as a list into zero or more arguments. *)
Definition unquoted (value : string) : list string := cmExpandList false value.

(** [foreach(x IN LISTS VAR)]: nothing for an empty value. *)
Definition foreach_IN_LISTS (value : string) : list string :=
  match value with
  | EmptyString => []
  | _ => cmExpandList true value
  end.

(** [set(VAR a b c)], and the value of [ARGN]: the arguments joined by [;]. *)
Definition set_list (args : list string) : string := String.concat ";" args.

(** [list(APPEND VAR x...)] on the current value of [VAR]. *)
Definition list_APPEND (value : string) (xs : list string) : string :=
  match xs with
  | [] => value
  | _ =>
      match value with
      | EmptyString => set_list xs
      | _ => value ++ ";" ++ set_list xs
      end
  end.

(** [string(JOIN <glue> <out> <input>...)] *)
Definition string_JOIN (glue : string) (inputs : list string) : string :=
  String.concat glue inputs.

(** *** Truth values of [if(<variable>)]

    "False if the constant is 0, OFF, NO, FALSE, N, IGNORE, NOTFOUND, the
    empty string, or ends in the suffix -NOTFOUND.  Named boolean constants
    are case-insensitive." *)
Definition upper (c : ascii) : ascii :=
  let n := nat_of_ascii c in
  if (97 <=? n)%nat && (n <=? 122)%nat then ascii_of_nat (n - 32) else c.

Fixpoint upper_string (s : string) : string :=
  match s with
  | EmptyString => EmptyString
  | String c s' => String (upper c) (upper_string s')
  end.

Definition has_suffix (suf s : string) : bool :=
  (String.length suf <=? String.length s)%nat
  && (substring (String.length s - String.length suf) (String.length suf) s =? suf).

Definition cmIsOff (v : string) : bool :=
  let u := upper_string v in
  (u =? "") || (u =? "0") || (u =? "OFF") || (u =? "NO") || (u =? "FALSE")
  || (u =? "N") || (u =? "IGNORE") || (v =? "NOTFOUND") || has_suffix "-NOTFOUND" v.

(** [if(VAR)] for a variable that is defined ([Some]) or not ([None]). *)
Definition if_variable (v : option string) : bool :=
  match v with
  | Some x => negb (cmIsOff x)
  | None => false
  end.

(** *** [cmake_parse_arguments(<prefix> <options> <one_value> <multi_value> <args>...)]

    The arguments are read from left to right.  A keyword switches to the
    collection of its values; a one-value keyword takes the next
    non-keyword argument, a multi-value keyword every following one up to
    the next keyword.  A repeated one-value keyword overwrites. *)
Inductive parse_mode : Type :=
| NONE
| SINGLE (k : string)
| MULTI (k : string).

Record parsed_arguments : Type := mk_parsed
  { single_values : list (string * string);   (* most recent first *)
    multi_values : list (string * string);    (* in order of appearance *)
    unparsed_arguments : list string }.

Definition is_keyword (ks : list string) (a : string) : bool :=
  existsb (String.eqb a) ks.

Fixpoint parse_loop (options one_value multi_value : list string)
         (mode : parse_mode) (acc : parsed_arguments) (args : list string)
  : parsed_arguments :=
  match args with
  | [] => acc
  | a :: rest =>
      if is_keyword options a then
        parse_loop options one_value multi_value NONE acc rest
      else if is_keyword one_value a then
        parse_loop options one_value multi_value (SINGLE a) acc rest
      else if is_keyword multi_value a then
        parse_loop options one_value multi_value (MULTI a) acc rest
      else
        match mode with
        | SINGLE k =>
            parse_loop options one_value multi_value NONE
              (mk_parsed ((k, a) :: single_values acc) (multi_values acc)
                         (unparsed_arguments acc)) rest
        | MULTI k =>
            parse_loop options one_value multi_value (MULTI k)
              (mk_parsed (single_values acc) (multi_values acc ++ [(k, a)])
                         (unparsed_arguments acc)) rest
        | NONE =>
            parse_loop options one_value multi_value NONE
              (mk_parsed (single_values acc) (multi_values acc)
                         (unparsed_arguments acc ++ [a])) rest
        end
  end.

Definition cmake_parse_arguments (options one_value multi_value args : list string)
  : parsed_arguments :=
  parse_loop options one_value multi_value NONE (mk_parsed [] [] []) args.

Fixpoint assoc (k : string) (l : list (string * string)) : option string :=
  match l with
  | [] => None
  | (k', v) :: l' => if k =? k' then Some v else assoc k l'
  end.

(** [<prefix>_<keyword>] of a one-value keyword: defined when a non-empty
    value was given. *)
Definition one_value_of (p : parsed_arguments) (k : string) : option string :=
  match assoc k (single_values p) with
  | Some EmptyString => None
  | o => o
  end.

(** [<prefix>_<keyword>] of a multi-value keyword: the values as a list,
    defined when there is at least one. *)
Definition multi_value_of (p : parsed_arguments) (k : string) : option string :=
  match map snd (filter (fun kv => k =? fst kv) (multi_values p)) with
  | [] => None
  | vs => Some (set_list vs)
  end.

End CMake.

Import CMake.

(** Characters that cannot be written inside a string literal. *)
Definition dq : string := String (ascii_of_nat 34) EmptyString.
Definition nl : string := String (ascii_of_nat 10) EmptyString.

(** Value of [${VAR}] inside an argument: empty when [VAR] is not defined. *)
Definition deref (v : option string) : string :=
  match v with
  | Some x => x
  | None => EmptyString
  end.

(** Character-wise image of a string. *)
Fixpoint map_string (f : ascii -> ascii) (s : string) : string :=
  match s with
  | EmptyString => EmptyString
  | String c s' => String (f c) (map_string f s')
  end.

(** ** Effects of a script run

    A script acts on the outside world through file commands, downloads and
    child processes.  The run is a state-and-error computation over the
    chronological trace of the actions performed so far; the world is an
    oracle that, given that trace, tells whether a path exists, what a file
    contains and with which status an action ends (0 is success). *)
Module Script.

Inductive action : Type :=
| MESSAGE_STATUS (text : string)
| FILE_REMOVE_RECURSE (path : string)
| FILE_MAKE_DIRECTORY (path : string)
| FILE_DOWNLOAD (url dest : string)
| FILE_RENAME (old new : string)
| FILE_CREATE_LINK_SYMBOLIC (original linkname : string)
| FILE_REMOVE (path : string)
| FILE_READ (path : string)
| FILE_WRITE (path content : string)
| FILE_TOUCH (path : string)
| EXECUTE_PROCESS (command : list string) (working_directory : option string).

Definition trace : Type := list action.
Bind Scope list_scope with trace.

Record World : Type := mk_World
  { file_exists : trace -> string -> bool;
    file_contents : trace -> string -> string;
    status_of : trace -> action -> Z }.

(** A run ends normally, in [message(FATAL_ERROR ...)], or in the error a
    built-in command raises when it fails. *)
Inductive outcome (A : Type) : Type :=
| Done (a : A)
| FATAL_ERROR (text : string)
| CommandFailed (a : action).

Arguments Done {A} a.
Arguments FATAL_ERROR {A} text.
Arguments CommandFailed {A} a.

Definition M (A : Type) : Type := trace -> outcome A * trace.

Definition ret {A : Type} (a : A) : M A := fun t => (Done a, t).

Definition bind {A B : Type} (c : M A) (k : A -> M B) : M B :=
  fun t =>
    match c t with
    | (Done a, t') => k a t'
    | (FATAL_ERROR text, t') => (FATAL_ERROR text, t')
    | (CommandFailed a, t') => (CommandFailed a, t')
    end.

Definition message_FATAL_ERROR {A : Type} (text : string) : M A :=
  fun t => (FATAL_ERROR text, t).

Declare Scope script_scope.
Delimit Scope script_scope with script.
Notation "x <- c ;; k" := (bind c (fun x => k))
  (at level 61, c at next level, right associativity) : script_scope.
Notation "c ;; k" := (bind c (fun _ => k))
  (at level 61, right associativity) : script_scope.

Section Commands.
Variable w : World.

(** Perform an action and obtain its status. *)
Definition perform (a : action) : M Z :=
  fun t => (Done (status_of w t a), (t ++ [a])%list).

(** A command whose status is not looked at. *)
Definition unchecked (a : action) : M unit :=
  bind (perform a) (fun _ => ret tt).

(** A command that raises an error when it fails. *)
Definition checked (a : action) : M unit :=
  fun t =>
    if (status_of w t a =? 0)%Z then (Done tt, (t ++ [a])%list)
    else (CommandFailed a, (t ++ [a])%list).

Definition message_STATUS (text : string) : M unit :=
  unchecked (MESSAGE_STATUS text).

(** [if(EXISTS path)] *)
Definition EXISTS (path : string) : M bool :=
  fun t => (Done (file_exists w t path), t).

(** [file(REMOVE_RECURSE)] and [file(REMOVE)] ignore a missing path. *)
Definition file_REMOVE_RECURSE (path : string) : M unit :=
  unchecked (FILE_REMOVE_RECURSE path).
Definition file_REMOVE (path : string) : M unit :=
  unchecked (FILE_REMOVE path).

Definition file_MAKE_DIRECTORY (path : string) : M unit :=
  checked (FILE_MAKE_DIRECTORY path).

(** [file(DOWNLOAD url dest SHOW_PROGRESS)] without [STATUS] and without
    [EXPECTED_HASH]: the transfer status is stored nowhere. *)
Definition file_DOWNLOAD (url dest : string) : M unit :=
  unchecked (FILE_DOWNLOAD url dest).

(** Without [RESULT], a failed rename or link is an error. *)
Definition file_RENAME (old new : string) : M unit :=
  checked (FILE_RENAME old new).
Definition file_CREATE_LINK_SYMBOLIC (original linkname : string) : M unit :=
  checked (FILE_CREATE_LINK_SYMBOLIC original linkname).

Definition file_READ (path : string) : M string :=
  fun t =>
    if (status_of w t (FILE_READ path) =? 0)%Z
    then (Done (file_contents w t path), (t ++ [FILE_READ path])%list)
    else (CommandFailed (FILE_READ path), (t ++ [FILE_READ path])%list).

Definition file_WRITE (path content : string) : M unit :=
  checked (FILE_WRITE path content).
Definition file_TOUCH (path : string) : M unit :=
  checked (FILE_TOUCH path).

(** [execute_process(COMMAND ... RESULT_VARIABLE r)]: the exit status; a
    result that is not a number (the process could not be started) counts
    as a status other than 0, as it does for [if(NOT r EQUAL 0)]. *)
Definition execute_process (command : list string) (wd : option string) : M Z :=
  perform (EXECUTE_PROCESS command wd).

(** [execute_process(COMMAND ...)] with no [RESULT_VARIABLE]. *)
Definition execute_process_ (command : list string) (wd : option string) : M unit :=
  unchecked (EXECUTE_PROCESS command wd).

(** A [foreach] loop whose body only prints. *)
Fixpoint foreach_message (f : string -> string) (items : list string) : M unit :=
  match items with
  | [] => ret tt
  | x :: rest => bind (message_STATUS (f x)) (fun _ => foreach_message f rest)
  end.

End Commands.

End Script.

Import Script.
Open Scope script_scope.

(** ** [cmake/AppImage.cmake] *)
Module AppImage.

Record custom_command : Type := mk_custom_command
  { OUTPUT : string;
    COMMAND : list string;
    DEPENDS : list string;
    WORKING_DIRECTORY : string;
    COMMENT : string }.

(** The two [install()] rules of the function: the code that builds the
    custom target at package time and fails when the build does, and the
    file that is staged afterwards. *)
Inductive install_rule : Type :=
| install_CODE_build (cmake build_dir target failure component : string)
| install_FILES (file destination component : string).

Record configuration : Type := mk_configuration
  { messages : list string;
    command : custom_command;
    custom_target : string;
    custom_target_DEPENDS : string;
    install_rules : list install_rule }.

Inductive result : Type :=
| Configured (c : configuration)
| Fatal (text : string).

Definition options : string := "".
Definition one_value_keywords : string :=
  set_list ["COMPONENT_NAME"; "DISPLAY_NAME"; "EXECUTABLE_NAME"; "PLUGIN_TYPE"].
Definition multi_value_keywords : string := set_list ["EXTRA_ENV_VARS"].

(** Line 26: [cmake_parse_arguments(ARG "${options}" "${one_value_keywords}"
    "${multi_value_keywords}" ${ARGN})]; [ARGN] holds the call's arguments
    joined by [;] and is expanded again as an unquoted argument. *)
Definition parse (args : list string) : parsed_arguments :=
  let ARGN := set_list args in
  cmake_parse_arguments (cmExpandList false options)
                        (cmExpandList false one_value_keywords)
                        (cmExpandList false multi_value_keywords)
                        (unquoted ARGN).

(** Line 48: [string(REPLACE " " "_" sanitized_name "${ARG_DISPLAY_NAME}")] *)
Definition sanitized_name (ARG_DISPLAY_NAME : string) : string :=
  string_REPLACE " " "_" ARG_DISPLAY_NAME.

(** Lines 49-50. *)
Definition appimage_file_name (ARG_DISPLAY_NAME : string) : string :=
  sanitized_name ARG_DISPLAY_NAME ++ "-x86_64.AppImage".
Definition appimage_full_path (CMAKE_BINARY_DIR ARG_DISPLAY_NAME : string) : string :=
  CMAKE_BINARY_DIR ++ "/" ++ appimage_file_name ARG_DISPLAY_NAME.

(** Lines 65-66: the extra variables flattened into one string. *)
Definition env_vars_string (ARG_EXTRA_ENV_VARS : string) : string :=
  string_REPLACE ";" "\;" (string_JOIN ";" [ARG_EXTRA_ENV_VARS]).

(** Line 67: the argument that carries them. *)
Definition EXTRA_ENV_VARS_argument (ARG_EXTRA_ENV_VARS : string) : string :=
  "-DEXTRA_ENV_VARS:STRING=" ++ dq ++ env_vars_string ARG_EXTRA_ENV_VARS ++ dq.

(** Lines 56-70. *)
Definition linuxdeploy_args (CMAKE_SOURCE_DIR CMAKE_BINARY_DIR : string)
           (ARG_COMPONENT_NAME ARG_DISPLAY_NAME ARG_EXECUTABLE_NAME ARG_PLUGIN_TYPE : string)
           (ARG_EXTRA_ENV_VARS : option string) : string :=
  let args0 :=
    set_list (unquoted ("-DCOMPONENT_NAME=" ++ ARG_COMPONENT_NAME)
              ++ unquoted ("-DAPP_NAME=" ++ ARG_DISPLAY_NAME)
              ++ unquoted ("-DEXECUTABLE_NAME=" ++ ARG_EXECUTABLE_NAME)
              ++ unquoted ("-DPLUGIN_TYPE=" ++ ARG_PLUGIN_TYPE)
              ++ unquoted ("-DCMAKE_CURRENT_BINARY_DIR=" ++ CMAKE_BINARY_DIR)) in
  let args1 :=
    if if_variable ARG_EXTRA_ENV_VARS
    then list_APPEND args0 [EXTRA_ENV_VARS_argument (deref ARG_EXTRA_ENV_VARS)]
    else args0 in
  list_APPEND args1 ["-P"; CMAKE_SOURCE_DIR ++ "/cmake/LinuxDeployAppImage.cmake"].

Definition add_appimage_from_component
           (CMAKE_COMMAND CMAKE_SOURCE_DIR CMAKE_BINARY_DIR : string)
           (args : list string) : result :=
  let ARG := parse args in
  match one_value_of ARG "COMPONENT_NAME" with
  | None => Fatal "add_appimage_from_component: COMPONENT_NAME is required."
  | Some ARG_COMPONENT_NAME =>
  match one_value_of ARG "DISPLAY_NAME" with
  | None => Fatal "add_appimage_from_component: DISPLAY_NAME is required."
  | Some ARG_DISPLAY_NAME =>
  match one_value_of ARG "EXECUTABLE_NAME" with
  | None => Fatal "add_appimage_from_component: EXECUTABLE_NAME is required."
  | Some ARG_EXECUTABLE_NAME =>
  let ARG_PLUGIN_TYPE :=
    match one_value_of ARG "PLUGIN_TYPE" with
    | None => "qt"
    | Some p => p
    end in
  let path := appimage_full_path CMAKE_BINARY_DIR ARG_DISPLAY_NAME in
  let custom_target_name := "create_appimage_" ++ ARG_COMPONENT_NAME in
  let package_component_name := ARG_COMPONENT_NAME ++ "_package" in
  let largs :=
    linuxdeploy_args CMAKE_SOURCE_DIR CMAKE_BINARY_DIR ARG_COMPONENT_NAME
      ARG_DISPLAY_NAME ARG_EXECUTABLE_NAME ARG_PLUGIN_TYPE
      (multi_value_of ARG "EXTRA_ENV_VARS") in
  Configured
    {| messages :=
         "[DEBUG AppImage.cmake] Arguments list being passed to add_custom_command:"
         :: map (fun arg => "    " ++ arg) (foreach_IN_LISTS largs);
       command :=
         {| OUTPUT := path;
            COMMAND := unquoted CMAKE_COMMAND ++ unquoted largs;
            DEPENDS := unquoted ARG_EXECUTABLE_NAME;
            WORKING_DIRECTORY := CMAKE_BINARY_DIR;
            COMMENT := "Defining how to generate AppImage for component '"
                       ++ ARG_COMPONENT_NAME ++ "'" |};
       custom_target := custom_target_name;
       custom_target_DEPENDS := path;
       install_rules :=
         [ install_CODE_build CMAKE_COMMAND CMAKE_BINARY_DIR custom_target_name
             ("Failed to build AppImage for component '" ++ ARG_COMPONENT_NAME ++ "'.")
             package_component_name;
           install_FILES path "." package_component_name ] |}
  end end end.

End AppImage.

(** ** [cmake/LinuxDeployAppImage.cmake] *)
Module LinuxDeployAppImage.

(** The variables the script reads: the [-D] definitions, which may be
    absent, the directory and executable of the running [cmake], and
    [$ENV{PATH}]. *)
Record variables : Type := mk_variables
  { COMPONENT_NAME : option string;
    APP_NAME : option string;
    EXECUTABLE_NAME : option string;
    PLUGIN_TYPE : option string;
    EXTRA_ENV_VARS : option string;
    CMAKE_CURRENT_BINARY_DIR : string;
    CMAKE_COMMAND : string;
    ENV_PATH : string }.

(** Lines 22-23. *)
Definition APPDIR (bindir component : string) : string :=
  bindir ++ "/AppDir_" ++ component.
Definition LINUXDEPLOY_DIR (bindir : string) : string :=
  bindir ++ "/linuxdeploy_tools".

(** Line 156: [string(REPLACE "<SEMICOLON>" "\;" ENV_VAR "${ENV_VAR}")] *)
Definition unescape (ENV_VAR : string) : string :=
  string_REPLACE "<SEMICOLON>" "\;" ENV_VAR.

(** Lines 151-160: the value of the list variable [LINUXDEPLOY_ENV]. *)
Definition LINUXDEPLOY_ENV (dir path : string) (extra : option string) : string :=
  let env0 := "PATH=" ++ dir ++ ":" ++ path in
  match extra with
  | Some x =>
      if x =? "" then env0
      else fold_left (fun env ENV_VAR => list_APPEND env [unescape ENV_VAR])
                     (foreach_IN_LISTS x) env0
  | None => env0
  end.

(** The environment assignments handed to [cmake -E env]: the unquoted
    [${LINUXDEPLOY_ENV}] of line 170. *)
Definition deploy_environment (dir path : string) (extra : option string) : list string :=
  unquoted (LINUXDEPLOY_ENV dir path extra).

(** Lines 113-119. *)
Definition DESKTOP_CONTENT (app_name executable_name : string) : string :=
  "[Desktop Entry]" ++ nl ++
  "Type=Application" ++ nl ++
  "Name=" ++ app_name ++ nl ++
  "Exec=" ++ executable_name ++ nl ++
  "Categories=Utility;" ++ nl ++
  "Icon=appname" ++ nl.

(** Line 146. *)
Definition applyTextPatch (PLUGIN_CONTENT : string) : string :=
  string_REPLACE "libgtk-3-0" "libgtk-3-0t64" PLUGIN_CONTENT.

(** Lines 100-103. *)
Definition install_command (cmake component appdir : string) : list string :=
  (unquoted cmake ++ ["--install"; "."; "--config"; "Release"; "--component"]
   ++ unquoted component ++ ["--prefix"] ++ unquoted (appdir ++ "/usr/bin"))%list.

(** Lines 170-174. *)
Definition linuxdeploy_command (cmake env dir appdir plugin : string) : list string :=
  (unquoted cmake ++ ["-E"; "env"] ++ unquoted env
   ++ unquoted (dir ++ "/linuxdeploy-x86_64.AppImage")
   ++ ["--appdir"] ++ unquoted appdir
   ++ ["--plugin"] ++ unquoted plugin
   ++ ["--output"; "appimage"])%list.

Section Run.
Variable w : World.

(** Lines 26-70; [dir] is the script's global [LINUXDEPLOY_DIR]. *)
Definition ensure_appimage_tool (dir TOOL_NAME DOWNLOAD_URL : string) : M unit :=
  let TOOL_PATH := dir ++ "/" ++ TOOL_NAME in
  present <- EXISTS w TOOL_PATH ;;
  if present : bool then ret tt
  else
    file_MAKE_DIRECTORY w dir ;;
    message_STATUS w ("Downloading " ++ TOOL_NAME ++ "...") ;;
    file_DOWNLOAD w DOWNLOAD_URL (TOOL_PATH ++ ".tmp") ;;
    execute_process_ w ["chmod"; "+x"; TOOL_PATH ++ ".tmp"] None ;;
    EXTRACT_RESULT <- execute_process w [TOOL_PATH ++ ".tmp"; "--appimage-extract"]
                                      (Some dir) ;;
    if negb (EXTRACT_RESULT =? 0)%Z
    then message_FATAL_ERROR ("Failed to extract " ++ TOOL_NAME)
    else
      file_RENAME w (dir ++ "/squashfs-root") (dir ++ "/" ++ TOOL_NAME ++ "-squashfs-root") ;;
      file_CREATE_LINK_SYMBOLIC w (dir ++ "/" ++ TOOL_NAME ++ "-squashfs-root/AppRun")
                                TOOL_PATH ;;
      file_REMOVE w (TOOL_PATH ++ ".tmp") ;;
      message_STATUS w (TOOL_NAME ++ " ready").

(** Lines 73-94. *)
Definition ensure_shell_script (dir SCRIPT_NAME DOWNLOAD_URL : string) : M unit :=
  let SCRIPT_PATH := dir ++ "/" ++ SCRIPT_NAME in
  present <- EXISTS w SCRIPT_PATH ;;
  if present : bool then ret tt
  else
    file_MAKE_DIRECTORY w dir ;;
    message_STATUS w ("Downloading " ++ SCRIPT_NAME ++ "...") ;;
    file_DOWNLOAD w DOWNLOAD_URL SCRIPT_PATH ;;
    execute_process_ w ["chmod"; "+x"; SCRIPT_PATH] None ;;
    message_STATUS w (SCRIPT_NAME ++ " ready").

(** Line 97. *)
Definition clean_up_previous_AppDir (appdir : string) : M unit :=
  file_REMOVE_RECURSE w appdir.

(** Lines 100-109. *)
Definition install_component (cmake bindir component appdir : string) : M unit :=
  INSTALL_RESULT <- execute_process w (install_command cmake component appdir)
                                    (Some bindir) ;;
  if negb (INSTALL_RESULT =? 0)%Z
  then message_FATAL_ERROR ("Failed to install component " ++ component)
  else ret tt.

(** Lines 112-120. *)
Definition create_desktop_file (appdir app_name executable_name : string) : M unit :=
  file_MAKE_DIRECTORY w (appdir ++ "/usr/share/applications") ;;
  file_WRITE w (appdir ++ "/usr/share/applications/" ++ executable_name ++ ".desktop")
             (DESKTOP_CONTENT app_name executable_name).

(** Lines 123-124. *)
Definition create_icon_placeholder (appdir : string) : M unit :=
  file_MAKE_DIRECTORY w (appdir ++ "/usr/share/icons/hicolor/scalable/apps") ;;
  file_TOUCH w (appdir ++ "/usr/share/icons/hicolor/scalable/apps/appname.svg").

(** Lines 127-130. *)
Definition ensure_linuxdeploy (dir : string) : M unit :=
  ensure_appimage_tool dir "linuxdeploy-x86_64.AppImage"
    "https://github.com/linuxdeploy/linuxdeploy/releases/download/continuous/linuxdeploy-x86_64.AppImage".

(** Lines 133-148. *)
Definition setup_plugin (dir plugin : string) : M unit :=
  if plugin =? "qt" then
    ensure_appimage_tool dir "linuxdeploy-plugin-qt-x86_64.AppImage"
      "https://github.com/linuxdeploy/linuxdeploy-plugin-qt/releases/download/1-alpha-20250213-1/linuxdeploy-plugin-qt-x86_64.AppImage"
  else if plugin =? "gtk" then
    ensure_shell_script dir "linuxdeploy-plugin-gtk.sh"
      "https://raw.githubusercontent.com/linuxdeploy/linuxdeploy-plugin-gtk/master/linuxdeploy-plugin-gtk.sh" ;;
    PLUGIN_CONTENT <- file_READ w (dir ++ "/linuxdeploy-plugin-gtk.sh") ;;
    file_WRITE w (dir ++ "/linuxdeploy-plugin-gtk.sh") (applyTextPatch PLUGIN_CONTENT)
  else ret tt.

(** Lines 151-165: the environment is prepared; the loops print it. *)
Definition prepare_environment (dir path : string) (extra : option string) : M string :=
  (match extra with
   | Some x =>
       if x =? "" then ret tt
       else foreach_message w (fun ENV_VAR => "[DEBUG] Adding env var: " ++ unescape ENV_VAR)
                            (foreach_IN_LISTS x)
   | None => ret tt
   end) ;;
  message_STATUS w "[DEBUG] Final LINUXDEPLOY_ENV list:" ;;
  foreach_message w (fun ENV_VAR => "    " ++ ENV_VAR)
                  (foreach_IN_LISTS (LINUXDEPLOY_ENV dir path extra)) ;;
  ret (LINUXDEPLOY_ENV dir path extra).

(** Lines 168-183. *)
Definition run_linuxdeploy (cmake bindir component env dir appdir plugin : string) : M unit :=
  message_STATUS w ("Running linuxdeploy for " ++ component ++ "...") ;;
  LINUXDEPLOY_RESULT <- execute_process w (linuxdeploy_command cmake env dir appdir plugin)
                                        (Some bindir) ;;
  if negb (LINUXDEPLOY_RESULT =? 0)%Z
  then message_FATAL_ERROR ("linuxdeploy failed for " ++ component)
  else message_STATUS w ("AppImage created successfully for " ++ component).

(** The whole script. *)
Definition script (v : variables) : M unit :=
  message_STATUS w ("[DEBUG LinuxDeployAppImage.cmake] Received EXTRA_ENV_VARS = ["
                    ++ deref (EXTRA_ENV_VARS v) ++ "]") ;;
  match COMPONENT_NAME v with
  | None => message_FATAL_ERROR "COMPONENT_NAME must be defined"
  | Some component =>
  match APP_NAME v with
  | None => message_FATAL_ERROR "APP_NAME must be defined"
  | Some app_name =>
  match EXECUTABLE_NAME v with
  | None => message_FATAL_ERROR "EXECUTABLE_NAME must be defined"
  | Some executable_name =>
  let plugin :=
    match PLUGIN_TYPE v with
    | None => "qt"
    | Some p => p
    end in
  let bindir := CMAKE_CURRENT_BINARY_DIR v in
  let appdir := APPDIR bindir component in
  let dir := LINUXDEPLOY_DIR bindir in
  clean_up_previous_AppDir appdir ;;
  install_component (CMAKE_COMMAND v) bindir component appdir ;;
  create_desktop_file appdir app_name executable_name ;;
  create_icon_placeholder appdir ;;
  ensure_linuxdeploy dir ;;
  setup_plugin dir plugin ;;
  env <- prepare_environment dir (ENV_PATH v) (EXTRA_ENV_VARS v) ;;
  run_linuxdeploy (CMAKE_COMMAND v) bindir component env dir appdir plugin
  end end end.

End Run.

End LinuxDeployAppImage.

(** ** From the custom command to the script's variables

    The custom command of [AppImage.cmake] has no [VERBATIM]: the build rule
    is written with only the spaces of each argument escaped, and the shell
    that runs the rule reads each argument back as one word, consuming
    double quotes and backslashes.  The [cmake] it starts turns every
    [-D<var>[:<type>]=<value>] into a variable of the script.  Words are
    assumed free of the characters the shell gives another meaning to
    (dollar, backquote, single quote, and the operators outside quotes). *)
Module BuildRule.
Import AppImage LinuxDeployAppImage.

Definition escape_old_style (arg : string) : string :=
  string_REPLACE " " "\ " arg.

Definition escapable_in_quotes (c : ascii) : bool :=
  (c =? "$")%char || (c =? "`")%char || (c =? "\")%char
  || (nat_of_ascii c =? 34)%nat.

Fixpoint sh_word (in_quotes : bool) (s : string) : string :=
  match s with
  | EmptyString => EmptyString
  | String c s' =>
      if (c =? "\")%char then
        match s' with
        | String c' s'' =>
            if in_quotes && negb (escapable_in_quotes c')
            then String c (String c' (sh_word in_quotes s''))
            else String c' (sh_word in_quotes s'')
        | EmptyString => String c EmptyString
        end
      else if (nat_of_ascii c =? 34)%nat then sh_word (negb in_quotes) s'
      else String c (sh_word in_quotes s')
  end.

Definition shell_argument (arg : string) : string :=
  sh_word false (escape_old_style arg).

Definition argv (c : custom_command) : list string :=
  map shell_argument (COMMAND c).

(** The text before and after the first [c] of [s]. *)
Fixpoint split_at (c : ascii) (s : string) : option (string * string) :=
  match s with
  | EmptyString => None
  | String x s' =>
      if (x =? c)%char then Some (EmptyString, s')
      else match split_at c s' with
           | Some (l, r) => Some (String x l, r)
           | None => None
           end
  end.

Definition definition_of (arg : string) : option (string * string) :=
  match arg with
  | String "-" (String "D" body) =>
      match split_at "=" body with
      | Some (lhs, value) =>
          Some (match split_at ":" lhs with
                | Some (var, _) => var
                | None => lhs
                end, value)
      | None => None
      end
  | _ => None
  end.

(** The value a variable gets from the command line; the last definition
    wins. *)
Fixpoint defined (var : string) (args : list string) : option string :=
  match args with
  | [] => None
  | a :: rest =>
      match defined var rest with
      | Some v => Some v
      | None =>
          match definition_of a with
          | Some (x, v) => if x =? var then Some v else None
          | None => None
          end
      end
  end.

Definition script_variables (path : string) (c : custom_command) : variables :=
  let args := argv c in
  {| COMPONENT_NAME := defined "COMPONENT_NAME" args;
     APP_NAME := defined "APP_NAME" args;
     EXECUTABLE_NAME := defined "EXECUTABLE_NAME" args;
     PLUGIN_TYPE := defined "PLUGIN_TYPE" args;
     EXTRA_ENV_VARS := defined "EXTRA_ENV_VARS" args;
     CMAKE_CURRENT_BINARY_DIR :=
       match defined "CMAKE_CURRENT_BINARY_DIR" args with
       | Some d => d
       | None => WORKING_DIRECTORY c
       end;
     CMAKE_COMMAND := hd EmptyString args;
     ENV_PATH := path |}.

(** The environment the deployment tool is started with when the function
    of [AppImage.cmake] is called with [args] and its custom command runs. *)
Definition packaged_environment (cmake source_dir binary_dir path : string)
           (args : list string) : option (list string) :=
  match add_appimage_from_component cmake source_dir binary_dir args with
  | Configured c =>
      let v := script_variables path (command c) in
      Some (deploy_environment (LINUXDEPLOY_DIR (CMAKE_CURRENT_BINARY_DIR v))
                               (ENV_PATH v) (EXTRA_ENV_VARS v))
  | Fatal _ => None
  end.

End BuildRule.

Import AppImage LinuxDeployAppImage BuildRule.

(** ** The backend object of the QML panel ([Backend], namespace [qt])

    The object holds one string, [m_message].  A member function takes the
    object and returns it with the signals it emitted, in order. *)
Module qt.

Record Backend : Type := mk_Backend { m_message : string }.

Inductive signal : Type := messageChanged.

(** [Backend::Backend(QObject *parent)] *)
Definition Backend_ : Backend := {| m_message := "Hello from Backend" |}.

(** [QString Backend::message() const] *)
Definition message (this : Backend) : string := m_message this.

(** [void Backend::setMessage(const QString &msg)] *)
Definition setMessage (msg : string) (this : Backend) : Backend * list signal :=
  if negb (m_message this =? msg)
  then ({| m_message := msg |}, [messageChanged])
  else (this, []).

(** [void Backend::onButtonClicked()] *)
Definition onButtonClicked (this : Backend) : Backend * list signal :=
  setMessage "Button clicked from QML!" this.

(** What the panel does with the object: it writes the property or it
    calls the slot of the button. *)
Inductive call : Type :=
| SetMessage (msg : string)
| OnButtonClicked.

Definition invoke (c : call) (this : Backend) : Backend * list signal :=
  match c with
  | SetMessage msg => setMessage msg this
  | OnButtonClicked => onButtonClicked this
  end.

(** Calls one after the other, the signals in the order of emission. *)
Fixpoint invoke_all (cs : list call) (this : Backend) : Backend * list signal :=
  match cs with
  | [] => (this, [])
  | c :: rest =>
      let (this1, emitted1) := invoke c this in
      let (this2, emitted2) := invoke_all rest this1 in
      (this2, (emitted1 ++ emitted2)%list)
  end.

(** The text a call asks for. *)
Definition requested (c : call) : string :=
  match c with
  | SetMessage msg => msg
  | OnButtonClicked => "Button clicked from QML!"
  end.

End qt.


(** ** The script that strips debug symbols from the vcpkg libraries

    A bash script run under [set -euo pipefail].  What it asks of the
    system is a record: whether [strip] is found, which paths are
    directories, what [realpath] prints, what [find] does and how the
    children of [xargs] end.  A run gives the lines the script writes and
    the files [strip] was started on, in order, and the exit status; what
    the tools write themselves is left out.

    Two things are read by the tools and not by the script, and the model
    follows them only where their reading is plain.  [find] takes its first
    word as the starting point only if it does not look like the start of
    an expression; for any other word the record says what [find] prints.
    [xargs -I] pastes each file name into the text that [sh -c] runs, inside
    double quotes; for a name that is empty or has a character with a
    meaning there, the record says what happens. *)
Module StripDebug.

Inductive event : Type :=
| Stdout (line : string)
| Stderr (line : string)
| Strip (file : string).

(** How a child of [xargs] ends, as [xargs] sees it. *)
Inductive child : Type :=
| Exited (status : Z)
| Signaled.

Record System : Type := mk_System
  { command_v_strip : bool;
    is_directory : string -> bool;
    realpath : string -> string;
    (** the regular files below a starting point, in the order of [find],
        and the exit status of [find] *)
    find_type_f : string -> list string * Z;
    (** what the [find] of line 45 prints and its exit status, for a first
        word that is not read as a starting point *)
    find_other : string -> list string * Z;
    (** how the child that runs [strip --strip-debug] on a file ends *)
    strip_strip_debug : string -> child;
    (** what the child does, and how it ends, for a file name that is not
        plain inside double quotes *)
    other_item : string -> list event * child }.

(** The match of [find -path]: [*] stands for any characters, [/] and a
    leading [.] included; the patterns of the script have no other special
    character. *)
Fixpoint fnmatch (pattern : string) : string -> bool :=
  match pattern with
  | EmptyString => fun s => match s with EmptyString => true | String _ _ => false end
  | String c rest =>
      if Ascii.eqb c "*"
      then fix any (s : string) : bool :=
             fnmatch rest s
             || match s with EmptyString => false | String _ s' => any s' end
      else fun s => match s with
                    | EmptyString => false
                    | String d s' => Ascii.eqb c d && fnmatch rest s'
                    end
  end.

(** Line 45: [\( -path "*/debug/lib/*.a" -o -path "*/debug/lib/*.so" -o
    -path "*/debug/lib/*.so.*" \)] *)
Definition selected (path : string) : bool :=
  fnmatch "*/debug/lib/*.a" path
  || fnmatch "*/debug/lib/*.so" path
  || fnmatch "*/debug/lib/*.so.*" path.

(** A first word that [find] reads as a starting point: not empty and not
    beginning like an expression. *)
Definition starting_point (word : string) : bool :=
  match word with
  | EmptyString => false
  | String c _ => negb (existsb (Ascii.eqb c) (list_ascii_of_string "-()!,"))
  end.

(** A file name that [sh] reads as itself inside double quotes. *)
Definition quoted_plain (name : string) : bool :=
  match name with
  | EmptyString => false
  | String _ _ =>
      negb (existsb (fun c => (c =? "$")%char || (c =? "`")%char || (c =? "\")%char
                              || (nat_of_ascii c =? 34)%nat)
                    (list_ascii_of_string name))
  end.

(** Lines 10-17: [usage], which ends the script with status 1. *)
Definition usage (script : string) : list event * Z :=
  ([Stdout "Strips debug symbols from libraries in a vcpkg packages directory.";
    Stdout "";
    Stdout ("Usage: " ++ script ++ " <path_to_vcpkg_packages_directory>");
    Stdout "";
    Stdout ("Example: " ++ script ++ " ./vcpkg/packages")], 1%Z).

Section Run.

Variable sys : System.

(** Line 45: [find "$PACKAGES_DIR" -type f \( ... \) -print0]. *)
Definition find_print0 (PACKAGES_DIR : string) : list string * Z :=
  if starting_point PACKAGES_DIR
  then let (files, status) := find_type_f sys PACKAGES_DIR in
       (filter selected files, status)
  else find_other sys PACKAGES_DIR.

(** Line 46: [sh -c 'echo "Stripping: {}"; strip --strip-debug "{}"'] with
    the file name pasted in place of [{}]. *)
Definition sh_c (file : string) : list event * child :=
  if quoted_plain file
  then ([Stdout ("Stripping: " ++ file); Strip file], strip_strip_debug sys file)
  else other_item sys file.

(** Line 46: [xargs -0 -I {}].  One child per file, one after the other.  A
    child that exits with status 255 or is killed by a signal ends [xargs]
    at once, with status 124 or 125; otherwise every file is handled, and
    the status is 123 when a child exited with another status than 0. *)
Fixpoint xargs (files : list string) : list event * Z :=
  match files with
  | [] => ([], 0%Z)
  | file :: rest =>
      let (out, result) := sh_c file in
      match result with
      | Signaled => (out, 125%Z)
      | Exited status =>
          if (status =? 255)%Z then (out, 124%Z)
          else
            let (out', status') := xargs rest in
            ((out ++ out')%list,
             if (status' =? 124)%Z || (status' =? 125)%Z then status'
             else if negb (status =? 0)%Z then 123%Z
             else status')
      end
  end.

(** The script, started as [script] with the arguments [args].  Under
    [pipefail] the status of the pipeline of lines 45-46 is that of
    [xargs] unless it is 0, and then that of [find]; under [set -e] a
    status other than 0 ends the script there. *)
Definition main (script : string) (args : list string) : list event * Z :=
  if negb (command_v_strip sys)
  then ([Stderr "Error: 'strip' command not found. Please ensure binutils is installed."],
        1%Z)
  else if negb (List.length args =? 1)%nat
  then let (lines, status) := usage script in
       (Stderr "Error: Invalid number of arguments." :: lines, status)
  else
    let PACKAGES_DIR := nth 0 args "" in
    if negb (is_directory sys PACKAGES_DIR)
    then ([Stderr ("Error: Directory not found at '" ++ PACKAGES_DIR ++ "'")], 1%Z)
    else
      let header := [Stdout ("Target directory: " ++ realpath sys PACKAGES_DIR);
                     Stdout "Searching for debug libraries to strip...";
                     Stdout ""] in
      let (files, find_status) := find_print0 PACKAGES_DIR in
      let (stripping, xargs_status) := xargs files in
      let status := if negb (xargs_status =? 0)%Z then xargs_status else find_status in
      if negb (status =? 0)%Z
      then ((header ++ stripping)%list, status)
      else ((header ++ stripping ++ [Stdout ""; Stdout "Stripping complete."])%list, 0%Z).

(** The files [find] picks below a directory. *)
Definition picked (dir : string) : list string :=
  filter selected (fst (find_type_f sys dir)).

(** A child that ends [xargs] at once. *)
Definition stops (result : child) : bool :=
  match result with
  | Exited status => (status =? 255)%Z
  | Signaled => true
  end.

(** The files up to the first one whose child ends [xargs], that one
    included. *)
Fixpoint up_to_stop (files : list string) : list string :=
  match files with
  | [] => []
  | file :: rest =>
      if stops (strip_strip_debug sys file) then [file] else file :: up_to_stop rest
  end.

End Run.

(** The files [strip] was started on. *)
Fixpoint stripped (events : list event) : list string :=
  match events with
  | [] => []
  | Strip f :: rest => f :: stripped rest
  | _ :: rest => stripped rest
  end.

(** A machine with three libraries below [pk], two of them debug
    libraries; [strip] fails on the first debug library. *)
Definition two_debug_libraries : System :=
  {| command_v_strip := true;
     is_directory := fun path => path =? "pk";
     realpath := fun path => "/w/" ++ path;
     find_type_f := fun _ => (["pk/zlib/debug/lib/libz.a"; "pk/zlib/lib/libz.a";
                               "pk/zlib/debug/lib/libz.so.1"], 0%Z);
     find_other := fun _ => ([], 1%Z);
     strip_strip_debug := fun file => if file =? "pk/zlib/debug/lib/libz.a"
                                      then Exited 1 else Exited 0;
     other_item := fun _ => ([], Exited 0) |}.

End StripDebug.


(** ** The QML panel

    The panel shows [backend.message] in a text item and has one button.
    The text is a binding: it is evaluated when the panel is created and
    again each time [messageChanged] is emitted, and at no other time. *)
Module Panel.

Record Panel : Type := mk_Panel
  { backend : qt.Backend;
    Text_text : string }.

(** [text: backend.message] *)
Definition evaluate_binding (p : Panel) : Panel :=
  {| backend := backend p; Text_text := qt.message (backend p) |}.

Definition create (b : qt.Backend) : Panel :=
  evaluate_binding {| backend := b; Text_text := "" |}.

(** The signals of a call reach the binding. *)
Definition deliver (emitted : list qt.signal) (p : Panel) : Panel :=
  fold_left (fun p' _ => evaluate_binding p') emitted p.

(** A call on the backend object while the panel shows it. *)
Definition call (c : qt.call) (p : Panel) : Panel :=
  let (b, emitted) := qt.invoke c (backend p) in
  deliver emitted {| backend := b; Text_text := Text_text p |}.

(** [onClicked: backend.onButtonClicked()] *)
Definition Button_onClicked (p : Panel) : Panel := call qt.OnButtonClicked p.

Definition calls (cs : list qt.call) (p : Panel) : Panel :=
  fold_left (fun p' c => call c p') cs p.

End Panel.


(** ** Vocabulary of the statements *)

Fixpoint all_chars (p : ascii -> bool) (s : string) : bool :=
  match s with
  | EmptyString => true
  | String c s' => p c && all_chars p s'
  end.

(** Characters with no meaning for list expansion. *)
Definition list_plain_char (c : ascii) : bool :=
  negb ((c =? ";")%char || (c =? "\")%char || (c =? "[")%char || (c =? "]")%char).

(** Characters the shell reads as themselves inside double quotes, spaces
    left out because the build rule escapes them. *)
Definition shell_plain_char (c : ascii) : bool :=
  negb ((c =? " ")%char || (c =? "\")%char || (c =? "$")%char || (c =? "`")%char
        || (nat_of_ascii c =? 34)%nat).

Definition list_plain (s : string) : bool := all_chars list_plain_char s.
Definition shell_plain (s : string) : bool := all_chars shell_plain_char s.

(** Characters the shell reads as themselves outside quotes: letters,
    digits and a few signs; the space is among them because the build rule
    escapes it. *)
Definition is_alnum (c : ascii) : bool :=
  let n := nat_of_ascii c in
  ((48 <=? n) && (n <=? 57) || (65 <=? n) && (n <=? 90) || (97 <=? n) && (n <=? 122))%nat.

Definition word_char (c : ascii) : bool :=
  is_alnum c || existsb (Ascii.eqb c) (list_ascii_of_string "-_./=:+,@% ").

(** A value that passes as one argument from the function to the script. *)
Definition argument (s : string) : bool := nonempty s && all_chars word_char s.

(** A value that is one list element: not empty, nothing to split on. *)
Definition element (s : string) : bool := nonempty s && list_plain s.

(** What the deployment tool receives for an extra variable: the
    placeholder replaced by the separator itself. *)
Definition restore (ENV_VAR : string) : string :=
  string_REPLACE "<SEMICOLON>" ";" ENV_VAR.

(** Number of downloads in a trace. *)
Definition is_download (a : action) : bool :=
  match a with
  | FILE_DOWNLOAD _ _ => true
  | _ => false
  end.

Definition downloads (t : trace) : nat := List.length (filter is_download t).

(** Actions other than printing. *)
Definition is_message (a : action) : bool :=
  match a with
  | MESSAGE_STATUS _ => true
  | _ => false
  end.

Definition effects (t : trace) : trace := filter (fun a => negb (is_message a)) t.

(** ** Sample worlds *)

Definition creates (path : string) (a : action) : bool :=
  match a with
  | FILE_CREATE_LINK_SYMBOLIC _ linkname => linkname =? path
  | FILE_DOWNLOAD _ dest => dest =? path
  | _ => false
  end.

(** An empty tool cache on a machine where everything works: a path exists
    once it was linked or downloaded. *)
Definition fresh_cache : World :=
  {| file_exists := fun t path => existsb (creates path) t;
     file_contents := fun _ _ => "apt-get install libgtk-3-0";
     status_of := fun _ _ => 0%Z |}.

(** The same machine, except that [chmod] exits with status 1. *)
Definition chmod_fails : World :=
  {| file_exists := fun t path => existsb (creates path) t;
     file_contents := fun _ _ => "apt-get install libgtk-3-0";
     status_of := fun _ a =>
                    match a with
                    | EXECUTE_PROCESS ("chmod" :: _) _ => 1%Z
                    | _ => 0%Z
                    end |}.

(** A machine that keeps what is written: a file contains what the last
    [file(WRITE)] to it stored, and the downloaded plugin script is the one
    line ["apt-get install libgtk-3-0"] before that. *)
Definition last_written (path : string) (t : trace) : string :=
  fold_left (fun content a =>
               match a with
               | FILE_WRITE p c => if p =? path then c else content
               | _ => content
               end)
            t "apt-get install libgtk-3-0".

Definition keeps_files : World :=
  {| file_exists := fun t path => existsb (creates path) t;
     file_contents := fun t path => last_written path t;
     status_of := fun _ _ => 0%Z |}.

(** A computation that ends normally from every trace, only adding to it. *)
Definition succeeds {A : Type} (c : M A) : Prop :=
  forall t, exists a e, c t = (Done a, (t ++ e)%list).

(** A world in which no action fails. *)
Definition nothing_fails (w : World) : Prop :=
  forall h a, status_of w h a = 0%Z.

(** ** What a run may add to the trace *)

(** Whatever the world answers and however the computation ends, it only
    appends to the trace, and what it appends satisfies [Q]. *)
Definition adds {A : Type} (Q : trace -> Prop) (c : M A) : Prop :=
  forall t, exists e, snd (c t) = (t ++ e)%list /\ Q e.

(** Every action is allowed by [P] and there are at most [n] downloads. *)
Definition within (P : action -> Prop) (n : nat) (e : trace) : Prop :=
  Forall P e /\ (downloads e <= n)%nat.

(** [path] lies below the directory [root]. *)
Definition under (root path : string) : Prop := prefix (root ++ "/") path = true.

Definition is_process (a : action) : bool :=
  match a with
  | EXECUTE_PROCESS _ _ => true
  | _ => false
  end.

(** The three downloads of the script: address and destination. *)
Definition linuxdeploy_download (dir : string) : string * string :=
  ("https://github.com/linuxdeploy/linuxdeploy/releases/download/continuous/linuxdeploy-x86_64.AppImage",
   dir ++ "/linuxdeploy-x86_64.AppImage.tmp").
Definition plugin_qt_download (dir : string) : string * string :=
  ("https://github.com/linuxdeploy/linuxdeploy-plugin-qt/releases/download/1-alpha-20250213-1/linuxdeploy-plugin-qt-x86_64.AppImage",
   dir ++ "/linuxdeploy-plugin-qt-x86_64.AppImage.tmp").
Definition plugin_gtk_download (dir : string) : string * string :=
  ("https://raw.githubusercontent.com/linuxdeploy/linuxdeploy-plugin-gtk/master/linuxdeploy-plugin-gtk.sh",
   dir ++ "/linuxdeploy-plugin-gtk.sh").

(** What one call of [ensure_appimage_tool] may do: download from its
    address to its temporary file, remove that file and nothing else, and
    otherwise act on paths below the tool directory. *)
Definition tool_action (dir name url : string) (a : action) : Prop :=
  match a with
  | MESSAGE_STATUS _ | EXECUTE_PROCESS _ _ => True
  | FILE_DOWNLOAD u d => u = url /\ d = dir ++ "/" ++ name ++ ".tmp"
  | FILE_REMOVE p => p = dir ++ "/" ++ name ++ ".tmp"
  | FILE_REMOVE_RECURSE _ => False
  | FILE_MAKE_DIRECTORY p => p = dir
  | FILE_RENAME old new => under dir old /\ under dir new
  | FILE_CREATE_LINK_SYMBOLIC original linkname =>
      under dir original /\ linkname = dir ++ "/" ++ name
  | FILE_READ _ | FILE_WRITE _ _ | FILE_TOUCH _ => False
  end.

(** What a run of the whole script may do, for the binary directory and
    the component it is given. *)
Definition script_action (bindir component : string) (a : action) : Prop :=
  let dir := LINUXDEPLOY_DIR bindir in
  match a with
  | MESSAGE_STATUS _ | EXECUTE_PROCESS _ _ => True
  | FILE_DOWNLOAD u d =>
      (u, d) = linuxdeploy_download dir \/ (u, d) = plugin_qt_download dir
      \/ (u, d) = plugin_gtk_download dir
  | FILE_REMOVE p =>
      p = snd (linuxdeploy_download dir) \/ p = snd (plugin_qt_download dir)
  | FILE_REMOVE_RECURSE p => p = APPDIR bindir component
  | FILE_MAKE_DIRECTORY p | FILE_READ p | FILE_WRITE p _ | FILE_TOUCH p => under bindir p
  | FILE_RENAME old new => under bindir old /\ under bindir new
  | FILE_CREATE_LINK_SYMBOLIC original linkname => under bindir original /\ under bindir linkname
  end.

(** The names between the [/] of a path. *)
Fixpoint segments (s : string) : list string :=
  match s with
  | EmptyString => [EmptyString]
  | String c s' =>
      if (c =? "/")%char then EmptyString :: segments s'
      else match segments s' with
           | seg :: rest => String c seg :: rest
           | [] => [String c EmptyString]
           end
  end.

Definition no_slash (s : string) : bool := all_chars (fun c => negb (c =? "/")%char) s.

(** One of the names of a relative path is [..]. *)
Definition climbs (rel : string) : bool := existsb (String.eqb "..") (segments rel).

(** [path] is [root], a [/] and names none of which is [..]: read from
    [root], it never goes up. *)
Definition below (root path : string) : Prop :=
  exists rel, path = root ++ String "/" rel /\ climbs rel = false.

(** The paths a file command names. *)
Definition file_paths (a : action) : list string :=
  match a with
  | MESSAGE_STATUS _ | EXECUTE_PROCESS _ _ => []
  | FILE_REMOVE_RECURSE p | FILE_MAKE_DIRECTORY p | FILE_REMOVE p
  | FILE_READ p | FILE_WRITE p _ | FILE_TOUCH p => [p]
  | FILE_DOWNLOAD _ dest => [dest]
  | FILE_RENAME old new => [old; new]
  | FILE_CREATE_LINK_SYMBOLIC original linkname => [original; linkname]
  end.

(** A world in which no action other than [bad] fails. *)
Definition fails_only (w : World) (bad : action) : Prop :=
  forall h a, a <> bad -> status_of w h a = 0%Z.

(** A machine on which one given action (a process, a directory creation
    or a file write) ends with status 1 and every other one with status 0,
    and on which no tool is found. *)
Definition action_eqb (a b : action) : bool :=
  match a, b with
  | EXECUTE_PROCESS c1 w1, EXECUTE_PROCESS c2 w2 =>
      (if list_eq_dec string_dec c1 c2 then true else false)
      && match w1, w2 with
         | Some x, Some y => x =? y
         | None, None => true
         | _, _ => false
         end
  | FILE_WRITE p1 c1, FILE_WRITE p2 c2 => (p1 =? p2) && (c1 =? c2)
  | FILE_MAKE_DIRECTORY p1, FILE_MAKE_DIRECTORY p2 => p1 =? p2
  | _, _ => false
  end.

Definition one_failure (bad : action) : World :=
  {| file_exists := fun _ _ => false;
     file_contents := fun _ _ => "";
     status_of := fun _ a => if action_eqb a bad then 1%Z else 0%Z |}.

(** * Properties *)

(** ** The primitives on small inputs *)

Example replace_leftmost : string_REPLACE "aa" "b" "aaa" = "ba".
Proof. reflexivity. Qed.

Example replace_every_occurrence : string_REPLACE "ab" "x" "aabab" = "axx".
Proof. reflexivity. Qed.

Example unquoted_splits : unquoted "a;b;c" = ["a"; "b"; "c"].
Proof. reflexivity. Qed.

Example unquoted_escaped_separator : unquoted "a\;b;c" = ["a;b"; "c"].
Proof. reflexivity. Qed.

Example unquoted_drops_empty_elements : unquoted "a;;b;" = ["a"; "b"].
Proof. reflexivity. Qed.

Example foreach_keeps_empty_elements : foreach_IN_LISTS "a;;b" = ["a"; ""; "b"].
Proof. reflexivity. Qed.

Example unquoted_inside_brackets : unquoted "[a;b];c" = ["[a;b]"; "c"].
Proof. reflexivity. Qed.

Example false_constants :
  cmIsOff "off" = true /\ cmIsOff "" = true /\ cmIsOff "A=B-NOTFOUND" = true
  /\ cmIsOff "FOO=1;BAR=2" = false.
Proof. repeat split. Qed.

Example parse_keywords :
  let ARG := parse ["COMPONENT_NAME"; "viewer"; "DISPLAY_NAME"; "My Viewer";
                    "EXTRA_ENV_VARS"; "A=1"; "B=2"; "EXECUTABLE_NAME"; "viewer-bin"] in
  one_value_of ARG "COMPONENT_NAME" = Some "viewer"
  /\ one_value_of ARG "DISPLAY_NAME" = Some "My Viewer"
  /\ one_value_of ARG "EXECUTABLE_NAME" = Some "viewer-bin"
  /\ one_value_of ARG "PLUGIN_TYPE" = None
  /\ multi_value_of ARG "EXTRA_ENV_VARS" = Some "A=1;B=2".
Proof. vm_compute. repeat split. Qed.

Example shell_reads_escaped_space : shell_argument "-DAPP_NAME=My Viewer" = "-DAPP_NAME=My Viewer".
Proof. reflexivity. Qed.

(** The component of the end-to-end example: descriptor and artifact. *)
Example viewer_descriptor :
  DESKTOP_CONTENT "My Viewer" "viewer-bin"
  = "[Desktop Entry]" ++ nl ++ "Type=Application" ++ nl ++ "Name=My Viewer" ++ nl
    ++ "Exec=viewer-bin" ++ nl ++ "Categories=Utility;" ++ nl ++ "Icon=appname" ++ nl.
Proof. reflexivity. Qed.

Example viewer_artifact :
  appimage_full_path "/b" "My Viewer" = "/b/My_Viewer-x86_64.AppImage".
Proof. reflexivity. Qed.

(** ** [string(REPLACE)] *)

Lemma prefix_char (a c : ascii) (s : string) :
  prefix (String a EmptyString) (String c s) = (a =? c)%char.
Proof.
  simpl. destruct (ascii_dec a c) as [e | n].
  - subst. rewrite Ascii.eqb_refl. now destruct s.
  - symmetry. now apply Ascii.eqb_neq.
Qed.

(** Replacing one character by one character is a character-wise map. *)
Lemma replace_char_map (a b : ascii) (s : string) :
  string_REPLACE (String a EmptyString) (String b EmptyString) s
  = map_string (fun c => if (c =? a)%char then b else c) s.
Proof.
  unfold string_REPLACE.
  induction s as [| c s IH]; [reflexivity |].
  cbn [replace_from map_string]. rewrite prefix_char, Ascii.eqb_sym.
  destruct (c =? a)%char; cbn; now rewrite IH.
Qed.

(** A string in which the match does not occur is left alone. *)
Lemma replace_from_absent (m r s : string) :
  occurs m s = false -> replace_from m r 0 s = s.
Proof.
  induction s as [| c s IH]; [reflexivity |].
  cbn [occurs replace_from]. intros H.
  apply orb_false_iff in H as [Hp Ho].
  rewrite Hp. now rewrite IH.
Qed.

Lemma string_REPLACE_absent (m r s : string) :
  occurs m s = false -> string_REPLACE m r s = s.
Proof.
  destruct m; [reflexivity |]. apply replace_from_absent.
Qed.

Lemma length_append (a b : string) :
  String.length (a ++ b) = String.length a + String.length b.
Proof. induction a; cbn; [reflexivity | now rewrite IHa]. Qed.

Lemma prefix_empty (s : string) : prefix EmptyString s = true.
Proof. now destruct s. Qed.

Lemma prefix_append_right (m a b : string) :
  prefix m a = true -> prefix m (a ++ b) = true.
Proof.
  revert a. induction m as [| c m IH]; intros a; [intros _; apply prefix_empty |].
  destruct a as [| x a]; cbn; [discriminate |].
  destruct (ascii_dec c x); [apply IH | discriminate].
Qed.

Section Growing.
(** A replacement that is longer than the match and starts with it, as
    ["libgtk-3-0t64"] is for ["libgtk-3-0"]. *)
Variables m r : string.
Hypothesis m_nonempty : (0 < String.length m)%nat.
Hypothesis r_longer : (String.length m < String.length r)%nat.
Hypothesis r_starts_with_m : prefix m r = true.

Lemma replace_from_length_ge (s : string) :
  forall k, (String.length s - k <= String.length (replace_from m r k s))%nat.
Proof.
  induction s as [| c s IH]; intros k; [cbn; lia |].
  cbn [replace_from]. destruct k as [| k].
  - destruct (prefix m (String c s)).
    + rewrite length_append. specialize (IH (String.length m - 1)%nat).
      cbn [String.length]. lia.
    + specialize (IH 0%nat). cbn [String.length]. lia.
  - specialize (IH k). cbn [String.length]. lia.
Qed.

Lemma replace_from_grows (s : string) :
  occurs m s = true ->
  (String.length s < String.length (replace_from m r 0 s))%nat.
Proof.
  induction s as [| c s IH]; cbn [occurs].
  - destruct m; [cbn in m_nonempty; lia | discriminate].
  - intros H. cbn [replace_from].
    destruct (prefix m (String c s)) eqn:Hp.
    + rewrite length_append.
      pose proof (replace_from_length_ge s (String.length m - 1)).
      cbn [String.length]. lia.
    + cbn in H. specialize (IH H). cbn [String.length]. lia.
Qed.

Lemma replace_from_keeps_occurrence (s : string) :
  occurs m s = true -> occurs m (replace_from m r 0 s) = true.
Proof.
  induction s as [| c s IH]; cbn [occurs].
  - destruct m; [cbn in m_nonempty; lia | discriminate].
  - intros H. cbn [replace_from].
    destruct (prefix m (String c s)) eqn:Hp.
    + destruct r as [| x r']; [cbn in r_longer; lia |].
      change (String x r' ++ replace_from m (String x r') (String.length m - 1) s)
        with (String x (r' ++ replace_from m (String x r') (String.length m - 1) s)).
      cbn [occurs]. apply orb_true_iff. left.
      change (String x (r' ++ replace_from m (String x r') (String.length m - 1) s))
        with (String x r' ++ replace_from m (String x r') (String.length m - 1) s).
      now apply prefix_append_right.
    + cbn in H. cbn [occurs]. rewrite (IH H). apply orb_true_r.
Qed.

Lemma replace_twice_differs (s : string) :
  occurs m s = true ->
  replace_from m r 0 (replace_from m r 0 s) <> replace_from m r 0 s.
Proof.
  intros H E.
  pose proof (replace_from_grows _ (replace_from_keeps_occurrence _ H)) as G.
  rewrite E in G. lia.
Qed.
End Growing.

(** The patch of line 146 keeps growing a script it has already patched:
    on every content that mentions the library, a second application
    changes the result of the first. *)
Lemma applyTextPatch_changes_patched (s : string) :
  occurs "libgtk-3-0" s = true ->
  applyTextPatch (applyTextPatch s) <> applyTextPatch s.
Proof.
  unfold applyTextPatch, string_REPLACE.
  apply replace_twice_differs; cbn; try lia; reflexivity.
Qed.

(** On a content that does not mention the library the patch does nothing. *)
Lemma applyTextPatch_absent (s : string) :
  occurs "libgtk-3-0" s = false -> applyTextPatch s = s.
Proof. apply string_REPLACE_absent. Qed.

(** C1. The gtk text patch applied to the content ["libgtk-3-0"] gives
    ["libgtk-3-0t64"]; applied again it gives ["libgtk-3-0t64t64"], which is
    not the output of the first application: the replacement still contains
    the text that is searched for.  In the script this happens on the second
    run over one tool cache: the plugin script is found and not downloaded
    again, and the patch is applied to the patched file. *)
Theorem applyTextPatch_twice :
  applyTextPatch "libgtk-3-0" = "libgtk-3-0t64"
  /\ applyTextPatch (applyTextPatch "libgtk-3-0") = "libgtk-3-0t64t64"
  /\ applyTextPatch (applyTextPatch "libgtk-3-0") <> applyTextPatch "libgtk-3-0"
  /\ effects (snd ((setup_plugin keeps_files "/b/tools" "gtk" ;;
                    setup_plugin keeps_files "/b/tools" "gtk") []))
     = [FILE_MAKE_DIRECTORY "/b/tools";
        FILE_DOWNLOAD
          "https://raw.githubusercontent.com/linuxdeploy/linuxdeploy-plugin-gtk/master/linuxdeploy-plugin-gtk.sh"
          "/b/tools/linuxdeploy-plugin-gtk.sh";
        EXECUTE_PROCESS ["chmod"; "+x"; "/b/tools/linuxdeploy-plugin-gtk.sh"] None;
        FILE_READ "/b/tools/linuxdeploy-plugin-gtk.sh";
        FILE_WRITE "/b/tools/linuxdeploy-plugin-gtk.sh" "apt-get install libgtk-3-0t64";
        FILE_READ "/b/tools/linuxdeploy-plugin-gtk.sh";
        FILE_WRITE "/b/tools/linuxdeploy-plugin-gtk.sh" "apt-get install libgtk-3-0t64t64"].
Proof.
  split; [reflexivity |]. split; [reflexivity |]. split.
  - apply applyTextPatch_changes_patched. reflexivity.
  - vm_compute. reflexivity.
Qed.

(** ** The sanitized name and the artifact path *)

(** C7. [sanitized_name] is the display name with every space turned into
    an underscore and every other character kept; ["My App Two"] becomes
    ["My_App_Two"].  A call of the function that gives the three required
    values configures a build whose custom command has the one output
    [<CMAKE_BINARY_DIR>/<sanitized display name>-x86_64.AppImage]; the
    target depends on that file, and it is the only file the install rules
    stage, at the top of the package.  No call configures a build with
    another output. *)
Theorem sanitized_name_artifact_path :
  (forall d, sanitized_name d
             = map_string (fun c => if (c =? " ")%char then "_"%char else c) d)
  /\ sanitized_name "My App Two" = "My_App_Two"
  /\ (forall cmake src bin args component d executable,
         one_value_of (parse args) "COMPONENT_NAME" = Some component ->
         one_value_of (parse args) "DISPLAY_NAME" = Some d ->
         one_value_of (parse args) "EXECUTABLE_NAME" = Some executable ->
         exists c,
           add_appimage_from_component cmake src bin args = Configured c
           /\ OUTPUT (command c) = bin ++ "/" ++ sanitized_name d ++ "-x86_64.AppImage"
           /\ custom_target_DEPENDS c = OUTPUT (command c)
           /\ In (install_FILES (OUTPUT (command c)) "." (component ++ "_package"))
                 (install_rules c)
           /\ (forall file destination package,
                  In (install_FILES file destination package) (install_rules c) ->
                  file = OUTPUT (command c) /\ destination = "."))
  /\ (forall cmake src bin args c,
         add_appimage_from_component cmake src bin args = Configured c ->
         exists d,
           one_value_of (parse args) "DISPLAY_NAME" = Some d
           /\ OUTPUT (command c) = bin ++ "/" ++ sanitized_name d ++ "-x86_64.AppImage"
           /\ custom_target_DEPENDS c = OUTPUT (command c)
           /\ exists component,
               In (install_FILES (OUTPUT (command c)) "." component) (install_rules c)).
Proof.
  split; [| split; [| split]].
  - intros d. apply replace_char_map.
  - reflexivity.
  - intros cmake src bin args component d executable Hc Hd He.
    unfold add_appimage_from_component. rewrite Hc, Hd, He.
    eexists. split; [reflexivity |].
    cbn [OUTPUT command custom_target_DEPENDS install_rules].
    split; [reflexivity |]. split; [reflexivity |]. split.
    + right. left. reflexivity.
    + intros file destination package [H | [H | []]]; [discriminate H |].
      injection H as <- <- _. now split.
  - intros cmake src bin args c. unfold add_appimage_from_component.
    destruct (one_value_of (parse args) "COMPONENT_NAME") as [comp |]; [| discriminate].
    destruct (one_value_of (parse args) "DISPLAY_NAME") as [d |]; [| discriminate].
    destruct (one_value_of (parse args) "EXECUTABLE_NAME") as [e |]; [| discriminate].
    intros H. injection H as <-. exists d.
    cbn [OUTPUT command custom_target_DEPENDS install_rules].
    repeat split. exists (comp ++ "_package"). right. left. reflexivity.
Qed.

Lemma sanitized_name_artifact_path_witness :
  exists c,
    add_appimage_from_component "/usr/bin/cmake" "/src" "/b"
      ["COMPONENT_NAME"; "viewer"; "DISPLAY_NAME"; "My Viewer";
       "EXECUTABLE_NAME"; "viewer-bin"]
    = Configured c
    /\ OUTPUT (command c) = "/b/My_Viewer-x86_64.AppImage"
    /\ custom_target_DEPENDS c = "/b/My_Viewer-x86_64.AppImage"
    /\ In (install_FILES "/b/My_Viewer-x86_64.AppImage" "." "viewer_package")
          (install_rules c).
Proof.
  destruct (proj1 (proj2 (proj2 sanitized_name_artifact_path))
              "/usr/bin/cmake" "/src" "/b"
              ["COMPONENT_NAME"; "viewer"; "DISPLAY_NAME"; "My Viewer";
               "EXECUTABLE_NAME"; "viewer-bin"]
              "viewer" "My Viewer" "viewer-bin" eq_refl eq_refl eq_refl)
    as (c & E & Ho & Hd & Hi & _).
  exists c. split; [exact E |].
  assert (O : OUTPUT (command c) = "/b/My_Viewer-x86_64.AppImage") by exact Ho.
  split; [exact O |]. split; [now rewrite Hd |]. now rewrite <- O.
Defined.

(** ** List expansion *)

Lemma append_assoc (a b c : string) : (a ++ b) ++ c = a ++ b ++ c.
Proof. induction a; cbn; [reflexivity | now rewrite IHa]. Qed.

Lemma append_empty_r (a : string) : a ++ "" = a.
Proof. induction a; cbn; [reflexivity | now rewrite IHa]. Qed.

Lemma all_chars_append (p : ascii -> bool) (a b : string) :
  all_chars p (a ++ b) = all_chars p a && all_chars p b.
Proof. induction a; cbn; [reflexivity | now rewrite IHa, andb_assoc]. Qed.

Lemma list_plain_char_inv (c : ascii) :
  list_plain_char c = true ->
  (c =? "\")%char = false /\ (c =? "[")%char = false
  /\ (c =? "]")%char = false /\ (c =? ";")%char = false.
Proof.
  unfold list_plain_char. rewrite negb_true_iff, !orb_false_iff. tauto.
Qed.

(** A plain character joins the element in progress. *)
Lemma split_list_plain_char (n : Z) (c : ascii) (s : string) :
  list_plain_char c = true ->
  split_list n (String c s) = push c (split_list n s).
Proof.
  intros H. apply list_plain_char_inv in H as (H1 & H2 & H3 & H4).
  cbn [split_list]. now rewrite H1, H2, H3, H4.
Qed.

Lemma split_list_plain (n : Z) (u s : string) :
  list_plain u = true ->
  split_list n (u ++ s) = (u ++ fst (split_list n s), snd (split_list n s)).
Proof.
  induction u as [| c u IH]; intros H.
  - cbn. now destruct (split_list n s).
  - cbn in H. apply andb_true_iff in H as [Hc Hu].
    change (String c u ++ s) with (String c (u ++ s)).
    rewrite split_list_plain_char by assumption.
    now rewrite IH.
Qed.

Lemma split_list_separator (s : string) :
  split_list 0 (String ";" s) = next_element (split_list 0 s).
Proof. reflexivity. Qed.

Lemma split_list_escaped (n : Z) (s : string) :
  split_list n (String "\" (String ";" s)) = push ";" (split_list n s).
Proof. reflexivity. Qed.

(** The elements of a value made of one plain text per element. *)
Lemma split_list_set_list (v : string) (vs : list string) :
  Forall (fun x => list_plain x = true) (v :: vs) ->
  split_list 0 (set_list (v :: vs)) = (v, vs).
Proof.
  revert v. induction vs as [| x vs IH]; intros v H.
  - cbn. inversion H; subst.
    rewrite <- (append_empty_r v) at 1.
    rewrite split_list_plain by assumption. cbn. now rewrite append_empty_r.
  - inversion H as [| ? ? Hv Hrest]; subst.
    change (set_list (v :: x :: vs)) with (v ++ String ";" (set_list (x :: vs))).
    rewrite split_list_plain by assumption.
    rewrite split_list_separator, (IH x Hrest). cbn.
    now rewrite append_empty_r.
Qed.

Lemma element_inv (v : string) :
  element v = true -> nonempty v = true /\ list_plain v = true.
Proof. unfold element. now rewrite andb_true_iff. Qed.

Lemma Forall_element_plain (vs : list string) :
  Forall (fun v => element v = true) vs -> Forall (fun x => list_plain x = true) vs.
Proof. apply Forall_impl. intros v H. now apply element_inv in H. Qed.

Lemma filter_nonempty_elements (vs : list string) :
  Forall (fun v => nonempty v = true) vs -> filter nonempty vs = vs.
Proof.
  induction 1 as [| v vs Hv _ IH]; [reflexivity |].
  cbn. now rewrite Hv, IH.
Qed.

Lemma set_list_nonempty (v : string) (vs : list string) :
  nonempty v = true -> nonempty (set_list (v :: vs)) = true.
Proof. destruct v; [discriminate |]. now destruct vs. Qed.

(** A list of elements written as a value is read back unchanged, by an
    unquoted argument and by [foreach(... IN LISTS)]. *)
Lemma unquoted_set_list (vs : list string) :
  Forall (fun v => element v = true) vs -> unquoted (set_list vs) = vs.
Proof.
  intros H. unfold unquoted, cmExpandList.
  destruct vs as [| v vs]; [reflexivity |].
  rewrite split_list_set_list by now apply Forall_element_plain.
  apply filter_nonempty_elements.
  revert H. apply Forall_impl. intros x Hx. now apply element_inv in Hx.
Qed.

Lemma foreach_set_list (vs : list string) :
  Forall (fun v => element v = true) vs -> foreach_IN_LISTS (set_list vs) = vs.
Proof.
  intros H. destruct vs as [| v vs]; [reflexivity |].
  assert (Hn : nonempty (set_list (v :: vs)) = true).
  { apply set_list_nonempty. inversion H; subst. now apply element_inv. }
  unfold foreach_IN_LISTS. destruct (set_list (v :: vs)) eqn:E; [discriminate |].
  rewrite <- E. unfold cmExpandList.
  now rewrite split_list_set_list by now apply Forall_element_plain.
Qed.

Lemma unquoted_element (v : string) : element v = true -> unquoted v = [v].
Proof.
  intros H. change v with (set_list [v]) at 1.
  apply unquoted_set_list. now constructor.
Qed.

(** ** The environment of the deployment tool *)

(** Where line 156 writes [\;] for a placeholder, the expansion of line 170
    leaves the separator itself. *)
Lemma split_list_unescaped (m v : string) :
  list_plain v = true ->
  forall (k : nat) (n : Z) (s : string),
    split_list n (replace_from m "\;" k v ++ s)
    = (replace_from m ";" k v ++ fst (split_list n s), snd (split_list n s)).
Proof.
  induction v as [| c v IH]; intros H k n s.
  - cbn. now destruct (split_list n s).
  - cbn in H. apply andb_true_iff in H as [Hc Hv].
    cbn [replace_from]. destruct k as [| k]; [| now apply IH].
    destruct (prefix m (String c v)).
    + change (("\;" ++ replace_from m "\;" (String.length m - 1) v) ++ s)
        with (String "\" (String ";" (replace_from m "\;" (String.length m - 1) v ++ s))).
      rewrite split_list_escaped, (IH Hv). reflexivity.
    + change (String c (replace_from m "\;" 0 v) ++ s)
        with (String c (replace_from m "\;" 0 v ++ s)).
      rewrite split_list_plain_char by assumption.
      rewrite (IH Hv). reflexivity.
Qed.

Lemma replace_from_nonempty (m r v : string) :
  nonempty r = true -> nonempty v = true -> nonempty (replace_from m r 0 v) = true.
Proof.
  intros Hr Hv. destruct v as [| c v]; [discriminate |].
  cbn [replace_from]. destruct (prefix m (String c v)); [| reflexivity].
  destruct r; [discriminate | reflexivity].
Qed.

Lemma nonempty_append (a b : string) : nonempty a = true -> nonempty (a ++ b) = true.
Proof. now destruct a. Qed.

(** The loop of lines 155-159 appends one [;]-led entry per variable. *)
Lemma append_loop (vars : list string) :
  forall env, nonempty env = true ->
    fold_left (fun env ENV_VAR => list_APPEND env [unescape ENV_VAR]) vars env
    = env ++ fold_right (fun v acc => String ";" (unescape v ++ acc)) "" vars.
Proof.
  induction vars as [| v vars IH]; intros env H; cbn [fold_left fold_right].
  - now rewrite append_empty_r.
  - rewrite IH.
    + unfold list_APPEND. destruct env as [| c env]; [discriminate |].
      cbn [set_list String.concat]. now rewrite !append_assoc.
    + unfold list_APPEND. destruct env; [discriminate | reflexivity].
Qed.

Lemma split_list_appended (vars : list string) :
  Forall (fun v => list_plain v = true) vars ->
  split_list 0 (fold_right (fun v acc => String ";" (unescape v ++ acc)) "" vars)
  = ("", map restore vars).
Proof.
  induction 1 as [| v vars Hv _ IH]; [reflexivity |].
  cbn [fold_right map]. rewrite split_list_separator.
  change (unescape v) with (replace_from "<SEMICOLON>" "\;" 0 v).
  rewrite (split_list_unescaped "<SEMICOLON>" v Hv 0), IH.
  cbn. now rewrite append_empty_r.
Qed.

Lemma LINUXDEPLOY_ENV_elements (dir path : string) (vars : list string) :
  list_plain dir = true -> list_plain path = true ->
  Forall (fun v => element v = true) vars ->
  deploy_environment dir path (Some (set_list vars))
  = ("PATH=" ++ dir ++ ":" ++ path) :: map restore vars.
Proof.
  intros Hd Hp Hv.
  assert (Hplain : list_plain ("PATH=" ++ dir ++ ":" ++ path) = true).
  { unfold list_plain. rewrite !all_chars_append.
    unfold list_plain in Hd, Hp. now rewrite Hd, Hp. }
  assert (Hsingle : unquoted ("PATH=" ++ dir ++ ":" ++ path) = ["PATH=" ++ dir ++ ":" ++ path]).
  { apply unquoted_element. unfold element. now rewrite Hplain. }
  unfold deploy_environment, LINUXDEPLOY_ENV.
  destruct (set_list vars =? "") eqn:E.
  - apply String.eqb_eq in E. destruct vars as [| v vars]; [exact Hsingle |].
    inversion Hv as [| ? ? Hv1 _]; subst. apply element_inv in Hv1 as [Hn _].
    pose proof (set_list_nonempty v vars Hn) as C. rewrite E in C. discriminate.
  - rewrite foreach_set_list by assumption.
    rewrite append_loop by reflexivity.
    unfold unquoted, cmExpandList.
    rewrite split_list_plain by assumption.
    rewrite split_list_appended by now apply Forall_element_plain.
    cbn [fst snd filter nonempty]. rewrite append_empty_r.
    change (nonempty ("PATH=" ++ dir ++ ":" ++ path)) with true. cbv iota.
    f_equal. apply filter_nonempty_elements.
    apply Forall_map. revert Hv. apply Forall_impl. intros v Hv.
    apply element_inv in Hv as [Hn _].
    now apply replace_from_nonempty.
Qed.

(** C4, as the script has it.  For a base directory and an inherited [PATH]
    without the characters [;], [\], [[] and []], and extra variables that
    are list elements (not empty, without those characters), the environment handed to
    the deployment tool is the entry [PATH=<dir>:<inherited PATH>] followed
    by the extra variables in the order given, each with its placeholders
    restored (and so unchanged when it has none); with no extra variable,
    defined or not, it is the [PATH] entry alone. *)
Theorem deploy_environment_order (dir path : string) (vars : list string) :
  list_plain dir = true -> list_plain path = true ->
  Forall (fun v => element v = true) vars ->
  deploy_environment dir path (Some (set_list vars))
  = ("PATH=" ++ dir ++ ":" ++ path) :: map restore vars
  /\ (Forall (fun v => occurs "<SEMICOLON>" v = false) vars ->
      deploy_environment dir path (Some (set_list vars))
      = ("PATH=" ++ dir ++ ":" ++ path) :: vars)
  /\ deploy_environment dir path None = ["PATH=" ++ dir ++ ":" ++ path]
  /\ deploy_environment dir path (Some "") = ["PATH=" ++ dir ++ ":" ++ path].
Proof.
  intros Hd Hp Hv.
  pose proof (LINUXDEPLOY_ENV_elements dir path vars Hd Hp Hv) as Hgen.
  pose proof (LINUXDEPLOY_ENV_elements dir path [] Hd Hp (Forall_nil _)) as Hnil.
  split; [exact Hgen |]. split; [| split; exact Hnil].
  intros Hfree. rewrite Hgen. f_equal.
  clear - Hfree. induction Hfree as [| v vars Hf _ IH]; [reflexivity |].
  cbn [map]. f_equal; [| exact IH].
  now apply string_REPLACE_absent.
Qed.

Lemma deploy_environment_order_witness :
  deploy_environment "/x" "/usr/bin:/bin" (Some "FOO=a<SEMICOLON>b;BAR=c")
  = ["PATH=/x:/usr/bin:/bin"; "FOO=a;b"; "BAR=c"]
  /\ deploy_environment "/x" "/usr/bin:/bin" (Some "FOO=a;BAR=c d")
     = ["PATH=/x:/usr/bin:/bin"; "FOO=a"; "BAR=c d"].
Proof.
  assert (H : Forall (fun v => element v = true) ["FOO=a<SEMICOLON>b"; "BAR=c"])
    by (repeat constructor).
  assert (H' : Forall (fun v => element v = true) ["FOO=a"; "BAR=c d"])
    by (repeat constructor).
  assert (F : Forall (fun v => occurs "<SEMICOLON>" v = false) ["FOO=a"; "BAR=c d"])
    by (repeat constructor).
  split.
  - exact (proj1 (deploy_environment_order "/x" "/usr/bin:/bin"
                    ["FOO=a<SEMICOLON>b"; "BAR=c"] eq_refl eq_refl H)).
  - exact (proj1 (proj2 (deploy_environment_order "/x" "/usr/bin:/bin"
                           ["FOO=a"; "BAR=c d"] eq_refl eq_refl H')) F).
Defined.

(** Without those conditions the composition is not the [PATH] entry
    followed by the variables.  The value of [LINUXDEPLOY_ENV] is expanded
    as a list at line 170, the inherited [PATH] included: an opening bracket
    in it keeps every later separator from splitting, so all entries arrive
    as one; a separator in it cuts the [PATH] entry in two. *)
Lemma list_syntax_in_PATH_breaks_the_order :
  deploy_environment "/x" "/opt/a[b:/usr/bin" (Some (set_list ["FOO=a"; "BAR=c"]))
  = ["PATH=/x:/opt/a[b:/usr/bin;FOO=a;BAR=c"]
  /\ deploy_environment "/x" "/opt/a[b:/usr/bin" (Some (set_list ["FOO=a"; "BAR=c"]))
     <> ["PATH=/x:/opt/a[b:/usr/bin"; "FOO=a"; "BAR=c"]
  /\ deploy_environment "/x" "/usr/bin;/bin" None = ["PATH=/x:/usr/bin"; "/bin"]
  /\ deploy_environment "/x" "/usr/bin;/bin" None <> ["PATH=/x:/usr/bin;/bin"].
Proof.
  split; [| split; [| split]].
  - vm_compute. reflexivity.
  - vm_compute. discriminate.
  - vm_compute. reflexivity.
  - vm_compute. discriminate.
Qed.

(** ** The script run *)

Lemma bind_Done {A B : Type} (c : M A) (k : A -> M B) (t t' : trace) (a : A) :
  c t = (Done a, t') -> bind c k t = k a t'.
Proof. unfold bind. now intros ->. Qed.

Arguments bind_Done {A B c} k {t t' a} _.

Ltac flat_trace := repeat rewrite <- app_assoc; cbn [app].

Ltac run_script :=
  cbv beta delta [bind ret message_FATAL_ERROR message_STATUS unchecked checked perform
                  EXISTS file_REMOVE_RECURSE file_REMOVE file_MAKE_DIRECTORY file_DOWNLOAD
                  file_RENAME file_CREATE_LINK_SYMBOLIC file_READ file_WRITE file_TOUCH
                  execute_process execute_process_] iota.

(** C5. When the three required variables are defined and the install
    procedure exits with a status other than 0, the script ends in the
    fatal error "Failed to install component <name>"; what it has done by
    then is its opening print, the removal of the staging tree and the
    install procedure, run once: no descriptor, icon, tool or deployment
    action follows. *)
Theorem install_failure_halts (w : World) (v : variables) (t : trace)
        (component app_name executable_name : string) :
  COMPONENT_NAME v = Some component ->
  APP_NAME v = Some app_name ->
  EXECUTABLE_NAME v = Some executable_name ->
  let bindir := CMAKE_CURRENT_BINARY_DIR v in
  let appdir := APPDIR bindir component in
  let received :=
    MESSAGE_STATUS ("[DEBUG LinuxDeployAppImage.cmake] Received EXTRA_ENV_VARS = ["
                    ++ deref (EXTRA_ENV_VARS v) ++ "]") in
  let clean := FILE_REMOVE_RECURSE appdir in
  let install :=
    EXECUTE_PROCESS (install_command (CMAKE_COMMAND v) component appdir) (Some bindir) in
  status_of w (t ++ [received; clean]) install <> 0%Z ->
  script w v t
  = (FATAL_ERROR ("Failed to install component " ++ component),
     (t ++ [received; clean; install])%list).
Proof.
  intros Hc Ha He bindir appdir received clean install Hfail.
  unfold script. rewrite Hc, Ha, He.
  unfold clean_up_previous_AppDir, install_component. run_script.
  flat_trace. fold bindir. fold appdir. fold received clean install.
  apply Z.eqb_neq in Hfail. rewrite Hfail. reflexivity.
Qed.

Lemma install_failure_halts_witness :
  script (mk_World (fun _ _ => false) (fun _ _ => "") (fun _ _ => 2%Z))
         (mk_variables (Some "viewer") (Some "My Viewer") (Some "viewer-bin") None None
                       "/b" "/usr/bin/cmake" "/usr/bin:/bin") []
  = (FATAL_ERROR "Failed to install component viewer",
     [MESSAGE_STATUS "[DEBUG LinuxDeployAppImage.cmake] Received EXTRA_ENV_VARS = []";
      FILE_REMOVE_RECURSE "/b/AppDir_viewer";
      EXECUTE_PROCESS ["/usr/bin/cmake"; "--install"; "."; "--config"; "Release";
                       "--component"; "viewer"; "--prefix"; "/b/AppDir_viewer/usr/bin"]
                      (Some "/b")]).
Proof.
  apply (install_failure_halts
           (mk_World (fun _ _ => false) (fun _ _ => "") (fun _ _ => 2%Z))
           (mk_variables (Some "viewer") (Some "My Viewer") (Some "viewer-bin") None None
                         "/b" "/usr/bin/cmake" "/usr/bin:/bin")
           [] "viewer" "My Viewer" "viewer-bin" eq_refl eq_refl eq_refl).
  cbn. discriminate.
Defined.

(** ** Tool acquisition *)

(** What [ensure_appimage_tool] does when the tool is absent and the cache
    directory can be made: download, [chmod], extraction, and then either
    the fatal error or the rename, the link and the removal of the download. *)
Lemma ensure_appimage_tool_absent (w : World) (dir name url : string) (t : trace) :
  let path := dir ++ "/" ++ name in
  let mkdir := FILE_MAKE_DIRECTORY dir in
  let downloading := MESSAGE_STATUS ("Downloading " ++ name ++ "...") in
  let download := FILE_DOWNLOAD url (path ++ ".tmp") in
  let chmod := EXECUTE_PROCESS ["chmod"; "+x"; path ++ ".tmp"] None in
  let extract := EXECUTE_PROCESS [path ++ ".tmp"; "--appimage-extract"] (Some dir) in
  let rename := FILE_RENAME (dir ++ "/squashfs-root") (dir ++ "/" ++ name ++ "-squashfs-root") in
  let link := FILE_CREATE_LINK_SYMBOLIC (dir ++ "/" ++ name ++ "-squashfs-root/AppRun") path in
  let remove := FILE_REMOVE (path ++ ".tmp") in
  let ready := MESSAGE_STATUS (name ++ " ready") in
  let t4 := (t ++ [mkdir; downloading; download; chmod])%list in
  file_exists w t path = false ->
  status_of w t mkdir = 0%Z ->
  (status_of w t4 extract <> 0%Z ->
   ensure_appimage_tool w dir name url t
   = (FATAL_ERROR ("Failed to extract " ++ name), (t4 ++ [extract])%list))
  /\ (status_of w t4 extract = 0%Z ->
      status_of w (t4 ++ [extract]) rename = 0%Z ->
      status_of w (t4 ++ [extract; rename]) link = 0%Z ->
      ensure_appimage_tool w dir name url t
      = (Done tt, (t4 ++ [extract; rename; link; remove; ready])%list)).
Proof.
  intros path mkdir downloading download chmod extract rename link remove ready t4
         Habsent Hmkdir.
  unfold ensure_appimage_tool. run_script. flat_trace.
  fold path. rewrite Habsent. fold mkdir. rewrite Hmkdir. cbn [Z.eqb].
  fold downloading download chmod extract rename link remove ready.
  unfold t4. flat_trace.
  split.
  - intros Hx. apply Z.eqb_neq in Hx. now rewrite Hx.
  - intros Hx Hr Hl. rewrite Hx. cbn [Z.eqb negb].
    repeat rewrite <- app_assoc in Hr. repeat rewrite <- app_assoc in Hl.
    cbn [app] in Hr, Hl.
    rewrite Hr. cbn [Z.eqb]. flat_trace. rewrite Hl. cbn [Z.eqb]. flat_trace.
    reflexivity.
Qed.

(** With the chmod status 1 and nothing else failing, the tool is set up
    and the call ends normally: no error is raised for the failed chmod. *)
Lemma chmod_failure_is_not_an_error :
  status_of chmod_fails
            [FILE_MAKE_DIRECTORY "/b/linuxdeploy_tools";
             MESSAGE_STATUS "Downloading linuxdeploy-x86_64.AppImage...";
             FILE_DOWNLOAD "https://example.org/linuxdeploy-x86_64.AppImage"
                           "/b/linuxdeploy_tools/linuxdeploy-x86_64.AppImage.tmp"]
            (EXECUTE_PROCESS ["chmod"; "+x";
                              "/b/linuxdeploy_tools/linuxdeploy-x86_64.AppImage.tmp"] None)
  = 1%Z
  /\ fst (ensure_appimage_tool chmod_fails "/b/linuxdeploy_tools"
            "linuxdeploy-x86_64.AppImage"
            "https://example.org/linuxdeploy-x86_64.AppImage" [])
     = Done tt.
Proof. split; reflexivity. Qed.

(** C6, as the script has it.  When marking the download executable
    fails, the call goes on: the status of [chmod] is read by nothing, the
    extraction is started next, and the call ends in an error only if the
    extraction (or the rename or link after it) fails; if they succeed it
    ends normally. *)
Theorem chmod_status_is_discarded (w : World) (dir name url : string) (t : trace) :
  let path := dir ++ "/" ++ name in
  let mkdir := FILE_MAKE_DIRECTORY dir in
  let downloading := MESSAGE_STATUS ("Downloading " ++ name ++ "...") in
  let download := FILE_DOWNLOAD url (path ++ ".tmp") in
  let chmod := EXECUTE_PROCESS ["chmod"; "+x"; path ++ ".tmp"] None in
  let extract := EXECUTE_PROCESS [path ++ ".tmp"; "--appimage-extract"] (Some dir) in
  let rename := FILE_RENAME (dir ++ "/squashfs-root") (dir ++ "/" ++ name ++ "-squashfs-root") in
  let link := FILE_CREATE_LINK_SYMBOLIC (dir ++ "/" ++ name ++ "-squashfs-root/AppRun") path in
  let remove := FILE_REMOVE (path ++ ".tmp") in
  let ready := MESSAGE_STATUS (name ++ " ready") in
  let t4 := (t ++ [mkdir; downloading; download; chmod])%list in
  file_exists w t path = false ->
  status_of w t mkdir = 0%Z ->
  status_of w (t ++ [mkdir; downloading; download]) chmod <> 0%Z ->
  (status_of w t4 extract <> 0%Z ->
   ensure_appimage_tool w dir name url t
   = (FATAL_ERROR ("Failed to extract " ++ name), (t4 ++ [extract])%list))
  /\ (status_of w t4 extract = 0%Z ->
      status_of w (t4 ++ [extract]) rename = 0%Z ->
      status_of w (t4 ++ [extract; rename]) link = 0%Z ->
      ensure_appimage_tool w dir name url t
      = (Done tt, (t4 ++ [extract; rename; link; remove; ready])%list)).
Proof.
  intros path mkdir downloading download chmod extract rename link remove ready t4
         Habsent Hmkdir _.
  now apply ensure_appimage_tool_absent.
Qed.

Lemma chmod_status_is_discarded_witness :
  ensure_appimage_tool chmod_fails "/b/tools" "ld.AppImage" "https://example.org/ld" []
  = (Done tt,
     [FILE_MAKE_DIRECTORY "/b/tools";
      MESSAGE_STATUS "Downloading ld.AppImage...";
      FILE_DOWNLOAD "https://example.org/ld" "/b/tools/ld.AppImage.tmp";
      EXECUTE_PROCESS ["chmod"; "+x"; "/b/tools/ld.AppImage.tmp"] None;
      EXECUTE_PROCESS ["/b/tools/ld.AppImage.tmp"; "--appimage-extract"] (Some "/b/tools");
      FILE_RENAME "/b/tools/squashfs-root" "/b/tools/ld.AppImage-squashfs-root";
      FILE_CREATE_LINK_SYMBOLIC "/b/tools/ld.AppImage-squashfs-root/AppRun" "/b/tools/ld.AppImage";
      FILE_REMOVE "/b/tools/ld.AppImage.tmp";
      MESSAGE_STATUS "ld.AppImage ready"]).
Proof.
  refine (proj2 (chmod_status_is_discarded chmod_fails "/b/tools" "ld.AppImage"
                   "https://example.org/ld" [] eq_refl eq_refl _) eq_refl eq_refl eq_refl).
  cbn. discriminate.
Defined.

Lemma downloads_app (t l : trace) : downloads (t ++ l) = (downloads t + downloads l)%nat.
Proof. unfold downloads. now rewrite filter_app, length_app. Qed.

(** C3. [ensure_appimage_tool] looks at the world through one question
    only, whether the tool's final linked path exists.  If it does, the call
    does nothing: the trace is returned as it was.  So two calls in a row on
    a present tool download nothing; and two calls in a row on an absent
    tool, when the first one succeeds and leaves the link in place, download
    exactly once, the second call adding no action.  The answer does not
    depend on anything else a world may say about existing paths. *)
Theorem ensure_appimage_tool_idempotent (w : World) (dir name url : string) (t : trace) :
  let path := dir ++ "/" ++ name in
  let mkdir := FILE_MAKE_DIRECTORY dir in
  let downloading := MESSAGE_STATUS ("Downloading " ++ name ++ "...") in
  let download := FILE_DOWNLOAD url (path ++ ".tmp") in
  let chmod := EXECUTE_PROCESS ["chmod"; "+x"; path ++ ".tmp"] None in
  let extract := EXECUTE_PROCESS [path ++ ".tmp"; "--appimage-extract"] (Some dir) in
  let rename := FILE_RENAME (dir ++ "/squashfs-root") (dir ++ "/" ++ name ++ "-squashfs-root") in
  let link := FILE_CREATE_LINK_SYMBOLIC (dir ++ "/" ++ name ++ "-squashfs-root/AppRun") path in
  let remove := FILE_REMOVE (path ++ ".tmp") in
  let ready := MESSAGE_STATUS (name ++ " ready") in
  let t4 := (t ++ [mkdir; downloading; download; chmod])%list in
  let t9 := (t4 ++ [extract; rename; link; remove; ready])%list in
  let twice := (ensure_appimage_tool w dir name url ;; ensure_appimage_tool w dir name url) in
  (file_exists w t path = true ->
   ensure_appimage_tool w dir name url t = (Done tt, t) /\ twice t = (Done tt, t))
  /\ (file_exists w t path = false ->
      status_of w t mkdir = 0%Z ->
      status_of w t4 extract = 0%Z ->
      status_of w (t4 ++ [extract]) rename = 0%Z ->
      status_of w (t4 ++ [extract; rename]) link = 0%Z ->
      file_exists w t9 path = true ->
      ensure_appimage_tool w dir name url t = (Done tt, t9)
      /\ ensure_appimage_tool w dir name url t9 = (Done tt, t9)
      /\ twice t = (Done tt, t9)
      /\ downloads t9 = S (downloads t)
      /\ downloads (effects t9) = S (downloads (effects t)))
  /\ (forall w' : World,
         file_exists w' t path = file_exists w t path ->
         (forall h a, status_of w' h a = status_of w h a) ->
         ensure_appimage_tool w' dir name url t = ensure_appimage_tool w dir name url t).
Proof.
  intros path mkdir downloading download chmod extract rename link remove ready t4 t9 twice.
  assert (Hpresent : forall t0, file_exists w t0 path = true ->
                                ensure_appimage_tool w dir name url t0 = (Done tt, t0)).
  { intros t0 H. unfold ensure_appimage_tool. run_script. fold path. now rewrite H. }
  split; [| split].
  - intros H. split; [now apply Hpresent |].
    unfold twice. rewrite (bind_Done _ (Hpresent t H)). now apply Hpresent.
  - intros Habsent Hmkdir Hx Hr Hl Hlinked.
    destruct (ensure_appimage_tool_absent w dir name url t Habsent Hmkdir) as [_ Hok].
    specialize (Hok Hx Hr Hl). fold t9 in Hok.
    repeat split.
    + exact Hok.
    + now apply Hpresent.
    + unfold twice. rewrite (bind_Done _ Hok). now apply Hpresent.
    + unfold t9, t4. rewrite !downloads_app. cbn. lia.
    + unfold t9, t4, effects. rewrite !filter_app, !downloads_app. cbn. lia.
  - intros w' Hsame Hstatus. unfold ensure_appimage_tool. run_script.
    fold path. rewrite Hsame. destruct (file_exists w t path); [reflexivity |].
    repeat (rewrite ?Hstatus;
            match goal with
            | |- context [(status_of w ?h ?a =? 0)%Z] => destruct (status_of w h a =? 0)%Z
            end;
            cbv beta iota; cbn [negb]; try reflexivity).
Qed.

Lemma ensure_appimage_tool_idempotent_witness :
  (ensure_appimage_tool fresh_cache "/b/tools" "ld.AppImage" "https://example.org/ld" ;;
   ensure_appimage_tool fresh_cache "/b/tools" "ld.AppImage" "https://example.org/ld") []
  = (Done tt,
     [FILE_MAKE_DIRECTORY "/b/tools";
      MESSAGE_STATUS "Downloading ld.AppImage...";
      FILE_DOWNLOAD "https://example.org/ld" "/b/tools/ld.AppImage.tmp";
      EXECUTE_PROCESS ["chmod"; "+x"; "/b/tools/ld.AppImage.tmp"] None;
      EXECUTE_PROCESS ["/b/tools/ld.AppImage.tmp"; "--appimage-extract"] (Some "/b/tools");
      FILE_RENAME "/b/tools/squashfs-root" "/b/tools/ld.AppImage-squashfs-root";
      FILE_CREATE_LINK_SYMBOLIC "/b/tools/ld.AppImage-squashfs-root/AppRun" "/b/tools/ld.AppImage";
      FILE_REMOVE "/b/tools/ld.AppImage.tmp";
      MESSAGE_STATUS "ld.AppImage ready"])
  /\ ensure_appimage_tool fresh_cache "/b/tools" "ld.AppImage" "https://example.org/ld"
       [FILE_CREATE_LINK_SYMBOLIC "/b/tools/ld.AppImage-squashfs-root/AppRun"
                                  "/b/tools/ld.AppImage"]
     = (Done tt,
        [FILE_CREATE_LINK_SYMBOLIC "/b/tools/ld.AppImage-squashfs-root/AppRun"
                                   "/b/tools/ld.AppImage"])
  /\ ensure_appimage_tool chmod_fails "/b/tools" "ld.AppImage" "https://example.org/ld" []
     = ensure_appimage_tool
         (mk_World (fun t path => (path =? "/b/tools/ld.AppImage.tmp")
                                  || existsb (creates path) t)
                   (fun _ _ => "")
                   (status_of chmod_fails))
         "/b/tools" "ld.AppImage" "https://example.org/ld" [].
Proof.
  split; [| split].
  - exact (proj1 (proj2 (proj2
             (proj1 (proj2 (ensure_appimage_tool_idempotent fresh_cache "/b/tools"
                              "ld.AppImage" "https://example.org/ld" []))
                eq_refl eq_refl eq_refl eq_refl eq_refl eq_refl)))).
  - exact (proj1 (proj1 (ensure_appimage_tool_idempotent fresh_cache "/b/tools"
                           "ld.AppImage" "https://example.org/ld"
                           [FILE_CREATE_LINK_SYMBOLIC
                              "/b/tools/ld.AppImage-squashfs-root/AppRun"
                              "/b/tools/ld.AppImage"]) eq_refl)).
  - symmetry.
    apply (proj2 (proj2 (ensure_appimage_tool_idempotent chmod_fails "/b/tools"
                           "ld.AppImage" "https://example.org/ld" []))).
    + reflexivity.
    + intros h a. reflexivity.
Defined.

(** ** The plugin branch *)



(** ** Required inputs *)

(** A one-value keyword that is not among the arguments gets no value. *)
Lemma parse_loop_absent (options one_value multi_value : list string) (k : string)
      (args : list string) :
  ~ In k args ->
  forall mode acc,
    mode <> SINGLE k ->
    assoc k (single_values acc) = None ->
    assoc k (single_values (parse_loop options one_value multi_value mode acc args)) = None.
Proof.
  induction args as [| a args IH]; intros Hin mode acc Hmode Hacc; [exact Hacc |].
  assert (Ha : a <> k) by (intros ->; apply Hin; now left).
  assert (Hrest : ~ In k args) by (intros H; apply Hin; now right).
  cbn [parse_loop].
  destruct (is_keyword options a); [apply IH; [assumption | discriminate | assumption] |].
  destruct (is_keyword one_value a);
    [apply IH; [assumption | intros E; injection E; assumption | assumption] |].
  destruct (is_keyword multi_value a); [apply IH; [assumption | discriminate | assumption] |].
  destruct mode as [| k' | k']; apply IH; try assumption; try discriminate.
  cbn. destruct (k =? k') eqn:E; [| assumption].
  apply String.eqb_eq in E. subst k'. now contradiction Hmode.
Qed.

Lemma keyword_not_given (k : string) (args : list string) :
  ~ In k (unquoted (set_list args)) -> one_value_of (parse args) k = None.
Proof.
  intros H. unfold one_value_of, parse, cmake_parse_arguments.
  rewrite parse_loop_absent; try assumption; try discriminate; reflexivity.
Qed.

(** C9. A run of the script in which [COMPONENT_NAME], [APP_NAME] or
    [EXECUTABLE_NAME] is not defined ends in a fatal error after its opening
    print and before any other action; a call of
    [add_appimage_from_component] in which the keyword [COMPONENT_NAME],
    [DISPLAY_NAME] or [EXECUTABLE_NAME] is not given ends in a fatal error
    and configures nothing.  When [PLUGIN_TYPE] is not defined the script
    runs as with ["qt"], and when the keyword is not given the function
    passes [-DPLUGIN_TYPE=qt]. *)
Theorem missing_required_input_is_fatal :
  (forall (w : World) (v : variables) (t : trace),
      COMPONENT_NAME v = None \/ APP_NAME v = None \/ EXECUTABLE_NAME v = None ->
      exists text,
        script w v t
        = (FATAL_ERROR text,
           (t ++ [MESSAGE_STATUS
                    ("[DEBUG LinuxDeployAppImage.cmake] Received EXTRA_ENV_VARS = ["
                     ++ deref (EXTRA_ENV_VARS v) ++ "]")])%list))
  /\ (forall (cmake src bin : string) (args : list string),
         ~ In "COMPONENT_NAME" (unquoted (set_list args))
         \/ ~ In "DISPLAY_NAME" (unquoted (set_list args))
         \/ ~ In "EXECUTABLE_NAME" (unquoted (set_list args)) ->
         exists text, add_appimage_from_component cmake src bin args = Fatal text)
  /\ (forall (w : World) (v : variables) (t : trace),
         PLUGIN_TYPE v = None ->
         script w v t
         = script w (mk_variables (COMPONENT_NAME v) (APP_NAME v) (EXECUTABLE_NAME v)
                                  (Some "qt") (EXTRA_ENV_VARS v)
                                  (CMAKE_CURRENT_BINARY_DIR v) (CMAKE_COMMAND v) (ENV_PATH v)) t)
  /\ (forall (cmake src bin : string) (args : list string) (c : configuration),
         ~ In "PLUGIN_TYPE" (unquoted (set_list args)) ->
         add_appimage_from_component cmake src bin args = Configured c ->
         exists component display executable,
           COMMAND (command c)
           = (unquoted cmake
              ++ unquoted (linuxdeploy_args src bin component display executable "qt"
                             (multi_value_of (parse args) "EXTRA_ENV_VARS")))%list).
Proof.
  repeat split.
  - intros w v t H. unfold script. run_script.
    destruct (COMPONENT_NAME v); [| eexists; reflexivity].
    destruct (APP_NAME v); [| eexists; reflexivity].
    destruct (EXECUTABLE_NAME v); [| eexists; reflexivity].
    destruct H as [H | [H | H]]; discriminate.
  - intros cmake src bin args H. unfold add_appimage_from_component.
    destruct H as [H | [H | H]]; apply keyword_not_given in H.
    + rewrite H. eexists; reflexivity.
    + rewrite H. destruct (one_value_of (parse args) "COMPONENT_NAME"); eexists; reflexivity.
    + rewrite H. destruct (one_value_of (parse args) "COMPONENT_NAME");
        [| eexists; reflexivity].
      destruct (one_value_of (parse args) "DISPLAY_NAME"); eexists; reflexivity.
  - intros w v t H. unfold script. cbn [COMPONENT_NAME APP_NAME EXECUTABLE_NAME PLUGIN_TYPE
      EXTRA_ENV_VARS CMAKE_CURRENT_BINARY_DIR CMAKE_COMMAND ENV_PATH].
    now rewrite H.
  - intros cmake src bin args c H. apply keyword_not_given in H.
    unfold add_appimage_from_component. rewrite H.
    destruct (one_value_of (parse args) "COMPONENT_NAME") as [component |]; [| discriminate].
    destruct (one_value_of (parse args) "DISPLAY_NAME") as [display |]; [| discriminate].
    destruct (one_value_of (parse args) "EXECUTABLE_NAME") as [executable |]; [| discriminate].
    intros E. injection E as <-. now exists component, display, executable.
Qed.

Lemma missing_required_input_is_fatal_witness :
  (exists text,
      script fresh_cache
        (mk_variables (Some "viewer") None (Some "viewer-bin") None None
                      "/b" "/usr/bin/cmake" "/usr/bin:/bin") []
      = (FATAL_ERROR text,
         [MESSAGE_STATUS "[DEBUG LinuxDeployAppImage.cmake] Received EXTRA_ENV_VARS = []"]))
  /\ (exists text,
         add_appimage_from_component "/usr/bin/cmake" "/src" "/b"
           ["COMPONENT_NAME"; "viewer"; "EXECUTABLE_NAME"; "viewer-bin"] = Fatal text)
  /\ script fresh_cache
       (mk_variables (Some "viewer") (Some "My Viewer") (Some "viewer-bin") None None
                     "/b" "/usr/bin/cmake" "/usr/bin:/bin") []
     = script fresh_cache
         (mk_variables (Some "viewer") (Some "My Viewer") (Some "viewer-bin") (Some "qt") None
                       "/b" "/usr/bin/cmake" "/usr/bin:/bin") []
  /\ (exists c component display executable,
         add_appimage_from_component "/usr/bin/cmake" "/src" "/b"
           ["COMPONENT_NAME"; "viewer"; "DISPLAY_NAME"; "My Viewer";
            "EXECUTABLE_NAME"; "viewer-bin"] = Configured c
         /\ COMMAND (command c)
            = (unquoted "/usr/bin/cmake"
               ++ unquoted (linuxdeploy_args "/src" "/b" component display executable "qt"
                              None))%list).
Proof.
  destruct missing_required_input_is_fatal as [Hs [Hf [Hd Hq]]].
  split; [| split; [| split]].
  - apply (Hs fresh_cache
              (mk_variables (Some "viewer") None (Some "viewer-bin") None None
                            "/b" "/usr/bin/cmake" "/usr/bin:/bin") []).
    right. left. reflexivity.
  - apply Hf. right. left. cbn. intros H.
    repeat (destruct H as [H | H]; [discriminate |]). exact H.
  - exact (Hd fresh_cache
              (mk_variables (Some "viewer") (Some "My Viewer") (Some "viewer-bin") None None
                            "/b" "/usr/bin/cmake" "/usr/bin:/bin") [] eq_refl).
  - destruct (add_appimage_from_component "/usr/bin/cmake" "/src" "/b"
                ["COMPONENT_NAME"; "viewer"; "DISPLAY_NAME"; "My Viewer";
                 "EXECUTABLE_NAME"; "viewer-bin"]) as [c |] eqn:E;
      [| vm_compute in E; discriminate].
    assert (Habsent : ~ In "PLUGIN_TYPE"
                        (unquoted (set_list ["COMPONENT_NAME"; "viewer"; "DISPLAY_NAME";
                                             "My Viewer"; "EXECUTABLE_NAME"; "viewer-bin"]))).
    { cbn. intros H. repeat (destruct H as [H | H]; [discriminate |]). exact H. }
    destruct (Hq _ _ _ _ c Habsent E) as (component & display & executable & Hcmd).
    exists c, component, display, executable. split; [reflexivity | exact Hcmd].
Defined.

(** ** The deployment command *)

Lemma succeeds_ret {A : Type} (a : A) : succeeds (ret a).
Proof. intros t. exists a, []. unfold ret. now rewrite app_nil_r. Qed.

Lemma succeeds_bind {A B : Type} (c : M A) (k : A -> M B) :
  succeeds c -> (forall a, succeeds (k a)) -> succeeds (bind c k).
Proof.
  intros Hc Hk t. destruct (Hc t) as (a & e & Ht).
  destruct (Hk a (t ++ e)%list) as (b & e' & Ht').
  exists b, (e ++ e')%list. rewrite (bind_Done _ Ht), Ht'. now rewrite app_assoc.
Qed.

Section NothingFails.
Variable w : World.
Hypothesis Hok : nothing_fails w.

Lemma succeeds_perform (a : action) : succeeds (perform w a).
Proof. intros t. now exists (status_of w t a), [a]. Qed.

Lemma succeeds_unchecked (a : action) : succeeds (unchecked w a).
Proof.
  apply succeeds_bind; [apply succeeds_perform | intros; apply succeeds_ret].
Qed.

Lemma succeeds_checked (a : action) : succeeds (checked w a).
Proof. intros t. exists tt, [a]. unfold checked. now rewrite Hok. Qed.

Lemma succeeds_file_READ (path : string) : succeeds (file_READ w path).
Proof.
  intros t. exists (file_contents w t path), [FILE_READ path].
  unfold file_READ. now rewrite Hok.
Qed.

Lemma succeeds_EXISTS (path : string) : succeeds (EXISTS w path).
Proof.
  intros t. exists (file_exists w t path), []. unfold EXISTS. now rewrite app_nil_r.
Qed.

Lemma succeeds_foreach_message (f : string -> string) (items : list string) :
  succeeds (foreach_message w f items).
Proof.
  induction items as [| x items IH]; cbn [foreach_message].
  - apply succeeds_ret.
  - apply succeeds_bind; [apply succeeds_unchecked | intros _; exact IH].
Qed.

Create HintDb script.
Hint Resolve succeeds_ret succeeds_perform succeeds_unchecked succeeds_checked
     succeeds_file_READ succeeds_EXISTS succeeds_foreach_message : script.

Ltac steps :=
  repeat first
         [ apply succeeds_bind; [| intros ? ]
         | progress auto with script
         | match goal with
           | |- succeeds (if ?b then _ else _) => destruct b
           | |- succeeds (match ?o with Some _ => _ | None => _ end) => destruct o
           end ].

(** The exit status a process returns in such a world is 0. *)
Lemma succeeds_execute_process {B : Type} (command : list string) (wd : option string)
      (k : Z -> M B) :
  succeeds (k 0%Z) -> succeeds (bind (execute_process w command wd) k).
Proof.
  intros Hk t. destruct (Hk (t ++ [EXECUTE_PROCESS command wd])%list) as (b & e & E).
  exists b, (EXECUTE_PROCESS command wd :: e).
  unfold bind, execute_process, perform. rewrite Hok, E.
  now rewrite <- app_assoc.
Qed.

Lemma succeeds_ensure_appimage_tool (dir name url : string) :
  succeeds (ensure_appimage_tool w dir name url).
Proof.
  unfold ensure_appimage_tool, file_MAKE_DIRECTORY, message_STATUS, file_DOWNLOAD,
    execute_process_, file_RENAME, file_CREATE_LINK_SYMBOLIC, file_REMOVE.
  apply succeeds_bind; [auto with script | intros present].
  destruct present; [auto with script |].
  do 4 (apply succeeds_bind; [auto with script | intros _]).
  apply succeeds_execute_process. cbn [Z.eqb negb]. steps.
Qed.

Lemma succeeds_ensure_shell_script (dir name url : string) :
  succeeds (ensure_shell_script w dir name url).
Proof.
  unfold ensure_shell_script, file_MAKE_DIRECTORY, message_STATUS, file_DOWNLOAD,
    execute_process_. steps.
Qed.

Lemma succeeds_setup_plugin (dir plugin : string) : succeeds (setup_plugin w dir plugin).
Proof.
  unfold setup_plugin, file_WRITE.
  destruct (plugin =? "qt"); [apply succeeds_ensure_appimage_tool |].
  destruct (plugin =? "gtk"); [| apply succeeds_ret].
  apply succeeds_bind; [apply succeeds_ensure_shell_script | intros _]. steps.
Qed.

Lemma succeeds_prepare_environment (dir path : string) (extra : option string) :
  forall t, exists e,
    prepare_environment w dir path extra t
    = (Done (LINUXDEPLOY_ENV dir path extra), (t ++ e)%list).
Proof.
  intros t. unfold prepare_environment.
  set (c := (match extra with
             | Some x => if x =? "" then ret tt
                         else foreach_message w
                                (fun ENV_VAR => "[DEBUG] Adding env var: " ++ unescape ENV_VAR)
                                (foreach_IN_LISTS x)
             | None => ret tt
             end ;;
             message_STATUS w "[DEBUG] Final LINUXDEPLOY_ENV list:" ;;
             foreach_message w (fun ENV_VAR => "    " ++ ENV_VAR)
                             (foreach_IN_LISTS (LINUXDEPLOY_ENV dir path extra)))).
  assert (Hc : succeeds c).
  { unfold c, message_STATUS. steps. }
  destruct (Hc t) as ([] & e & E). exists e.
  transitivity ((c ;; ret (LINUXDEPLOY_ENV dir path extra)) t).
  - unfold c, bind. destruct extra as [x |]; [destruct (x =? "") |];
      repeat match goal with |- context [match ?X with _ => _ end] => destruct X end;
      reflexivity.
  - now rewrite (bind_Done _ E).
Qed.

(** Everything the script does before it runs the deployment tool. *)
Lemma script_reaches_linuxdeploy (v : variables) (t : trace)
      (component app_name executable_name : string) :
  COMPONENT_NAME v = Some component ->
  APP_NAME v = Some app_name ->
  EXECUTABLE_NAME v = Some executable_name ->
  let plugin := match PLUGIN_TYPE v with None => "qt" | Some p => p end in
  let bindir := CMAKE_CURRENT_BINARY_DIR v in
  let dir := LINUXDEPLOY_DIR bindir in
  exists e,
    script w v t
    = run_linuxdeploy w (CMAKE_COMMAND v) bindir component
                      (LINUXDEPLOY_ENV dir (ENV_PATH v) (EXTRA_ENV_VARS v))
                      dir (APPDIR bindir component) plugin (t ++ e)%list.
Proof.
  intros Hc Ha He plugin bindir dir. unfold script. rewrite Hc, Ha, He.
  fold plugin bindir dir.
  set (appdir := APPDIR bindir component).
  assert (Hmsg : forall text, succeeds (message_STATUS w text))
    by (intros; unfold message_STATUS; auto with script).
  destruct (Hmsg ("[DEBUG LinuxDeployAppImage.cmake] Received EXTRA_ENV_VARS = ["
                  ++ deref (EXTRA_ENV_VARS v) ++ "]") t) as ([] & e0 & E0).
  rewrite (bind_Done _ E0).
  assert (H1 : succeeds (clean_up_previous_AppDir w appdir))
    by (unfold clean_up_previous_AppDir, file_REMOVE_RECURSE; auto with script).
  destruct (H1 (t ++ e0)%list) as ([] & e1 & E1). rewrite (bind_Done _ E1).
  assert (H2 : succeeds (install_component w (CMAKE_COMMAND v) bindir component appdir)).
  { unfold install_component. apply succeeds_execute_process. cbn [Z.eqb negb].
    apply succeeds_ret. }
  destruct (H2 ((t ++ e0) ++ e1)%list) as ([] & e2 & E2). rewrite (bind_Done _ E2).
  assert (H3 : succeeds (create_desktop_file w appdir app_name executable_name))
    by (unfold create_desktop_file, file_MAKE_DIRECTORY, file_WRITE; steps).
  destruct (H3 (((t ++ e0) ++ e1) ++ e2)%list) as ([] & e3 & E3). rewrite (bind_Done _ E3).
  assert (H4 : succeeds (create_icon_placeholder w appdir))
    by (unfold create_icon_placeholder, file_MAKE_DIRECTORY, file_TOUCH; steps).
  destruct (H4 ((((t ++ e0) ++ e1) ++ e2) ++ e3)%list) as ([] & e4 & E4).
  rewrite (bind_Done _ E4).
  destruct (succeeds_ensure_appimage_tool dir "linuxdeploy-x86_64.AppImage"
              "https://github.com/linuxdeploy/linuxdeploy/releases/download/continuous/linuxdeploy-x86_64.AppImage"
              (((((t ++ e0) ++ e1) ++ e2) ++ e3) ++ e4)%list) as ([] & e5 & E5).
  unfold ensure_linuxdeploy. rewrite (bind_Done _ E5).
  destruct (succeeds_setup_plugin dir plugin
              ((((((t ++ e0) ++ e1) ++ e2) ++ e3) ++ e4) ++ e5)%list) as ([] & e6 & E6).
  rewrite (bind_Done _ E6).
  destruct (succeeds_prepare_environment dir (ENV_PATH v) (EXTRA_ENV_VARS v)
              (((((((t ++ e0) ++ e1) ++ e2) ++ e3) ++ e4) ++ e5) ++ e6)%list) as (e7 & E7).
  rewrite (bind_Done _ E7).
  exists (e0 ++ e1 ++ e2 ++ e3 ++ e4 ++ e5 ++ e6 ++ e7)%list.
  now rewrite !app_assoc.
Qed.

End NothingFails.




(** ** From the function to the script *)

Lemma word_char_inv (c : ascii) :
  word_char c = true ->
  list_plain_char c = true /\ (c =? "\")%char = false
  /\ (nat_of_ascii c =? 34)%nat = false.
Proof.
  destruct c as [[] [] [] [] [] [] [] []]; vm_compute; intros H;
    try discriminate H; repeat split.
Qed.

Lemma shell_plain_char_inv (c : ascii) :
  shell_plain_char c = true ->
  (c =? " ")%char = false /\ (c =? "\")%char = false
  /\ (nat_of_ascii c =? 34)%nat = false.
Proof.
  unfold shell_plain_char. rewrite negb_true_iff, !orb_false_iff. tauto.
Qed.

Lemma all_chars_impl (p q : ascii -> bool) (s : string) :
  (forall c, p c = true -> q c = true) -> all_chars p s = true -> all_chars q s = true.
Proof.
  intros Hpq. induction s as [| c s IH]; [reflexivity |].
  cbn. rewrite !andb_true_iff. intros [Hc Hs]. auto.
Qed.

Lemma argument_element (s : string) : argument s = true -> element s = true.
Proof.
  unfold argument, element. rewrite !andb_true_iff. intros [Hn Hw]. split; [assumption |].
  revert Hw. apply all_chars_impl. intros c Hc. now apply word_char_inv in Hc.
Qed.

(** The shell reads an escaped word back as it was. *)
Lemma sh_word_escaped (s : string) :
  all_chars word_char s = true -> sh_word false (replace_from " " "\ " 0 s) = s.
Proof.
  induction s as [| c s IH]; [reflexivity |].
  cbn [all_chars]. rewrite andb_true_iff. intros [Hc Hs].
  apply word_char_inv in Hc as (_ & Hb & Hq).
  cbn [replace_from]. rewrite prefix_char.
  destruct (" " =? c)%char eqn:E.
  - apply Ascii.eqb_eq in E. subst c. cbn. now rewrite IH.
  - cbn [sh_word]. rewrite Hb, Hq. now rewrite IH.
Qed.

Lemma shell_argument_word (s : string) :
  all_chars word_char s = true -> shell_argument s = s.
Proof. apply sh_word_escaped. Qed.

Lemma occurs_space (s : string) :
  all_chars (fun c => negb (c =? " ")%char) s = true -> occurs " " s = false.
Proof.
  induction s as [| c s IH]; [reflexivity |].
  cbn [all_chars occurs]. rewrite andb_true_iff, negb_true_iff. intros [Hc Hs].
  rewrite prefix_char, Ascii.eqb_sym, Hc. now apply IH.
Qed.

(** Inside double quotes a text without backslash and quote is read as it
    is, up to the closing quote. *)
Lemma sh_word_quoted (x rest : string) :
  all_chars (fun c => negb ((c =? "\")%char || (nat_of_ascii c =? 34)%nat)) x = true ->
  sh_word true (x ++ dq ++ rest) = x ++ sh_word false rest.
Proof.
  induction x as [| c x IH]; [reflexivity |].
  cbn [all_chars]. rewrite andb_true_iff, negb_true_iff, orb_false_iff.
  intros [[Hb Hq] Hx].
  change (String c x ++ dq ++ rest) with (String c (x ++ dq ++ rest)).
  cbn [sh_word]. rewrite Hb, Hq. now rewrite IH.
Qed.

Lemma all_chars_set_list (p : ascii -> bool) (vs : list string) :
  p ";"%char = true ->
  Forall (fun v => all_chars p v = true) vs -> all_chars p (set_list vs) = true.
Proof.
  intros Hsep. induction 1 as [| v vs Hv Hvs IH]; [reflexivity |].
  destruct vs as [| x vs]; [exact Hv |].
  change (set_list (v :: x :: vs)) with (v ++ String ";" (set_list (x :: vs))).
  rewrite all_chars_append. cbn [all_chars]. now rewrite Hv, Hsep, IH.
Qed.

(** Lines 65-66 followed by the expansion of line 79: the escaped
    separators come out as separators, and nothing is split. *)
Lemma split_list_flattened (x : string) :
  all_chars (fun c => list_plain_char c || (c =? ";")%char) x = true ->
  forall (n : Z) (s : string),
    split_list n (replace_from ";" "\;" 0 x ++ s)
    = (x ++ fst (split_list n s), snd (split_list n s)).
Proof.
  induction x as [| c x IH]; intros H n s.
  - cbn. now destruct (split_list n s).
  - cbn [all_chars] in H. apply andb_true_iff in H as [Hc Hx].
    cbn [replace_from]. rewrite prefix_char.
    destruct (";" =? c)%char eqn:E.
    + apply Ascii.eqb_eq in E. subst c.
      change (("\;" ++ replace_from ";" "\;" (String.length ";" - 1) x) ++ s)
        with (String "\" (String ";" (replace_from ";" "\;" 0 x ++ s))).
      rewrite split_list_escaped, (IH Hx). reflexivity.
    + rewrite Ascii.eqb_sym in E. rewrite E, orb_false_r in Hc.
      change (String c (replace_from ";" "\;" 0 x) ++ s)
        with (String c (replace_from ";" "\;" 0 x ++ s)).
      rewrite split_list_plain_char by assumption.
      rewrite (IH Hx). reflexivity.
Qed.

Lemma split_list_element (d rest : string) :
  list_plain d = true ->
  split_list 0 (d ++ String ";" rest)
  = (d, fst (split_list 0 rest) :: snd (split_list 0 rest)).
Proof.
  intros H. rewrite split_list_plain by assumption.
  rewrite split_list_separator. cbn. now rewrite append_empty_r.
Qed.

Lemma split_list_last (d : string) : list_plain d = true -> split_list 0 d = (d, []).
Proof.
  intros H. rewrite <- (append_empty_r d) at 1.
  rewrite split_list_plain by assumption. cbn. now rewrite append_empty_r.
Qed.

Lemma list_APPEND_nonempty (value x : string) (xs : list string) :
  nonempty value = true -> list_APPEND value (x :: xs) = value ++ ";" ++ set_list (x :: xs).
Proof. unfold list_APPEND. now destruct value. Qed.

Lemma argument_plain (s : string) : argument s = true -> list_plain s = true.
Proof. intros H. apply argument_element in H. now apply element_inv in H. Qed.

Lemma argument_word (s : string) : argument s = true -> all_chars word_char s = true.
Proof. unfold argument. rewrite andb_true_iff. tauto. Qed.

(** The argument of line 67 as an element of the list. *)
Lemma split_list_EXTRA_ENV_VARS_argument (x rest : string) :
  all_chars (fun c => list_plain_char c || (c =? ";")%char) x = true ->
  split_list 0 (("-DEXTRA_ENV_VARS:STRING=" ++ dq ++ replace_from ";" "\;" 0 x ++ dq)
                ++ String ";" rest)
  = ("-DEXTRA_ENV_VARS:STRING=" ++ dq ++ x ++ dq,
     fst (split_list 0 rest) :: snd (split_list 0 rest)).
Proof.
  intros Hx. rewrite !append_assoc.
  rewrite (split_list_plain 0 "-DEXTRA_ENV_VARS:STRING=") by reflexivity.
  rewrite (split_list_plain 0 dq) by reflexivity.
  rewrite split_list_flattened by assumption.
  rewrite (split_list_plain 0 dq) by reflexivity.
  rewrite split_list_separator. cbn [fst snd next_element].
  now rewrite ?append_assoc, append_empty_r.
Qed.

Lemma plain_or_separator (vars : list string) :
  Forall (fun v => list_plain v = true) vars ->
  all_chars (fun c => list_plain_char c || (c =? ";")%char) (set_list vars) = true.
Proof.
  intros H. apply all_chars_set_list; [reflexivity |].
  revert H. apply Forall_impl. intros v Hv. revert Hv. apply all_chars_impl.
  intros c ->. reflexivity.
Qed.

(** The list of lines 56-70, read back by the unquoted argument of line 79. *)
Lemma linuxdeploy_args_elements (src bin component display executable plugin : string)
      (vars : list string) :
  argument src = true -> argument bin = true -> argument component = true ->
  argument display = true -> argument executable = true -> argument plugin = true ->
  cmIsOff (set_list vars) = false ->
  Forall (fun v => list_plain v = true) vars ->
  unquoted (linuxdeploy_args src bin component display executable plugin
                             (Some (set_list vars)))
  = ["-DCOMPONENT_NAME=" ++ component;
     "-DAPP_NAME=" ++ display;
     "-DEXECUTABLE_NAME=" ++ executable;
     "-DPLUGIN_TYPE=" ++ plugin;
     "-DCMAKE_CURRENT_BINARY_DIR=" ++ bin;
     "-DEXTRA_ENV_VARS:STRING=" ++ dq ++ set_list vars ++ dq;
     "-P";
     src ++ "/cmake/LinuxDeployAppImage.cmake"].
Proof.
  intros Hsrc Hbin Hc Hd He Hp Hon Hvars.
  assert (Hone : forall pre value,
             element pre = true -> argument value = true ->
             unquoted (pre ++ value) = [pre ++ value]).
  { intros pre value Hn Hv. apply unquoted_element.
    apply element_inv in Hn as [Hn Hpre]. apply argument_plain in Hv.
    unfold element, list_plain in *. rewrite all_chars_append, Hpre, Hv.
    now rewrite nonempty_append. }
  unfold linuxdeploy_args.
  rewrite (Hone "-DCOMPONENT_NAME=" component eq_refl Hc).
  rewrite (Hone "-DAPP_NAME=" display eq_refl Hd).
  rewrite (Hone "-DEXECUTABLE_NAME=" executable eq_refl He).
  rewrite (Hone "-DPLUGIN_TYPE=" plugin eq_refl Hp).
  rewrite (Hone "-DCMAKE_CURRENT_BINARY_DIR=" bin eq_refl Hbin).
  cbn [app]. unfold if_variable. rewrite Hon. cbn [negb deref].
  rewrite list_APPEND_nonempty by reflexivity.
  rewrite list_APPEND_nonempty by reflexivity.
  unfold EXTRA_ENV_VARS_argument, env_vars_string, string_JOIN.
  cbn [set_list String.concat]. unfold string_REPLACE.
  unfold unquoted, cmExpandList.
  set (d1 := "-DCOMPONENT_NAME=" ++ component).
  set (d2 := "-DAPP_NAME=" ++ display).
  set (d3 := "-DEXECUTABLE_NAME=" ++ executable).
  set (d4 := "-DPLUGIN_TYPE=" ++ plugin).
  set (d5 := "-DCMAKE_CURRENT_BINARY_DIR=" ++ bin).
  set (d6 := "-DEXTRA_ENV_VARS:STRING=" ++ dq ++ replace_from ";" "\;" 0 (set_list vars) ++ dq).
  set (d8 := src ++ "/cmake/LinuxDeployAppImage.cmake").
  assert (Hpre : forall pre value,
             list_plain pre = true -> argument value = true ->
             list_plain (pre ++ value) = true).
  { intros pre value Hpre Hv. apply argument_plain in Hv.
    unfold list_plain in *. now rewrite all_chars_append, Hpre, Hv. }
  assert (P1 : list_plain d1 = true) by now apply Hpre.
  assert (P2 : list_plain d2 = true) by now apply Hpre.
  assert (P3 : list_plain d3 = true) by now apply Hpre.
  assert (P4 : list_plain d4 = true) by now apply Hpre.
  assert (P5 : list_plain d5 = true) by now apply Hpre.
  assert (P8 : list_plain d8 = true).
  { unfold d8, list_plain. rewrite all_chars_append.
    apply argument_plain in Hsrc. unfold list_plain in Hsrc. now rewrite Hsrc. }
  assert (E : ((d1 ++ ";" ++ d2 ++ ";" ++ d3 ++ ";" ++ d4 ++ ";" ++ d5) ++ ";" ++ d6)
              ++ ";" ++ "-P" ++ ";" ++ d8
              = d1 ++ String ";" (d2 ++ String ";" (d3 ++ String ";" (d4 ++ String ";"
                  (d5 ++ String ";" (d6 ++ String ";" ("-P" ++ String ";" d8))))))).
  { now rewrite !append_assoc. }
  rewrite E.
  rewrite !split_list_element by assumption.
  unfold d6. rewrite split_list_EXTRA_ENV_VARS_argument by now apply plain_or_separator.
  rewrite (split_list_element "-P") by reflexivity.
  rewrite split_list_last by assumption.
  cbn [fst snd].
  assert (N : forall pre value, nonempty pre = true -> nonempty (pre ++ value) = true)
    by (intros; now apply nonempty_append).
  cbn [filter]. unfold d1, d2, d3, d4, d5.
  rewrite !N by reflexivity.
  replace (nonempty d8) with true; [reflexivity |].
  symmetry. unfold d8. apply nonempty_append.
  unfold argument in Hsrc. apply andb_true_iff in Hsrc. tauto.
Qed.


(** The shell word of the argument of line 67 is the definition of
    [EXTRA_ENV_VARS] with the list as it was before line 66. *)
Lemma shell_argument_EXTRA_ENV_VARS (x : string) :
  all_chars (fun c => negb (c =? " ")%char) x = true ->
  all_chars (fun c => negb ((c =? "\")%char || (nat_of_ascii c =? 34)%nat)) x = true ->
  shell_argument ("-DEXTRA_ENV_VARS:STRING=" ++ dq ++ x ++ dq)
  = "-DEXTRA_ENV_VARS:STRING=" ++ x.
Proof.
  intros Hspace Hquote. unfold shell_argument, escape_old_style.
  rewrite string_REPLACE_absent.
  - change (sh_word false ("-DEXTRA_ENV_VARS:STRING=" ++ dq ++ x ++ dq))
      with ("-DEXTRA_ENV_VARS:STRING=" ++ sh_word true (x ++ dq ++ "")).
    rewrite sh_word_quoted by assumption. cbn [sh_word]. now rewrite append_empty_r.
  - apply occurs_space. rewrite !all_chars_append. now rewrite Hspace.
Qed.

Lemma shell_plain_set_list (vars : list string) :
  Forall (fun v => shell_plain v = true) vars ->
  all_chars (fun c => negb (c =? " ")%char) (set_list vars) = true
  /\ all_chars (fun c => negb ((c =? "\")%char || (nat_of_ascii c =? 34)%nat))
               (set_list vars) = true.
Proof.
  intros H. split; (apply all_chars_set_list; [reflexivity |]);
    revert H; apply Forall_impl; intros v; apply all_chars_impl; intros c Hc;
    apply shell_plain_char_inv in Hc as (H1 & H2 & H3); now rewrite ?H1, ?H2, ?H3.
Qed.

Lemma Forall_and_inv (P Q : string -> bool) (vars : list string) :
  Forall (fun v => P v && Q v = true) vars ->
  Forall (fun v => P v = true) vars /\ Forall (fun v => Q v = true) vars.
Proof.
  intros H. split; revert H; apply Forall_impl; intros v Hv;
    apply andb_true_iff in Hv; tauto.
Qed.

(** C2, as the two files have it.  A call of the function whose required
    values are plain arguments, with a source directory that is an absolute
    path, and whose extra variables are list elements that the shell reads
    as they are inside double quotes (so without a literal [;], a space, a
    backslash, a dollar, a backquote or a double quote) and whose list is
    not a false constant for [if(ARG_EXTRA_ENV_VARS)], reaches the
    deployment tool with the entry [PATH=<bin>/linuxdeploy_tools:<PATH>]
    followed by the extra variables in their order, each placeholder
    [<SEMICOLON>] having become a literal [;]. *)
Theorem placeholder_round_trip (cmake src bin path : string) (args : list string)
        (component display executable : string) (vars : list string) :
  one_value_of (parse args) "COMPONENT_NAME" = Some component ->
  one_value_of (parse args) "DISPLAY_NAME" = Some display ->
  one_value_of (parse args) "EXECUTABLE_NAME" = Some executable ->
  multi_value_of (parse args) "EXTRA_ENV_VARS" = Some (set_list vars) ->
  cmIsOff (set_list vars) = false ->
  argument cmake = true -> argument src = true -> prefix "/" src = true ->
  argument bin = true -> list_plain path = true ->
  argument component = true -> argument display = true -> argument executable = true ->
  argument (match one_value_of (parse args) "PLUGIN_TYPE" with
            | Some p => p
            | None => "qt"
            end) = true ->
  Forall (fun v => element v && shell_plain v = true) vars ->
  packaged_environment cmake src bin path args
  = Some (("PATH=" ++ bin ++ "/linuxdeploy_tools:" ++ path) :: map restore vars).
Proof.
  intros Hc Hd He Hv Hon Acmake Asrc Habs Abin Ppath Ac Ad Ae Ap Hvars.
  apply Forall_and_inv in Hvars as [Helem Hshell].
  pose proof (Forall_element_plain vars Helem) as Hplain.
  destruct (shell_plain_set_list vars Hshell) as [Hspace Hquote].
  unfold packaged_environment, add_appimage_from_component.
  rewrite Hc, Hd, He, Hv.
  set (plugin := match one_value_of (parse args) "PLUGIN_TYPE" with
                 | Some p => p
                 | None => "qt"
                 end) in *.
  cbn [command]. unfold script_variables, argv.
  cbn [COMMAND CMAKE_CURRENT_BINARY_DIR ENV_PATH EXTRA_ENV_VARS WORKING_DIRECTORY].
  rewrite (unquoted_element cmake) by now apply argument_element.
  rewrite linuxdeploy_args_elements by assumption.
  cbn [map app].
  rewrite shell_argument_EXTRA_ENV_VARS by assumption.
  assert (Hword : forall pre value,
             all_chars word_char pre = true -> argument value = true ->
             shell_argument (pre ++ value) = pre ++ value).
  { intros pre value Hpre Hval. apply shell_argument_word.
    apply argument_word in Hval. now rewrite all_chars_append, Hpre, Hval. }
  rewrite !Hword by (try assumption; reflexivity).
  rewrite (shell_argument_word (src ++ "/cmake/LinuxDeployAppImage.cmake"))
    by (rewrite all_chars_append, (argument_word src Asrc); reflexivity).
  change (shell_argument "-P") with "-P".
  assert (Dscript : definition_of (src ++ "/cmake/LinuxDeployAppImage.cmake") = None).
  { destruct src as [| c src']; [discriminate |].
    change (prefix "/" (String c src'))
      with (if ascii_dec "/" c then prefix "" src' else false) in Habs.
    destruct (ascii_dec "/" c) as [<- |]; [reflexivity | discriminate Habs]. }
  assert (Dbin : defined "CMAKE_CURRENT_BINARY_DIR"
                   [shell_argument cmake; "-DCOMPONENT_NAME=" ++ component;
                    "-DAPP_NAME=" ++ display; "-DEXECUTABLE_NAME=" ++ executable;
                    "-DPLUGIN_TYPE=" ++ plugin; "-DCMAKE_CURRENT_BINARY_DIR=" ++ bin;
                    "-DEXTRA_ENV_VARS:STRING=" ++ set_list vars; "-P";
                    src ++ "/cmake/LinuxDeployAppImage.cmake"] = Some bin).
  { cbn [defined]. rewrite Dscript. reflexivity. }
  assert (Dextra : defined "EXTRA_ENV_VARS"
                     [shell_argument cmake; "-DCOMPONENT_NAME=" ++ component;
                      "-DAPP_NAME=" ++ display; "-DEXECUTABLE_NAME=" ++ executable;
                      "-DPLUGIN_TYPE=" ++ plugin; "-DCMAKE_CURRENT_BINARY_DIR=" ++ bin;
                      "-DEXTRA_ENV_VARS:STRING=" ++ set_list vars; "-P";
                      src ++ "/cmake/LinuxDeployAppImage.cmake"] = Some (set_list vars)).
  { cbn [defined]. rewrite Dscript. reflexivity. }
  rewrite Dbin, Dextra. f_equal.
  unfold LINUXDEPLOY_DIR.
  rewrite LINUXDEPLOY_ENV_elements; try assumption.
  - now rewrite append_assoc.
  - unfold list_plain. rewrite all_chars_append.
    apply argument_plain in Abin. unfold list_plain in Abin. now rewrite Abin.
Qed.

Lemma placeholder_round_trip_witness :
  packaged_environment "/usr/bin/cmake" "/src" "/x" "/usr/bin:/bin"
    ["COMPONENT_NAME"; "viewer"; "DISPLAY_NAME"; "My Viewer";
     "EXECUTABLE_NAME"; "viewer-bin"; "PLUGIN_TYPE"; "gtk";
     "EXTRA_ENV_VARS"; "FOO=a<SEMICOLON>b"; "BAR=c"]
  = Some ["PATH=/x/linuxdeploy_tools:/usr/bin:/bin"; "FOO=a;b"; "BAR=c"].
Proof.
  assert (H : Forall (fun v => element v && shell_plain v = true)
                     ["FOO=a<SEMICOLON>b"; "BAR=c"]) by (repeat constructor).
  exact (placeholder_round_trip "/usr/bin/cmake" "/src" "/x" "/usr/bin:/bin"
           ["COMPONENT_NAME"; "viewer"; "DISPLAY_NAME"; "My Viewer";
            "EXECUTABLE_NAME"; "viewer-bin"; "PLUGIN_TYPE"; "gtk";
            "EXTRA_ENV_VARS"; "FOO=a<SEMICOLON>b"; "BAR=c"]
           "viewer" "My Viewer" "viewer-bin" ["FOO=a<SEMICOLON>b"; "BAR=c"]
           eq_refl eq_refl eq_refl eq_refl eq_refl eq_refl eq_refl eq_refl eq_refl
           eq_refl eq_refl eq_refl eq_refl eq_refl H).
Defined.

(** A variable given with a literal [;] in its value does not come back:
    the value is cut at the separator and the rest becomes an entry of its
    own.  Writing the separator escaped in the call changes nothing, the
    escape is used up when the function reads its arguments. *)
Lemma literal_separator_is_split :
  packaged_environment "/usr/bin/cmake" "/src" "/x" "/usr/bin:/bin"
    ["COMPONENT_NAME"; "viewer"; "DISPLAY_NAME"; "My Viewer";
     "EXECUTABLE_NAME"; "viewer-bin"; "EXTRA_ENV_VARS"; "FOO=a;b"; "BAR=c"]
  = Some ["PATH=/x/linuxdeploy_tools:/usr/bin:/bin"; "FOO=a"; "b"; "BAR=c"]
  /\ packaged_environment "/usr/bin/cmake" "/src" "/x" "/usr/bin:/bin"
       ["COMPONENT_NAME"; "viewer"; "DISPLAY_NAME"; "My Viewer";
        "EXECUTABLE_NAME"; "viewer-bin"; "EXTRA_ENV_VARS"; "FOO=a;b"; "BAR=c"]
     <> Some ["PATH=/x/linuxdeploy_tools:/usr/bin:/bin"; "FOO=a;b"; "BAR=c"]
  /\ packaged_environment "/usr/bin/cmake" "/src" "/x" "/usr/bin:/bin"
       ["COMPONENT_NAME"; "viewer"; "DISPLAY_NAME"; "My Viewer";
        "EXECUTABLE_NAME"; "viewer-bin"; "EXTRA_ENV_VARS"; "FOO=a\;b"; "BAR=c"]
     = Some ["PATH=/x/linuxdeploy_tools:/usr/bin:/bin"; "FOO=a"; "b"; "BAR=c"].
Proof.
  split; [| split].
  - vm_compute. reflexivity.
  - vm_compute. discriminate.
  - vm_compute. reflexivity.
Qed.

(** The same on the script alone, whatever the transport: neither a
    literal nor an escaped separator in [EXTRA_ENV_VARS] survives the two
    expansions of lines 155 and 170. *)
Example separator_in_EXTRA_ENV_VARS :
  deploy_environment "/x" "/usr/bin" (Some "FOO=a;b;BAR=c")
  = ["PATH=/x:/usr/bin"; "FOO=a"; "b"; "BAR=c"]
  /\ deploy_environment "/x" "/usr/bin" (Some "FOO=a\;b;BAR=c")
     = ["PATH=/x:/usr/bin"; "FOO=a"; "b"; "BAR=c"].
Proof. split; vm_compute; reflexivity. Qed.

(** * Further properties *)

(** ** What a run adds to the trace *)

Lemma within_nil (P : action -> Prop) (n : nat) : within P n [].
Proof. split; [constructor | cbn; lia]. Qed.

Lemma within_app (P : action -> Prop) (n1 n2 : nat) (e1 e2 : trace) :
  within P n1 e1 -> within P n2 e2 -> within P (n1 + n2) (e1 ++ e2).
Proof.
  intros [F1 D1] [F2 D2]. split.
  - apply Forall_app. now split.
  - rewrite downloads_app. lia.
Qed.

Lemma within_le (P : action -> Prop) (n m : nat) (e : trace) :
  (n <= m)%nat -> within P n e -> within P m e.
Proof. intros H [F D]. split; [assumption | lia]. Qed.

Lemma within_impl (P P' : action -> Prop) (n : nat) (e : trace) :
  (forall a, P a -> P' a) -> within P n e -> within P' n e.
Proof. intros H [F D]. split; [| assumption]. revert F. now apply Forall_impl. Qed.

Lemma adds_impl {A : Type} (P P' : action -> Prop) (n m : nat) (c : M A) :
  (forall a, P a -> P' a) -> (n <= m)%nat ->
  adds (within P n) c -> adds (within P' m) c.
Proof.
  intros HP Hn Hc t. destruct (Hc t) as (e & E & Q). exists e. split; [assumption |].
  apply within_le with n; [assumption |]. now apply within_impl with P.
Qed.

Lemma adds_nothing {A : Type} (P : action -> Prop) (n : nat) (c : M A) :
  (forall t, snd (c t) = t) -> adds (within P n) c.
Proof.
  intros H t. exists []. rewrite H, app_nil_r. split; [reflexivity | apply within_nil].
Qed.

Lemma adds_bind {A B : Type} (P : action -> Prop) (n1 n2 n : nat) (c : M A) (k : A -> M B) :
  adds (within P n1) c -> (forall a, adds (within P n2) (k a)) -> (n1 + n2 <= n)%nat ->
  adds (within P n) (bind c k).
Proof.
  intros Hc Hk Hn t. destruct (Hc t) as (e1 & E1 & Q1). unfold bind.
  destruct (c t) as [[a | text | a] t']; cbn in E1; subst t'.
  - destruct (Hk a (t ++ e1)%list) as (e2 & E2 & Q2). exists (e1 ++ e2)%list.
    rewrite E2, app_assoc. split; [reflexivity |].
    apply within_le with (n1 + n2)%nat; [assumption |]. now apply within_app.
  - exists e1. split; [reflexivity |]. apply within_le with n1; [lia | assumption].
  - exists e1. split; [reflexivity |]. apply within_le with n1; [lia | assumption].
Qed.

Section Adds.
Variable w : World.
Variable P : action -> Prop.

Lemma within_one (a : action) : P a -> within P (if is_download a then 1 else 0) [a].
Proof.
  intros H. split; [now repeat constructor |].
  unfold downloads. cbn. destruct (is_download a); cbn; lia.
Qed.

Lemma adds_perform (a : action) :
  P a -> adds (within P (if is_download a then 1 else 0)) (perform w a).
Proof. intros H t. exists [a]. split; [reflexivity | now apply within_one]. Qed.

Lemma adds_unchecked (a : action) :
  P a -> adds (within P (if is_download a then 1 else 0)) (unchecked w a).
Proof. intros H t. exists [a]. split; [reflexivity | now apply within_one]. Qed.

Lemma adds_checked (a : action) :
  P a -> adds (within P (if is_download a then 1 else 0)) (checked w a).
Proof.
  intros H t. exists [a]. split; [| now apply within_one].
  unfold checked. now destruct (status_of w t a =? 0)%Z.
Qed.

Lemma adds_file_READ (path : string) :
  P (FILE_READ path) -> adds (within P 0) (file_READ w path).
Proof.
  intros H t. exists [FILE_READ path]. split; [| now apply (within_one (FILE_READ path))].
  unfold file_READ. now destruct (status_of w t (FILE_READ path) =? 0)%Z.
Qed.

Lemma adds_foreach_message (f : string -> string) (items : list string) :
  (forall text, P (MESSAGE_STATUS text)) -> adds (within P 0) (foreach_message w f items).
Proof.
  intros H. induction items as [| x items IH]; cbn [foreach_message].
  - now apply adds_nothing.
  - apply adds_bind with 0%nat 0%nat; [| intros _; exact IH | lia].
    apply (adds_unchecked (MESSAGE_STATUS (f x))). apply H.
Qed.

End Adds.

(** ** Paths below a directory *)

Lemma prefix_append_self (m r : string) : prefix m (m ++ r) = true.
Proof.
  induction m as [| c m IH]; [apply prefix_empty |].
  cbn. destruct (ascii_dec c c); [assumption | congruence].
Qed.

Lemma under_child (root x : string) : under root (root ++ String "/" x).
Proof.
  unfold under. replace (root ++ String "/" x) with ((root ++ "/") ++ x).
  - apply prefix_append_self.
  - now rewrite append_assoc.
Qed.

Lemma under_append (root p x : string) : under root p -> under root (p ++ x).
Proof. apply prefix_append_right. Qed.

Lemma under_trans (root mid p : string) : under root mid -> under mid p -> under root p.
Proof.
  unfold under. intros H1 H2.
  assert (Hsplit : forall a b, prefix a b = true -> exists r, b = a ++ r).
  { induction a as [| c a IH]; intros b Hb; [now exists b |].
    destruct b as [| x b]; [discriminate |]. cbn in Hb.
    destruct (ascii_dec c x) as [<- |]; [| discriminate].
    destruct (IH b Hb) as (r & ->). now exists r. }
  destruct (Hsplit _ _ H2) as (r & ->).
  rewrite !append_assoc. now apply prefix_append_right.
Qed.

(** ** The footprint of the acquisition functions and of the script *)

Ltac adds_step n1 n2 := apply adds_bind with n1%nat n2%nat; [| intros ? | cbn; lia].

Lemma ensure_appimage_tool_adds (w : World) (dir name url : string) :
  adds (within (tool_action dir name url) 1) (ensure_appimage_tool w dir name url).
Proof.
  unfold ensure_appimage_tool.
  adds_step 0 1; [now apply adds_nothing |].
  destruct a; [now apply adds_nothing |].
  adds_step 0 1; [apply (adds_checked w _ (FILE_MAKE_DIRECTORY dir)); reflexivity |].
  adds_step 0 1; [apply (adds_unchecked w _ (MESSAGE_STATUS _)); exact I |].
  adds_step 1 0.
  { apply (adds_unchecked w _ (FILE_DOWNLOAD url ((dir ++ "/" ++ name) ++ ".tmp"))).
    cbn. now rewrite !append_assoc. }
  adds_step 0 0; [apply (adds_unchecked w _ (EXECUTE_PROCESS _ _)); exact I |].
  adds_step 0 0; [apply (adds_perform w _ (EXECUTE_PROCESS _ _)); exact I |].
  destruct (negb (a3 =? 0)%Z); [now apply adds_nothing |].
  adds_step 0 0.
  { apply (adds_checked w _ (FILE_RENAME _ _)). split; apply under_child. }
  adds_step 0 0.
  { apply (adds_checked w _ (FILE_CREATE_LINK_SYMBOLIC _ _)).
    split; [apply under_child | reflexivity]. }
  adds_step 0 0.
  { apply (adds_unchecked w _ (FILE_REMOVE _)). cbn. now rewrite !append_assoc. }
  apply (adds_unchecked w _ (MESSAGE_STATUS _)). exact I.
Qed.

Lemma under_tools (bindir : string) : under bindir (LINUXDEPLOY_DIR bindir).
Proof. apply under_child. Qed.

Lemma under_appdir (bindir component : string) : under bindir (APPDIR bindir component).
Proof. apply under_child. Qed.

Lemma tool_action_linuxdeploy (bindir component : string) (a : action) :
  tool_action (LINUXDEPLOY_DIR bindir) "linuxdeploy-x86_64.AppImage"
              (fst (linuxdeploy_download (LINUXDEPLOY_DIR bindir))) a ->
  script_action bindir component a.
Proof.
  destruct a; cbn [tool_action script_action]; try tauto.
  - intros ->. apply under_tools.
  - intros [-> ->]. now left.
  - intros [H1 H2]. split; eapply under_trans; try eassumption; apply under_tools.
  - intros [H1 ->]. split; [eapply under_trans; [apply under_tools | eassumption] |].
    eapply under_trans; [apply under_tools | apply under_child].
Qed.

Lemma tool_action_plugin_qt (bindir component : string) (a : action) :
  tool_action (LINUXDEPLOY_DIR bindir) "linuxdeploy-plugin-qt-x86_64.AppImage"
              (fst (plugin_qt_download (LINUXDEPLOY_DIR bindir))) a ->
  script_action bindir component a.
Proof.
  destruct a; cbn [tool_action script_action]; try tauto.
  - intros ->. apply under_tools.
  - intros [-> ->]. right. now left.
  - intros [H1 H2]. split; eapply under_trans; try eassumption; apply under_tools.
  - intros [H1 ->]. split; [eapply under_trans; [apply under_tools | eassumption] |].
    eapply under_trans; [apply under_tools | apply under_child].
Qed.

Section ScriptFootprint.
Variable w : World.
Variables bindir component : string.

Let allowed := script_action bindir component.

Lemma ensure_shell_script_gtk_adds :
  adds (within allowed 1)
       (ensure_shell_script w (LINUXDEPLOY_DIR bindir) "linuxdeploy-plugin-gtk.sh"
          (fst (plugin_gtk_download (LINUXDEPLOY_DIR bindir)))).
Proof.
  unfold ensure_shell_script.
  adds_step 0 1; [now apply adds_nothing |].
  destruct a; [now apply adds_nothing |].
  adds_step 0 1; [apply (adds_checked w _ (FILE_MAKE_DIRECTORY _)); apply under_tools |].
  adds_step 0 1; [apply (adds_unchecked w _ (MESSAGE_STATUS _)); exact I |].
  adds_step 1 0.
  { apply (adds_unchecked w _ (FILE_DOWNLOAD _ _)). right. right. reflexivity. }
  adds_step 0 0; [apply (adds_unchecked w _ (EXECUTE_PROCESS _ _)); exact I |].
  apply (adds_unchecked w _ (MESSAGE_STATUS _)). exact I.
Qed.

Lemma setup_plugin_adds (plugin : string) :
  adds (within allowed 1) (setup_plugin w (LINUXDEPLOY_DIR bindir) plugin).
Proof.
  unfold setup_plugin.
  destruct (plugin =? "qt").
  { eapply adds_impl; [apply tool_action_plugin_qt | apply le_n |].
    apply ensure_appimage_tool_adds. }
  destruct (plugin =? "gtk"); [| now apply adds_nothing].
  adds_step 1 0; [apply ensure_shell_script_gtk_adds |].
  assert (U : under bindir (LINUXDEPLOY_DIR bindir ++ "/linuxdeploy-plugin-gtk.sh")).
  { eapply under_trans; [apply under_tools | apply under_child]. }
  adds_step 0 0; [now apply adds_file_READ |].
  now apply (adds_checked w _ (FILE_WRITE _ _)).
Qed.

Lemma prepare_environment_adds (path : string) (extra : option string) :
  adds (within allowed 0) (prepare_environment w (LINUXDEPLOY_DIR bindir) path extra).
Proof.
  unfold prepare_environment.
  adds_step 0 0.
  { destruct extra as [x |]; [| now apply adds_nothing].
    destruct (x =? ""); [now apply adds_nothing |].
    apply adds_foreach_message. intros; exact I. }
  adds_step 0 0; [apply (adds_unchecked w _ (MESSAGE_STATUS _)); exact I |].
  adds_step 0 0; [apply adds_foreach_message; intros; exact I |].
  now apply adds_nothing.
Qed.

Lemma run_linuxdeploy_adds (cmake env dir appdir plugin : string) :
  adds (within allowed 0) (run_linuxdeploy w cmake bindir component env dir appdir plugin).
Proof.
  unfold run_linuxdeploy.
  adds_step 0 0; [apply (adds_unchecked w _ (MESSAGE_STATUS _)); exact I |].
  adds_step 0 0; [apply (adds_perform w _ (EXECUTE_PROCESS _ _)); exact I |].
  destruct (negb (a0 =? 0)%Z); [now apply adds_nothing |].
  apply (adds_unchecked w _ (MESSAGE_STATUS _)). exact I.
Qed.

End ScriptFootprint.

(** Whatever the world answers and however the run ends, the script only
    appends actions it is allowed, with at most two downloads. *)
Lemma script_adds (w : World) (v : variables) :
  adds (within (script_action (CMAKE_CURRENT_BINARY_DIR v) (deref (COMPONENT_NAME v))) 2)
       (script w v).
Proof.
  unfold script.
  set (bindir := CMAKE_CURRENT_BINARY_DIR v).
  adds_step 0 2; [apply (adds_unchecked w _ (MESSAGE_STATUS _)); exact I |].
  destruct (COMPONENT_NAME v) as [component |]; [| now apply adds_nothing].
  destruct (APP_NAME v) as [app_name |]; [| now apply adds_nothing].
  destruct (EXECUTABLE_NAME v) as [executable_name |]; [| now apply adds_nothing].
  cbn [deref].
  assert (A : under bindir (APPDIR bindir component)) by apply under_appdir.
  adds_step 0 2.
  { apply (adds_unchecked w _ (FILE_REMOVE_RECURSE _)). reflexivity. }
  adds_step 0 2.
  { unfold install_component. adds_step 0 0.
    - apply (adds_perform w _ (EXECUTE_PROCESS _ _)). exact I.
    - destruct (negb (a1 =? 0)%Z); now apply adds_nothing. }
  adds_step 0 2.
  { unfold create_desktop_file. adds_step 0 0.
    - apply (adds_checked w _ (FILE_MAKE_DIRECTORY _)). now apply under_append.
    - apply (adds_checked w _ (FILE_WRITE _ _)). now apply under_append. }
  adds_step 0 2.
  { unfold create_icon_placeholder. adds_step 0 0.
    - apply (adds_checked w _ (FILE_MAKE_DIRECTORY _)). now apply under_append.
    - apply (adds_checked w _ (FILE_TOUCH _)). now apply under_append. }
  adds_step 1 1.
  { unfold ensure_linuxdeploy. eapply adds_impl; [apply tool_action_linuxdeploy | apply le_n |].
    apply ensure_appimage_tool_adds. }
  adds_step 1 0; [apply setup_plugin_adds |].
  adds_step 0 0; [apply prepare_environment_adds |].
  apply run_linuxdeploy_adds.
Qed.

(** ** Invariants of every run *)


(** X2. A run of the script, in any world and whatever its outcome, downloads
    at most twice, and only from the three addresses written in the script,
    each into its own file of the tool directory. *)
Theorem script_downloads (w : World) (v : variables) (t : trace) :
  exists e,
    snd (script w v t) = (t ++ e)%list
    /\ (downloads e <= 2)%nat
    /\ (forall url dest,
           In (FILE_DOWNLOAD url dest) e ->
           let dir := LINUXDEPLOY_DIR (CMAKE_CURRENT_BINARY_DIR v) in
           (url, dest) = linuxdeploy_download dir
           \/ (url, dest) = plugin_qt_download dir
           \/ (url, dest) = plugin_gtk_download dir).
Proof.
  destruct (script_adds w v t) as (e & E & F & D).
  exists e. repeat split; try assumption.
  intros url dest H. rewrite Forall_forall in F. exact (F _ H).
Qed.


(** *** Paths that stay in the build directory *)

Lemma segments_nonempty (s : string) : segments s <> [].
Proof.
  induction s as [| c s IH]; cbn [segments]; [discriminate |].
  destruct (c =? "/")%char; [discriminate |]. now destruct (segments s).
Qed.

Lemma segments_slash (a b : string) :
  segments (a ++ String "/" b) = (segments a ++ segments b)%list.
Proof.
  induction a as [| c a IH]; [reflexivity |].
  change (String c a ++ String "/" b) with (String c (a ++ String "/" b)).
  cbn [segments]. rewrite IH. destruct (c =? "/")%char; [reflexivity |].
  pose proof (segments_nonempty a) as N. now destruct (segments a).
Qed.

Lemma segments_no_slash (s : string) : no_slash s = true -> segments s = [s].
Proof.
  unfold no_slash. induction s as [| c s IH]; [reflexivity |].
  cbn [all_chars segments]. intros H. apply andb_true_iff in H as [Hc Hs].
  apply negb_true_iff in Hc. rewrite Hc, (IH Hs). reflexivity.
Qed.

Lemma climbs_slash (a b : string) : climbs (a ++ String "/" b) = climbs a || climbs b.
Proof. unfold climbs. now rewrite segments_slash, existsb_app. Qed.

(** A name without [/] that is longer than two characters. *)
Lemma climbs_long (s : string) :
  no_slash s = true -> (2 < String.length s)%nat -> climbs s = false.
Proof.
  intros Hs Hl. unfold climbs. rewrite segments_no_slash by exact Hs.
  cbn [existsb]. rewrite orb_false_r. apply String.eqb_neq. intros E.
  apply (f_equal String.length) in E. cbn in E. lia.
Qed.

Lemma no_slash_append (a b : string) :
  no_slash a = true -> no_slash b = true -> no_slash (a ++ b) = true.
Proof. unfold no_slash. intros Ha Hb. now rewrite all_chars_append, Ha, Hb. Qed.

Lemma climbs_name (name suffix : string) :
  no_slash name = true -> no_slash suffix = true -> (2 < String.length suffix)%nat ->
  climbs (name ++ suffix) = false.
Proof.
  intros Hn Hs Hl. apply climbs_long; [now apply no_slash_append |].
  rewrite length_append. lia.
Qed.

Lemma climbs_prefixed (pre name : string) :
  no_slash pre = true -> no_slash name = true -> (2 < String.length pre)%nat ->
  climbs (pre ++ name) = false.
Proof.
  intros Hp Hn Hl. apply climbs_long; [now apply no_slash_append |].
  rewrite length_append. lia.
Qed.

Lemma below_child (root x : string) : climbs x = false -> below root (root ++ String "/" x).
Proof. intros H. now exists x. Qed.

Lemma below_extend (root p x : string) :
  below root p -> climbs x = false -> below root (p ++ String "/" x).
Proof.
  intros (rel & -> & Hrel) Hx. exists (rel ++ String "/" x). split.
  - now rewrite append_assoc.
  - now rewrite climbs_slash, Hrel, Hx.
Qed.

Section Below.
Variable w : World.
Variable root : string.

Let stays (a : action) : Prop := forall p, In p (file_paths a) -> below root p.

Lemma stays_one (a : action) (p : string) : file_paths a = [p] -> below root p -> stays a.
Proof. intros E H q Hq. rewrite E in Hq. destruct Hq as [<- | []]. exact H. Qed.

Lemma stays_two (a : action) (p q : string) :
  file_paths a = [p; q] -> below root p -> below root q -> stays a.
Proof.
  intros E Hp Hq x Hx. rewrite E in Hx. destruct Hx as [<- | [<- | []]]; assumption.
Qed.

Lemma stays_none (a : action) : file_paths a = [] -> stays a.
Proof. intros E q Hq. rewrite E in Hq. destruct Hq. Qed.

Lemma ensure_appimage_tool_stays (dir name url : string) :
  below root dir -> no_slash name = true -> climbs name = false ->
  adds (within stays 1) (ensure_appimage_tool w dir name url).
Proof.
  intros Hdir Hslash Hname.
  assert (Htool : below root (dir ++ "/" ++ name)) by now apply below_extend.
  assert (Htmp : below root ((dir ++ "/" ++ name) ++ ".tmp")).
  { rewrite append_assoc. apply below_extend; [exact Hdir |].
    apply climbs_name; [exact Hslash | reflexivity | cbn; lia]. }
  assert (Hroot : below root (dir ++ "/" ++ name ++ "-squashfs-root")).
  { apply below_extend; [exact Hdir |].
    apply climbs_name; [exact Hslash | reflexivity | cbn; lia]. }
  unfold ensure_appimage_tool.
  adds_step 0 1; [now apply adds_nothing |].
  destruct a; [now apply adds_nothing |].
  adds_step 0 1.
  { apply (adds_checked w _ (FILE_MAKE_DIRECTORY dir)). now apply stays_one with dir. }
  adds_step 0 1; [apply (adds_unchecked w _ (MESSAGE_STATUS _)); now apply stays_none |].
  adds_step 1 0.
  { apply (adds_unchecked w _ (FILE_DOWNLOAD url ((dir ++ "/" ++ name) ++ ".tmp"))).
    now apply stays_one with ((dir ++ "/" ++ name) ++ ".tmp"). }
  adds_step 0 0; [apply (adds_unchecked w _ (EXECUTE_PROCESS _ _)); now apply stays_none |].
  adds_step 0 0; [apply (adds_perform w _ (EXECUTE_PROCESS _ _)); now apply stays_none |].
  destruct (negb (a3 =? 0)%Z); [now apply adds_nothing |].
  adds_step 0 0.
  { apply (adds_checked w _ (FILE_RENAME _ _)).
    eapply stays_two; [reflexivity | | exact Hroot]. now apply below_extend. }
  adds_step 0 0.
  { apply (adds_checked w _ (FILE_CREATE_LINK_SYMBOLIC _ _)).
    eapply stays_two; [reflexivity | | exact Htool].
    replace (dir ++ "/" ++ name ++ "-squashfs-root/AppRun")
      with ((dir ++ "/" ++ name ++ "-squashfs-root") ++ String "/" "AppRun")
      by now rewrite !append_assoc.
    now apply below_extend. }
  adds_step 0 0.
  { apply (adds_unchecked w _ (FILE_REMOVE _)).
    now apply stays_one with ((dir ++ "/" ++ name) ++ ".tmp"). }
  apply (adds_unchecked w _ (MESSAGE_STATUS _)). now apply stays_none.
Qed.

Lemma ensure_shell_script_stays (dir name url : string) :
  below root dir -> climbs name = false ->
  adds (within stays 1) (ensure_shell_script w dir name url).
Proof.
  intros Hdir Hname.
  assert (Hpath : below root (dir ++ "/" ++ name)) by now apply below_extend.
  unfold ensure_shell_script.
  adds_step 0 1; [now apply adds_nothing |].
  destruct a; [now apply adds_nothing |].
  adds_step 0 1.
  { apply (adds_checked w _ (FILE_MAKE_DIRECTORY dir)). now apply stays_one with dir. }
  adds_step 0 1; [apply (adds_unchecked w _ (MESSAGE_STATUS _)); now apply stays_none |].
  adds_step 1 0.
  { apply (adds_unchecked w _ (FILE_DOWNLOAD _ _)). now apply stays_one with (dir ++ "/" ++ name). }
  adds_step 0 0; [apply (adds_unchecked w _ (EXECUTE_PROCESS _ _)); now apply stays_none |].
  apply (adds_unchecked w _ (MESSAGE_STATUS _)). now apply stays_none.
Qed.

Lemma setup_plugin_stays (dir plugin : string) :
  below root dir -> adds (within stays 1) (setup_plugin w dir plugin).
Proof.
  intros Hdir. unfold setup_plugin.
  destruct (plugin =? "qt"); [now apply ensure_appimage_tool_stays |].
  destruct (plugin =? "gtk"); [| now apply adds_nothing].
  assert (Hpath : below root (dir ++ "/linuxdeploy-plugin-gtk.sh"))
    by now apply below_extend.
  adds_step 1 0; [now apply ensure_shell_script_stays |].
  adds_step 0 0.
  { apply adds_file_READ. now apply stays_one with (dir ++ "/linuxdeploy-plugin-gtk.sh"). }
  apply (adds_checked w _ (FILE_WRITE _ _)).
  now apply stays_one with (dir ++ "/linuxdeploy-plugin-gtk.sh").
Qed.

Lemma prepare_environment_stays (dir path : string) (extra : option string) :
  adds (within stays 0) (prepare_environment w dir path extra).
Proof.
  unfold prepare_environment.
  adds_step 0 0.
  { destruct extra as [x |]; [| now apply adds_nothing].
    destruct (x =? ""); [now apply adds_nothing |].
    apply adds_foreach_message. intros; now apply stays_none. }
  adds_step 0 0; [apply (adds_unchecked w _ (MESSAGE_STATUS _)); now apply stays_none |].
  adds_step 0 0; [apply adds_foreach_message; intros; now apply stays_none |].
  now apply adds_nothing.
Qed.

Lemma run_linuxdeploy_stays (cmake bindir component env dir appdir plugin : string) :
  adds (within stays 0) (run_linuxdeploy w cmake bindir component env dir appdir plugin).
Proof.
  unfold run_linuxdeploy.
  adds_step 0 0; [apply (adds_unchecked w _ (MESSAGE_STATUS _)); now apply stays_none |].
  adds_step 0 0; [apply (adds_perform w _ (EXECUTE_PROCESS _ _)); now apply stays_none |].
  destruct (negb (a0 =? 0)%Z); [now apply adds_nothing |].
  apply (adds_unchecked w _ (MESSAGE_STATUS _)). now apply stays_none.
Qed.

End Below.

Lemma script_stays (w : World) (v : variables) :
  no_slash (deref (COMPONENT_NAME v)) = true ->
  no_slash (deref (EXECUTABLE_NAME v)) = true ->
  adds (within (fun a => forall p, In p (file_paths a) ->
                                   below (CMAKE_CURRENT_BINARY_DIR v) p) 2)
       (script w v).
Proof.
  intros Hc He. unfold script.
  set (bindir := CMAKE_CURRENT_BINARY_DIR v).
  adds_step 0 2; [apply (adds_unchecked w _ (MESSAGE_STATUS _)); now apply stays_none |].
  destruct (COMPONENT_NAME v) as [component |]; [| now apply adds_nothing].
  destruct (APP_NAME v) as [app_name |]; [| now apply adds_nothing].
  destruct (EXECUTABLE_NAME v) as [executable_name |]; [| now apply adds_nothing].
  cbn [deref] in Hc, He.
  assert (A : below bindir (APPDIR bindir component)).
  { apply (below_child bindir ("AppDir_" ++ component)).
    apply (climbs_prefixed "AppDir_" component); [reflexivity | exact Hc | cbn; lia]. }
  assert (T : below bindir (LINUXDEPLOY_DIR bindir)) by now apply below_child.
  assert (D : below bindir (APPDIR bindir component ++ "/usr/share/applications"))
    by now apply below_extend.
  assert (I : below bindir (APPDIR bindir component
                            ++ "/usr/share/icons/hicolor/scalable/apps"))
    by now apply below_extend.
  adds_step 0 2.
  { apply (adds_unchecked w _ (FILE_REMOVE_RECURSE _)). now eapply stays_one. }
  adds_step 0 2.
  { unfold install_component. adds_step 0 0.
    - apply (adds_perform w _ (EXECUTE_PROCESS _ _)). now apply stays_none.
    - destruct (negb (a1 =? 0)%Z); now apply adds_nothing. }
  adds_step 0 2.
  { unfold create_desktop_file. adds_step 0 0.
    - apply (adds_checked w _ (FILE_MAKE_DIRECTORY _)). now eapply stays_one.
    - apply (adds_checked w _ (FILE_WRITE _ _)). eapply stays_one; [reflexivity |].
      replace (APPDIR bindir component ++ "/usr/share/applications/"
               ++ executable_name ++ ".desktop")
        with ((APPDIR bindir component ++ "/usr/share/applications")
              ++ String "/" (executable_name ++ ".desktop"))
        by now rewrite !append_assoc.
      apply below_extend; [exact D |]. apply climbs_name; [exact He | reflexivity | cbn; lia]. }
  adds_step 0 2.
  { unfold create_icon_placeholder. adds_step 0 0.
    - apply (adds_checked w _ (FILE_MAKE_DIRECTORY _)). now eapply stays_one.
    - apply (adds_checked w _ (FILE_TOUCH _)). eapply stays_one; [reflexivity |].
      replace (APPDIR bindir component
               ++ "/usr/share/icons/hicolor/scalable/apps/appname.svg")
        with ((APPDIR bindir component ++ "/usr/share/icons/hicolor/scalable/apps")
              ++ String "/" "appname.svg")
        by now rewrite !append_assoc.
      now apply below_extend. }
  adds_step 1 1.
  { unfold ensure_linuxdeploy. now apply ensure_appimage_tool_stays. }
  adds_step 1 0; [now apply setup_plugin_stays |].
  adds_step 0 0; [apply prepare_environment_stays |].
  apply run_linuxdeploy_stays.
Qed.

(** X4. When the names of the component and of the executable have no [/]
    in them, a run of the script, in any world and whatever its outcome,
    names in its file commands only paths inside
    [CMAKE_CURRENT_BINARY_DIR]: each is that directory followed by names
    none of which is [..]. *)
Theorem script_stays_below_binary_dir (w : World) (v : variables) (t : trace) :
  no_slash (deref (COMPONENT_NAME v)) = true ->
  no_slash (deref (EXECUTABLE_NAME v)) = true ->
  exists e,
    snd (script w v t) = (t ++ e)%list
    /\ forall a p, In a e -> In p (file_paths a) -> below (CMAKE_CURRENT_BINARY_DIR v) p.
Proof.
  intros Hc He.
  destruct (script_stays w v Hc He t) as (e & E & F & D).
  exists e. split; [assumption |].
  intros a p Ha Hp. rewrite Forall_forall in F. exact (F _ Ha _ Hp).
Qed.

Lemma script_stays_below_binary_dir_witness :
  exists e,
    snd (script fresh_cache
           (mk_variables (Some "viewer") (Some "My Viewer") (Some "viewer-bin") (Some "gtk")
                         None "/b" "/usr/bin/cmake" "/usr/bin:/bin") [])
    = ([] ++ e)%list
    /\ forall a p, In a e -> In p (file_paths a) -> below "/b" p.
Proof.
  exact (script_stays_below_binary_dir fresh_cache
           (mk_variables (Some "viewer") (Some "My Viewer") (Some "viewer-bin") (Some "gtk")
                         None "/b" "/usr/bin/cmake" "/usr/bin:/bin") [] eq_refl eq_refl).
Defined.

(** The condition is needed: a component name may lead out of the build
    directory, and then the tree removed at line 97 is outside it. *)
Example component_name_may_leave_the_build_directory :
  In (FILE_REMOVE_RECURSE "/b/AppDir_x/../../etc")
     (snd (script fresh_cache
             (mk_variables (Some "x/../../etc") (Some "My Viewer") (Some "viewer-bin")
                           (Some "wx") None "/b" "/usr/bin/cmake" "/usr/bin:/bin") []))
  /\ ~ below "/b" "/b/AppDir_x/../../etc".
Proof.
  split.
  - vm_compute. right. left. reflexivity.
  - intros (rel & E & H).
    cbn [append] in E. injection E as <-. vm_compute in H. discriminate H.
Qed.

(** ** Runs in which one action fails *)

Lemma action_eqb_eq (a b : action) : action_eqb a b = true -> a = b.
Proof.
  destruct a as [? | ? | d1 | ? ? | ? ? | ? ? | ? | ? | p1 c1 | ? | cmd1 wd1];
    destruct b as [? | ? | d2 | ? ? | ? ? | ? ? | ? | ? | p2 c2 | ? | cmd2 wd2];
    cbn [action_eqb]; try discriminate.
  - intros E. apply String.eqb_eq in E. now subst.
  - rewrite andb_true_iff. intros [E1 E2]. apply String.eqb_eq in E1, E2. now subst.
  - rewrite andb_true_iff. intros [E1 E2].
    destruct (list_eq_dec string_dec cmd1 cmd2) as [-> |]; [| discriminate].
    destruct wd1 as [x |], wd2 as [y |]; try discriminate; [| reflexivity].
    apply String.eqb_eq in E2. now subst.
Qed.

Lemma one_failure_fails_only (bad : action) : fails_only (one_failure bad) bad.
Proof.
  intros h a Ha. cbn [status_of one_failure].
  destruct (action_eqb a bad) eqn:E; [| reflexivity].
  apply action_eqb_eq in E. contradiction.
Qed.

Lemma not_a_process (a : action) (command : list string) (wd : option string) :
  is_process a = false -> a <> EXECUTE_PROCESS command wd.
Proof. intros H ->. discriminate. Qed.

Lemma install_command_length (cmake component appdir : string) :
  (6 <= List.length (install_command cmake component appdir))%nat.
Proof. unfold install_command. rewrite !length_app. cbn. lia. Qed.

Lemma linuxdeploy_command_length (cmake env dir appdir plugin : string) :
  (6 <= List.length (linuxdeploy_command cmake env dir appdir plugin))%nat.
Proof. unfold linuxdeploy_command. rewrite !length_app. cbn. lia. Qed.

Lemma install_is_not_linuxdeploy (cmake component appdir env dir plugin : string)
      (wd wd' : option string) :
  EXECUTE_PROCESS (install_command cmake component appdir) wd
  <> EXECUTE_PROCESS (linuxdeploy_command cmake env dir appdir plugin) wd'.
Proof.
  intros E. injection E as E _. unfold install_command, linuxdeploy_command in E.
  apply app_inv_head in E. discriminate.
Qed.

Section OnlyFails.
Variable w : World.
Variable bad : action.
Hypothesis Hfail : fails_only w bad.

Lemma ok_checked (a : action) : a <> bad -> succeeds (checked w a).
Proof. intros H t. exists tt, [a]. unfold checked. now rewrite Hfail. Qed.

Lemma ok_execute_process {B : Type} (command : list string) (wd : option string)
      (k : Z -> M B) :
  EXECUTE_PROCESS command wd <> bad ->
  succeeds (k 0%Z) -> succeeds (bind (execute_process w command wd) k).
Proof.
  intros H Hk t. destruct (Hk (t ++ [EXECUTE_PROCESS command wd])%list) as (b & e & E).
  exists b, (EXECUTE_PROCESS command wd :: e).
  unfold bind, execute_process, perform. rewrite Hfail by assumption. rewrite E.
  now rewrite <- app_assoc.
Qed.

Lemma ok_unchecked (a : action) : succeeds (unchecked w a).
Proof. intros t. now exists tt, [a]. Qed.

Lemma ok_EXISTS (path : string) : succeeds (EXISTS w path).
Proof.
  intros t. exists (file_exists w t path), []. unfold EXISTS. now rewrite app_nil_r.
Qed.

Lemma ok_foreach_message (f : string -> string) (items : list string) :
  succeeds (foreach_message w f items).
Proof.
  induction items as [| x items IH]; cbn [foreach_message].
  - apply succeeds_ret.
  - apply succeeds_bind; [apply ok_unchecked | intros _; exact IH].
Qed.

Lemma ok_ensure_appimage_tool (dir name url : string) :
  (forall p, bad <> FILE_MAKE_DIRECTORY p) ->
  (forall a b, bad <> FILE_RENAME a b) ->
  (forall a b, bad <> FILE_CREATE_LINK_SYMBOLIC a b) ->
  EXECUTE_PROCESS [(dir ++ "/" ++ name) ++ ".tmp"; "--appimage-extract"] (Some dir) <> bad ->
  succeeds (ensure_appimage_tool w dir name url).
Proof.
  intros Hm Hr Hl Hx. unfold ensure_appimage_tool.
  apply succeeds_bind; [apply ok_EXISTS | intros present].
  destruct present; [apply succeeds_ret |].
  apply succeeds_bind; [apply ok_checked; intros E; exact (Hm _ (eq_sym E)) | intros _].
  do 3 (apply succeeds_bind; [apply ok_unchecked | intros _]).
  apply ok_execute_process; [assumption |]. cbn [Z.eqb negb].
  apply succeeds_bind; [apply ok_checked; intros E; exact (Hr _ _ (eq_sym E)) | intros _].
  apply succeeds_bind; [apply ok_checked; intros E; exact (Hl _ _ (eq_sym E)) | intros _].
  apply succeeds_bind; [apply ok_unchecked | intros _]. apply ok_unchecked.
Qed.

Lemma ok_ensure_shell_script (dir name url : string) :
  (forall p, bad <> FILE_MAKE_DIRECTORY p) ->
  succeeds (ensure_shell_script w dir name url).
Proof.
  intros Hm. unfold ensure_shell_script.
  apply succeeds_bind; [apply ok_EXISTS | intros present].
  destruct present; [apply succeeds_ret |].
  apply succeeds_bind; [apply ok_checked; intros E; exact (Hm _ (eq_sym E)) | intros _].
  do 3 (apply succeeds_bind; [apply ok_unchecked | intros _]). apply ok_unchecked.
Qed.

Lemma ok_prepare_environment (dir path : string) (extra : option string) :
  forall t, exists e,
    prepare_environment w dir path extra t
    = (Done (LINUXDEPLOY_ENV dir path extra), (t ++ e)%list).
Proof.
  intros t. unfold prepare_environment.
  assert (H1 : succeeds (match extra with
                         | Some x => if x =? "" then ret tt
                                     else foreach_message w
                                            (fun ENV_VAR => "[DEBUG] Adding env var: "
                                                            ++ unescape ENV_VAR)
                                            (foreach_IN_LISTS x)
                         | None => ret tt
                         end)).
  { destruct extra as [x |]; [| apply succeeds_ret].
    destruct (x =? ""); [apply succeeds_ret | apply ok_foreach_message]. }
  destruct (H1 t) as ([] & e1 & E1). rewrite (bind_Done _ E1).
  destruct (ok_unchecked (MESSAGE_STATUS "[DEBUG] Final LINUXDEPLOY_ENV list:") (t ++ e1)%list)
    as ([] & e2 & E2).
  unfold message_STATUS. rewrite (bind_Done _ E2).
  destruct (ok_foreach_message (fun ENV_VAR => "    " ++ ENV_VAR)
              (foreach_IN_LISTS (LINUXDEPLOY_ENV dir path extra)) ((t ++ e1) ++ e2)%list)
    as ([] & e3 & E3).
  rewrite (bind_Done _ E3). exists (e1 ++ e2 ++ e3)%list. unfold ret.
  now rewrite !app_assoc.
Qed.

End OnlyFails.

Lemma ok_file_READ (w : World) (bad : action) (path : string) :
  fails_only w bad -> FILE_READ path <> bad -> succeeds (file_READ w path).
Proof.
  intros Hfail H t. exists (file_contents w t path), [FILE_READ path].
  unfold file_READ. now rewrite Hfail.
Qed.

Lemma extraction_is_not_linuxdeploy (tmp : string) (wd wd' : option string)
      (cmake env dir appdir plugin : string) :
  EXECUTE_PROCESS [tmp; "--appimage-extract"] wd
  <> EXECUTE_PROCESS (linuxdeploy_command cmake env dir appdir plugin) wd'.
Proof.
  intros E. injection E as E _.
  pose proof (linuxdeploy_command_length cmake env dir appdir plugin) as L.
  rewrite <- E in L. cbn in L. lia.
Qed.

(** When nothing but the deployment tool fails, the script gets as far as
    running it. *)
Lemma script_reaches_failing_linuxdeploy (w : World) (v : variables) (t : trace)
      (component app_name executable_name : string) :
  COMPONENT_NAME v = Some component ->
  APP_NAME v = Some app_name ->
  EXECUTABLE_NAME v = Some executable_name ->
  let plugin := match PLUGIN_TYPE v with None => "qt" | Some p => p end in
  let bindir := CMAKE_CURRENT_BINARY_DIR v in
  let dir := LINUXDEPLOY_DIR bindir in
  let env := LINUXDEPLOY_ENV dir (ENV_PATH v) (EXTRA_ENV_VARS v) in
  let appdir := APPDIR bindir component in
  fails_only w (EXECUTE_PROCESS (linuxdeploy_command (CMAKE_COMMAND v) env dir appdir plugin)
                                (Some bindir)) ->
  exists e,
    script w v t
    = run_linuxdeploy w (CMAKE_COMMAND v) bindir component env dir appdir plugin (t ++ e)%list.
Proof.
  intros Hc Ha He plugin bindir dir env appdir Hfail.
  set (bad := EXECUTE_PROCESS (linuxdeploy_command (CMAKE_COMMAND v) env dir appdir plugin)
                              (Some bindir)) in *.
  assert (Hfile : forall a, is_process a = false -> a <> bad)
    by (intros a H; now apply not_a_process).
  assert (Htool : forall name url, succeeds (ensure_appimage_tool w dir name url)).
  { intros name url. apply (ok_ensure_appimage_tool w bad Hfail); try discriminate.
    apply extraction_is_not_linuxdeploy. }
  unfold script. rewrite Hc, Ha, He. fold plugin bindir dir appdir.
  destruct (ok_unchecked w (MESSAGE_STATUS
              ("[DEBUG LinuxDeployAppImage.cmake] Received EXTRA_ENV_VARS = ["
               ++ deref (EXTRA_ENV_VARS v) ++ "]")) t) as ([] & e0 & E0).
  unfold message_STATUS at 1. rewrite (bind_Done _ E0).
  destruct (ok_unchecked w (FILE_REMOVE_RECURSE appdir) (t ++ e0)%list) as ([] & e1 & E1).
  unfold clean_up_previous_AppDir, file_REMOVE_RECURSE. rewrite (bind_Done _ E1).
  assert (H2 : succeeds (install_component w (CMAKE_COMMAND v) bindir component appdir)).
  { unfold install_component. apply (ok_execute_process w bad Hfail).
    - apply install_is_not_linuxdeploy.
    - cbn [Z.eqb negb]. apply succeeds_ret. }
  destruct (H2 ((t ++ e0) ++ e1)%list) as ([] & e2 & E2). rewrite (bind_Done _ E2).
  assert (H3 : succeeds (create_desktop_file w appdir app_name executable_name)).
  { unfold create_desktop_file, file_MAKE_DIRECTORY, file_WRITE.
    apply succeeds_bind; [| intros _]; apply (ok_checked w bad Hfail); now apply Hfile. }
  destruct (H3 (((t ++ e0) ++ e1) ++ e2)%list) as ([] & e3 & E3). rewrite (bind_Done _ E3).
  assert (H4 : succeeds (create_icon_placeholder w appdir)).
  { unfold create_icon_placeholder, file_MAKE_DIRECTORY, file_TOUCH.
    apply succeeds_bind; [| intros _]; apply (ok_checked w bad Hfail); now apply Hfile. }
  destruct (H4 ((((t ++ e0) ++ e1) ++ e2) ++ e3)%list) as ([] & e4 & E4).
  rewrite (bind_Done _ E4).
  destruct (Htool "linuxdeploy-x86_64.AppImage"
              "https://github.com/linuxdeploy/linuxdeploy/releases/download/continuous/linuxdeploy-x86_64.AppImage"
              (((((t ++ e0) ++ e1) ++ e2) ++ e3) ++ e4)%list) as ([] & e5 & E5).
  unfold ensure_linuxdeploy. rewrite (bind_Done _ E5).
  assert (H6 : succeeds (setup_plugin w dir plugin)).
  { unfold setup_plugin. destruct (plugin =? "qt"); [apply Htool |].
    destruct (plugin =? "gtk"); [| apply succeeds_ret].
    apply succeeds_bind; [apply (ok_ensure_shell_script w bad Hfail); discriminate | intros _].
    apply succeeds_bind; [apply (ok_file_READ w bad _ Hfail); now apply Hfile | intros c].
    apply (ok_checked w bad Hfail). now apply Hfile. }
  destruct (H6 ((((((t ++ e0) ++ e1) ++ e2) ++ e3) ++ e4) ++ e5)%list) as ([] & e6 & E6).
  rewrite (bind_Done _ E6).
  destruct (ok_prepare_environment w dir (ENV_PATH v) (EXTRA_ENV_VARS v)
              (((((((t ++ e0) ++ e1) ++ e2) ++ e3) ++ e4) ++ e5) ++ e6)%list) as (e7 & E7).
  rewrite (bind_Done _ E7).
  exists (e0 ++ e1 ++ e2 ++ e3 ++ e4 ++ e5 ++ e6 ++ e7)%list.
  now rewrite !app_assoc.
Qed.

(** X5. If the deployment tool exits with a status other than 0 while
    everything before it succeeds, the script ends in the fatal error
    "linuxdeploy failed for <component>"; the deployment tool is the last
    thing it ran, and the message of success is not printed. *)
Theorem linuxdeploy_failure_is_fatal (w : World) (v : variables) (t : trace)
        (component app_name executable_name : string) :
  COMPONENT_NAME v = Some component ->
  APP_NAME v = Some app_name ->
  EXECUTABLE_NAME v = Some executable_name ->
  let plugin := match PLUGIN_TYPE v with None => "qt" | Some p => p end in
  let bindir := CMAKE_CURRENT_BINARY_DIR v in
  let dir := LINUXDEPLOY_DIR bindir in
  let env := LINUXDEPLOY_ENV dir (ENV_PATH v) (EXTRA_ENV_VARS v) in
  let deploy :=
    EXECUTE_PROCESS (linuxdeploy_command (CMAKE_COMMAND v) env dir (APPDIR bindir component)
                                         plugin) (Some bindir) in
  fails_only w deploy ->
  (forall h, status_of w h deploy <> 0%Z) ->
  exists done,
    script w v t
    = (FATAL_ERROR ("linuxdeploy failed for " ++ component), (t ++ done ++ [deploy])%list).
Proof.
  intros Hc Ha He plugin bindir dir env deploy Hfail Hbad.
  destruct (script_reaches_failing_linuxdeploy w v t component app_name executable_name
              Hc Ha He Hfail) as (e & E).
  rewrite E. fold plugin bindir dir env.
  exists (e ++ [MESSAGE_STATUS ("Running linuxdeploy for " ++ component ++ "...")])%list.
  unfold run_linuxdeploy. run_script. fold deploy.
  specialize (Hbad ((t ++ e) ++ [MESSAGE_STATUS ("Running linuxdeploy for " ++ component ++ "...")])%list).
  apply Z.eqb_neq in Hbad. rewrite Hbad. cbn [negb].
  now rewrite <- !app_assoc.
Qed.

Lemma linuxdeploy_failure_is_fatal_witness :
  exists done,
    script
      (one_failure
         (EXECUTE_PROCESS
            ["/usr/bin/cmake"; "-E"; "env"; "PATH=/b/linuxdeploy_tools:/usr/bin";
             "/b/linuxdeploy_tools/linuxdeploy-x86_64.AppImage"; "--appdir";
             "/b/AppDir_viewer"; "--plugin"; "qt"; "--output"; "appimage"] (Some "/b")))
      (mk_variables (Some "viewer") (Some "My Viewer") (Some "viewer-bin") None None
                    "/b" "/usr/bin/cmake" "/usr/bin") []
    = (FATAL_ERROR "linuxdeploy failed for viewer",
       ([] ++ done
           ++ [EXECUTE_PROCESS
                 ["/usr/bin/cmake"; "-E"; "env"; "PATH=/b/linuxdeploy_tools:/usr/bin";
                  "/b/linuxdeploy_tools/linuxdeploy-x86_64.AppImage"; "--appdir";
                  "/b/AppDir_viewer"; "--plugin"; "qt"; "--output"; "appimage"]
                 (Some "/b")])%list).
Proof.
  apply (linuxdeploy_failure_is_fatal
           (one_failure
              (EXECUTE_PROCESS
                 ["/usr/bin/cmake"; "-E"; "env"; "PATH=/b/linuxdeploy_tools:/usr/bin";
                  "/b/linuxdeploy_tools/linuxdeploy-x86_64.AppImage"; "--appdir";
                  "/b/AppDir_viewer"; "--plugin"; "qt"; "--output"; "appimage"] (Some "/b")))
           (mk_variables (Some "viewer") (Some "My Viewer") (Some "viewer-bin") None None
                         "/b" "/usr/bin/cmake" "/usr/bin") []
           "viewer" "My Viewer" "viewer-bin" eq_refl eq_refl eq_refl).
  - apply one_failure_fails_only.
  - intros h. vm_compute. discriminate.
Defined.

Lemma install_is_not_extraction (cmake component appdir tmp : string)
      (wd wd' : option string) :
  EXECUTE_PROCESS (install_command cmake component appdir) wd
  <> EXECUTE_PROCESS [tmp; "--appimage-extract"] wd'.
Proof.
  intros E. injection E as E _.
  pose proof (install_command_length cmake component appdir) as L.
  rewrite E in L. cbn in L. lia.
Qed.

(** X6. If the deployment tool is not in the cache and its self-extraction
    exits with a status other than 0 while everything else succeeds, the
    script ends in the fatal error "Failed to extract
    linuxdeploy-x86_64.AppImage" right after the extraction: the download is
    neither renamed, linked nor removed, no plugin is looked for and the
    deployment tool is not run. *)
Theorem extraction_failure_is_fatal (w : World) (v : variables) (t : trace)
        (component app_name executable_name : string) :
  COMPONENT_NAME v = Some component ->
  APP_NAME v = Some app_name ->
  EXECUTABLE_NAME v = Some executable_name ->
  let bindir := CMAKE_CURRENT_BINARY_DIR v in
  let appdir := APPDIR bindir component in
  let dir := LINUXDEPLOY_DIR bindir in
  let tool := dir ++ "/linuxdeploy-x86_64.AppImage" in
  let tmp := tool ++ ".tmp" in
  let extract := EXECUTE_PROCESS [tmp; "--appimage-extract"] (Some dir) in
  fails_only w extract ->
  (forall h, status_of w h extract <> 0%Z) ->
  (forall h, file_exists w h tool = false) ->
  script w v t
  = (FATAL_ERROR "Failed to extract linuxdeploy-x86_64.AppImage",
     (t ++ [MESSAGE_STATUS ("[DEBUG LinuxDeployAppImage.cmake] Received EXTRA_ENV_VARS = ["
                            ++ deref (EXTRA_ENV_VARS v) ++ "]");
            FILE_REMOVE_RECURSE appdir;
            EXECUTE_PROCESS (install_command (CMAKE_COMMAND v) component appdir) (Some bindir);
            FILE_MAKE_DIRECTORY (appdir ++ "/usr/share/applications");
            FILE_WRITE (appdir ++ "/usr/share/applications/" ++ executable_name ++ ".desktop")
                       (DESKTOP_CONTENT app_name executable_name);
            FILE_MAKE_DIRECTORY (appdir ++ "/usr/share/icons/hicolor/scalable/apps");
            FILE_TOUCH (appdir ++ "/usr/share/icons/hicolor/scalable/apps/appname.svg");
            FILE_MAKE_DIRECTORY dir;
            MESSAGE_STATUS "Downloading linuxdeploy-x86_64.AppImage...";
            FILE_DOWNLOAD (fst (linuxdeploy_download dir)) tmp;
            EXECUTE_PROCESS ["chmod"; "+x"; tmp] None;
            extract])%list).
Proof.
  intros Hc Ha He bindir appdir dir tool tmp extract Hfail Hbad Habsent.
  unfold script. rewrite Hc, Ha, He. fold bindir. fold appdir. fold dir.
  unfold clean_up_previous_AppDir, install_component, create_desktop_file,
    create_icon_placeholder, ensure_linuxdeploy, ensure_appimage_tool.
  change (dir ++ "/" ++ "linuxdeploy-x86_64.AppImage") with tool.
  fold tmp. run_script. fold extract.
  rewrite Hfail by apply install_is_not_extraction. cbn [Z.eqb negb].
  rewrite Hfail by discriminate. cbn [Z.eqb].
  rewrite Hfail by discriminate. cbn [Z.eqb].
  rewrite Hfail by discriminate. cbn [Z.eqb].
  rewrite Hfail by discriminate. cbn [Z.eqb].
  rewrite Habsent.
  rewrite Hfail by discriminate. cbn [Z.eqb].
  match goal with
  | |- context [status_of w ?h extract] =>
      pose proof (Hbad h) as Hx; apply Z.eqb_neq in Hx; rewrite Hx
  end.
  cbn [negb]. flat_trace. reflexivity.
Qed.

Lemma extraction_failure_is_fatal_witness :
  fst (script
         (one_failure
            (EXECUTE_PROCESS ["/b/linuxdeploy_tools/linuxdeploy-x86_64.AppImage.tmp";
                              "--appimage-extract"] (Some "/b/linuxdeploy_tools")))
         (mk_variables (Some "viewer") (Some "My Viewer") (Some "viewer-bin") None None
                       "/b" "/usr/bin/cmake" "/usr/bin") [])
  = FATAL_ERROR "Failed to extract linuxdeploy-x86_64.AppImage".
Proof.
  rewrite (extraction_failure_is_fatal
             (one_failure
                (EXECUTE_PROCESS ["/b/linuxdeploy_tools/linuxdeploy-x86_64.AppImage.tmp";
                                  "--appimage-extract"] (Some "/b/linuxdeploy_tools")))
             (mk_variables (Some "viewer") (Some "My Viewer") (Some "viewer-bin") None None
                           "/b" "/usr/bin/cmake" "/usr/bin") []
             "viewer" "My Viewer" "viewer-bin" eq_refl eq_refl eq_refl).
  - reflexivity.
  - apply one_failure_fails_only.
  - intros h. vm_compute. discriminate.
  - intros h. reflexivity.
Defined.

(** ** The stages of a successful run *)

Lemma message_STATUS_exact (w : World) (text : string) (t : trace) :
  message_STATUS w text t = (Done tt, (t ++ [MESSAGE_STATUS text])%list).
Proof. reflexivity. Qed.

Lemma clean_up_exact (w : World) (appdir : string) (t : trace) :
  clean_up_previous_AppDir w appdir t = (Done tt, (t ++ [FILE_REMOVE_RECURSE appdir])%list).
Proof. reflexivity. Qed.

Lemma install_component_exact (w : World) (cmake bindir component appdir : string)
      (t : trace) :
  status_of w t (EXECUTE_PROCESS (install_command cmake component appdir) (Some bindir)) = 0%Z ->
  install_component w cmake bindir component appdir t
  = (Done tt,
     (t ++ [EXECUTE_PROCESS (install_command cmake component appdir) (Some bindir)])%list).
Proof. intros H. unfold install_component. run_script. now rewrite H. Qed.

Lemma create_desktop_file_exact (w : World) (appdir app_name executable_name : string)
      (t : trace) :
  nothing_fails w ->
  create_desktop_file w appdir app_name executable_name t
  = (Done tt,
     (t ++ [FILE_MAKE_DIRECTORY (appdir ++ "/usr/share/applications");
            FILE_WRITE (appdir ++ "/usr/share/applications/" ++ executable_name ++ ".desktop")
                       (DESKTOP_CONTENT app_name executable_name)])%list).
Proof.
  intros Hok. unfold create_desktop_file. run_script. rewrite !Hok. cbn [Z.eqb].
  rewrite Hok. cbn [Z.eqb]. flat_trace. reflexivity.
Qed.

Lemma create_icon_placeholder_exact (w : World) (appdir : string) (t : trace) :
  nothing_fails w ->
  create_icon_placeholder w appdir t
  = (Done tt,
     (t ++ [FILE_MAKE_DIRECTORY (appdir ++ "/usr/share/icons/hicolor/scalable/apps");
            FILE_TOUCH (appdir ++ "/usr/share/icons/hicolor/scalable/apps/appname.svg")])%list).
Proof.
  intros Hok. unfold create_icon_placeholder. run_script. rewrite !Hok. cbn [Z.eqb].
  rewrite Hok. cbn [Z.eqb]. flat_trace. reflexivity.
Qed.

(** X7. In a world where nothing fails, a run with the required variables
    defined ends normally and its trace is, in this order: the opening
    print, the removal of the staging tree, the install procedure, the
    descriptor directory and the descriptor written with its content, the
    icon directory and the empty icon, then whatever the tools and the
    environment prints need, and last the announcement, the deployment tool
    and the message of success. *)
Theorem successful_run_order (w : World) (v : variables) (t : trace)
        (component app_name executable_name : string) :
  nothing_fails w ->
  COMPONENT_NAME v = Some component ->
  APP_NAME v = Some app_name ->
  EXECUTABLE_NAME v = Some executable_name ->
  let plugin := match PLUGIN_TYPE v with None => "qt" | Some p => p end in
  let bindir := CMAKE_CURRENT_BINARY_DIR v in
  let appdir := APPDIR bindir component in
  let dir := LINUXDEPLOY_DIR bindir in
  let env := LINUXDEPLOY_ENV dir (ENV_PATH v) (EXTRA_ENV_VARS v) in
  exists tools,
    script w v t
    = (Done tt,
       (t ++ [MESSAGE_STATUS ("[DEBUG LinuxDeployAppImage.cmake] Received EXTRA_ENV_VARS = ["
                              ++ deref (EXTRA_ENV_VARS v) ++ "]");
              FILE_REMOVE_RECURSE appdir;
              EXECUTE_PROCESS (install_command (CMAKE_COMMAND v) component appdir)
                              (Some bindir);
              FILE_MAKE_DIRECTORY (appdir ++ "/usr/share/applications");
              FILE_WRITE (appdir ++ "/usr/share/applications/" ++ executable_name ++ ".desktop")
                         (DESKTOP_CONTENT app_name executable_name);
              FILE_MAKE_DIRECTORY (appdir ++ "/usr/share/icons/hicolor/scalable/apps");
              FILE_TOUCH (appdir ++ "/usr/share/icons/hicolor/scalable/apps/appname.svg")]
          ++ tools
          ++ [MESSAGE_STATUS ("Running linuxdeploy for " ++ component ++ "...");
              EXECUTE_PROCESS (linuxdeploy_command (CMAKE_COMMAND v) env dir appdir plugin)
                              (Some bindir);
              MESSAGE_STATUS ("AppImage created successfully for " ++ component)])%list).
Proof.
  intros Hok Hc Ha He plugin bindir appdir dir env.
  unfold script. rewrite Hc, Ha, He. fold plugin bindir. fold appdir. fold dir.
  set (t7 := (t ++ [MESSAGE_STATUS ("[DEBUG LinuxDeployAppImage.cmake] Received EXTRA_ENV_VARS = ["
                              ++ deref (EXTRA_ENV_VARS v) ++ "]");
              FILE_REMOVE_RECURSE appdir;
              EXECUTE_PROCESS (install_command (CMAKE_COMMAND v) component appdir)
                              (Some bindir);
              FILE_MAKE_DIRECTORY (appdir ++ "/usr/share/applications");
              FILE_WRITE (appdir ++ "/usr/share/applications/" ++ executable_name ++ ".desktop")
                         (DESKTOP_CONTENT app_name executable_name);
              FILE_MAKE_DIRECTORY (appdir ++ "/usr/share/icons/hicolor/scalable/apps");
              FILE_TOUCH (appdir ++ "/usr/share/icons/hicolor/scalable/apps/appname.svg")])%list).
  destruct (succeeds_ensure_appimage_tool w Hok dir "linuxdeploy-x86_64.AppImage"
              "https://github.com/linuxdeploy/linuxdeploy/releases/download/continuous/linuxdeploy-x86_64.AppImage"
              t7) as ([] & e5 & E5).
  destruct (succeeds_setup_plugin w Hok dir plugin (t7 ++ e5)%list) as ([] & e6 & E6).
  destruct (succeeds_prepare_environment w dir (ENV_PATH v) (EXTRA_ENV_VARS v)
              ((t7 ++ e5) ++ e6)%list) as (e7 & E7).
  exists (e5 ++ e6 ++ e7)%list.
  rewrite (bind_Done _ (message_STATUS_exact w _ t)).
  rewrite (bind_Done _ (clean_up_exact w appdir _)).
  rewrite (bind_Done _ (install_component_exact w _ bindir component appdir _ (Hok _ _))).
  rewrite (bind_Done _ (create_desktop_file_exact w appdir app_name executable_name _ Hok)).
  rewrite (bind_Done _ (create_icon_placeholder_exact w appdir _ Hok)).
  flat_trace. fold t7.
  unfold ensure_linuxdeploy. rewrite (bind_Done _ E5), (bind_Done _ E6), (bind_Done _ E7).
  fold env. unfold run_linuxdeploy. run_script. rewrite Hok. cbn [Z.eqb negb].
  unfold t7. flat_trace. reflexivity.
Qed.

Lemma successful_run_order_witness :
  exists tools,
    script fresh_cache
      (mk_variables (Some "viewer") (Some "My Viewer") (Some "viewer-bin") (Some "gtk") None
                    "/b" "/usr/bin/cmake" "/usr/bin") []
    = (Done tt,
       ([] ++ [MESSAGE_STATUS "[DEBUG LinuxDeployAppImage.cmake] Received EXTRA_ENV_VARS = []";
               FILE_REMOVE_RECURSE "/b/AppDir_viewer";
               EXECUTE_PROCESS ["/usr/bin/cmake"; "--install"; "."; "--config"; "Release";
                                "--component"; "viewer"; "--prefix";
                                "/b/AppDir_viewer/usr/bin"] (Some "/b");
               FILE_MAKE_DIRECTORY "/b/AppDir_viewer/usr/share/applications";
               FILE_WRITE "/b/AppDir_viewer/usr/share/applications/viewer-bin.desktop"
                          (DESKTOP_CONTENT "My Viewer" "viewer-bin");
               FILE_MAKE_DIRECTORY "/b/AppDir_viewer/usr/share/icons/hicolor/scalable/apps";
               FILE_TOUCH "/b/AppDir_viewer/usr/share/icons/hicolor/scalable/apps/appname.svg"]
           ++ tools
           ++ [MESSAGE_STATUS "Running linuxdeploy for viewer...";
               EXECUTE_PROCESS
                 ["/usr/bin/cmake"; "-E"; "env"; "PATH=/b/linuxdeploy_tools:/usr/bin";
                  "/b/linuxdeploy_tools/linuxdeploy-x86_64.AppImage"; "--appdir";
                  "/b/AppDir_viewer"; "--plugin"; "gtk"; "--output"; "appimage"] (Some "/b");
               MESSAGE_STATUS "AppImage created successfully for viewer"])%list).
Proof.
  assert (Hok : nothing_fails fresh_cache) by (intros h a; reflexivity).
  exact (successful_run_order fresh_cache
           (mk_variables (Some "viewer") (Some "My Viewer") (Some "viewer-bin") (Some "gtk")
                         None "/b" "/usr/bin/cmake" "/usr/bin")
           [] "viewer" "My Viewer" "viewer-bin" Hok eq_refl eq_refl eq_refl).
Defined.

(** ** The plugin script *)

(** X8. [ensure_shell_script] does nothing when the script path exists.  When
    it does not and the tool directory can be made, the call downloads
    straight to that path, marks it executable and ends normally, whatever
    the download and [chmod] return; there is no temporary file and no
    extraction. *)
Theorem ensure_shell_script_behaviour (w : World) (dir name url : string) (t : trace) :
  let path := dir ++ "/" ++ name in
  (file_exists w t path = true -> ensure_shell_script w dir name url t = (Done tt, t))
  /\ (file_exists w t path = false ->
      status_of w t (FILE_MAKE_DIRECTORY dir) = 0%Z ->
      ensure_shell_script w dir name url t
      = (Done tt,
         (t ++ [FILE_MAKE_DIRECTORY dir;
                MESSAGE_STATUS ("Downloading " ++ name ++ "...");
                FILE_DOWNLOAD url path;
                EXECUTE_PROCESS ["chmod"; "+x"; path] None;
                MESSAGE_STATUS (name ++ " ready")])%list))
  /\ (file_exists w t path = false ->
      status_of w t (FILE_MAKE_DIRECTORY dir) <> 0%Z ->
      ensure_shell_script w dir name url t
      = (CommandFailed (FILE_MAKE_DIRECTORY dir), (t ++ [FILE_MAKE_DIRECTORY dir])%list)).
Proof.
  intros path. unfold ensure_shell_script. fold path. run_script. repeat split.
  - intros ->. reflexivity.
  - intros -> ->. cbn [Z.eqb]. flat_trace. reflexivity.
  - intros -> H. apply Z.eqb_neq in H. now rewrite H.
Qed.

Lemma ensure_shell_script_behaviour_witness :
  ensure_shell_script chmod_fails "/b/tools" "plugin.sh" "https://example.org/plugin.sh" []
  = (Done tt,
     [FILE_MAKE_DIRECTORY "/b/tools";
      MESSAGE_STATUS "Downloading plugin.sh...";
      FILE_DOWNLOAD "https://example.org/plugin.sh" "/b/tools/plugin.sh";
      EXECUTE_PROCESS ["chmod"; "+x"; "/b/tools/plugin.sh"] None;
      MESSAGE_STATUS "plugin.sh ready"])
  /\ ensure_shell_script chmod_fails "/b/tools" "plugin.sh" "https://example.org/plugin.sh"
       [FILE_DOWNLOAD "https://example.org/plugin.sh" "/b/tools/plugin.sh"]
     = (Done tt, [FILE_DOWNLOAD "https://example.org/plugin.sh" "/b/tools/plugin.sh"])
  /\ ensure_shell_script
       (one_failure (FILE_MAKE_DIRECTORY "/b/tools")) "/b/tools" "plugin.sh"
       "https://example.org/plugin.sh" []
     = (CommandFailed (FILE_MAKE_DIRECTORY "/b/tools"), [FILE_MAKE_DIRECTORY "/b/tools"]).
Proof.
  split; [| split].
  - exact (proj1 (proj2 (ensure_shell_script_behaviour chmod_fails "/b/tools" "plugin.sh"
                           "https://example.org/plugin.sh" [])) eq_refl eq_refl).
  - exact (proj1 (ensure_shell_script_behaviour chmod_fails "/b/tools" "plugin.sh"
                    "https://example.org/plugin.sh"
                    [FILE_DOWNLOAD "https://example.org/plugin.sh" "/b/tools/plugin.sh"])
                 eq_refl).
  - refine (proj2 (proj2 (ensure_shell_script_behaviour
                            (one_failure (FILE_MAKE_DIRECTORY "/b/tools")) "/b/tools"
                            "plugin.sh" "https://example.org/plugin.sh" [])) eq_refl _).
    vm_compute. discriminate.
Defined.

(** ** More on the environment and the command lines *)

Lemma set_list_empty (vars : list string) :
  set_list vars = "" -> filter nonempty vars = [].
Proof.
  destruct vars as [| v vars]; [reflexivity |].
  destruct vars as [| x vars].
  - cbn. intros ->. reflexivity.
  - change (set_list (v :: x :: vars)) with (v ++ String ";" (set_list (x :: vars))).
    destruct v; discriminate.
Qed.

Lemma restore_nonempty (v : string) : nonempty (restore v) = nonempty v.
Proof.
  destruct v as [| c v]; [reflexivity |].
  unfold restore, string_REPLACE. now rewrite replace_from_nonempty.
Qed.

Lemma filter_nonempty_restore (vars : list string) :
  filter nonempty (map restore vars) = map restore (filter nonempty vars).
Proof.
  induction vars as [| v vars IH]; [reflexivity |].
  cbn [map filter]. rewrite restore_nonempty.
  destruct (nonempty v); cbn [map]; now rewrite IH.
Qed.

(** X9. Empty entries of [EXTRA_ENV_VARS] never reach the deployment tool: for
    plain entries, some of which may be empty, the environment is the [PATH]
    entry followed by the non-empty entries in their order, placeholders
    restored. *)
Theorem deploy_environment_drops_empty (dir path : string) (vars : list string) :
  list_plain dir = true -> list_plain path = true ->
  Forall (fun v => list_plain v = true) vars ->
  deploy_environment dir path (Some (set_list vars))
  = ("PATH=" ++ dir ++ ":" ++ path) :: map restore (filter nonempty vars).
Proof.
  intros Hd Hp Hv.
  assert (Hplain : list_plain ("PATH=" ++ dir ++ ":" ++ path) = true).
  { unfold list_plain. rewrite !all_chars_append.
    unfold list_plain in Hd, Hp. now rewrite Hd, Hp. }
  unfold deploy_environment, LINUXDEPLOY_ENV.
  destruct (set_list vars =? "") eqn:E.
  - apply String.eqb_eq in E. rewrite (set_list_empty vars E).
    apply unquoted_element. unfold element. now rewrite Hplain.
  - assert (Hfor : foreach_IN_LISTS (set_list vars) = vars).
    { destruct vars as [| v vars]; [reflexivity |].
      unfold foreach_IN_LISTS. destruct (set_list (v :: vars)) eqn:S; [discriminate |].
      rewrite <- S. unfold cmExpandList. now rewrite split_list_set_list. }
    rewrite Hfor, append_loop by reflexivity.
    unfold unquoted, cmExpandList.
    rewrite split_list_plain by assumption.
    rewrite split_list_appended by assumption.
    cbn [fst snd filter nonempty]. rewrite append_empty_r.
    change (nonempty ("PATH=" ++ dir ++ ":" ++ path)) with true. cbv iota.
    f_equal. apply filter_nonempty_restore.
Qed.

Lemma deploy_environment_drops_empty_witness :
  deploy_environment "/x" "/usr/bin" (Some "A=1;;B=2;")
  = ["PATH=/x:/usr/bin"; "A=1"; "B=2"].
Proof.
  assert (H : Forall (fun v => list_plain v = true) ["A=1"; ""; "B=2"; ""])
    by (repeat constructor).
  exact (deploy_environment_drops_empty "/x" "/usr/bin" ["A=1"; ""; "B=2"; ""]
           eq_refl eq_refl H).
Defined.



(** ** Names in [AppImage.cmake] *)

Lemma map_string_length (f : ascii -> ascii) (s : string) :
  String.length (map_string f s) = String.length s.
Proof. induction s; cbn; [reflexivity | now rewrite IHs]. Qed.

Lemma append_inv_head (p a b : string) : p ++ a = p ++ b -> a = b.
Proof. induction p as [| c p IH]; cbn; [trivial |]. intros E. injection E as E. auto. Qed.

Lemma append_inv_tail (a b x : string) : a ++ x = b ++ x -> a = b.
Proof.
  revert b. induction a as [| c a IH]; intros b E.
  - destruct b as [| d b]; [reflexivity |].
    apply (f_equal String.length) in E. cbn in E. rewrite length_append in E. lia.
  - destruct b as [| d b].
    + apply (f_equal String.length) in E. cbn in E. rewrite length_append in E. lia.
    + cbn in E. injection E as -> E. f_equal. now apply IH.
Qed.

Lemma sanitized_name_no_space (s : string) : occurs " " (sanitized_name s) = false.
Proof.
  unfold sanitized_name. rewrite replace_char_map.
  induction s as [| c s IH]; [reflexivity |].
  cbn [map_string occurs]. rewrite prefix_char, IH, orb_false_r.
  destruct (c =? " ")%char eqn:E; [reflexivity |]. now rewrite Ascii.eqb_sym.
Qed.

Lemma sanitized_name_idempotent (s : string) :
  sanitized_name (sanitized_name s) = sanitized_name s.
Proof.
  unfold sanitized_name at 1. apply string_REPLACE_absent. apply sanitized_name_no_space.
Qed.

(** X11. The sanitized name has the length of the display name and no space in
    it; sanitizing is idempotent and leaves a name without spaces as it is. *)
Theorem sanitized_name_has_no_space (d : string) :
  occurs " " (sanitized_name d) = false
  /\ String.length (sanitized_name d) = String.length d
  /\ sanitized_name (sanitized_name d) = sanitized_name d
  /\ (occurs " " d = false -> sanitized_name d = d).
Proof.
  repeat split.
  - apply sanitized_name_no_space.
  - unfold sanitized_name. rewrite replace_char_map. apply map_string_length.
  - apply sanitized_name_idempotent.
  - intros H. unfold sanitized_name. now apply string_REPLACE_absent.
Qed.

Lemma sanitized_name_has_no_space_witness : sanitized_name "viewer-bin" = "viewer-bin".
Proof.
  exact (proj2 (proj2 (proj2 (sanitized_name_has_no_space "viewer-bin"))) eq_refl).
Defined.

(** X12. Two display names get the same artifact path exactly when their
    sanitized names are equal; so a name and the same name with its spaces
    written as underscores always share one artifact. *)
Theorem artifact_path_collision (bin d1 d2 : string) :
  (appimage_full_path bin d1 = appimage_full_path bin d2
   <-> sanitized_name d1 = sanitized_name d2)
  /\ appimage_full_path bin (sanitized_name d1) = appimage_full_path bin d1.
Proof.
  split; [split |].
  - unfold appimage_full_path, appimage_file_name. intros E.
    apply append_inv_head in E. apply append_inv_head in E.
    now apply append_inv_tail in E.
  - unfold appimage_full_path, appimage_file_name. now intros ->.
  - unfold appimage_full_path, appimage_file_name.
    now rewrite sanitized_name_idempotent.
Qed.

(** X13. Two calls with different component names never share a build
    target or an install rule, whatever else they are given.  When neither
    name has a [/] in it, their staging trees are two entries with
    different names directly in the build directory, [AppDir_<component>]
    each. *)
Theorem components_are_kept_apart (cmake src bin : string) (args1 args2 : list string)
        (c1 c2 : configuration) (component1 component2 : string) :
  add_appimage_from_component cmake src bin args1 = Configured c1 ->
  add_appimage_from_component cmake src bin args2 = Configured c2 ->
  one_value_of (parse args1) "COMPONENT_NAME" = Some component1 ->
  one_value_of (parse args2) "COMPONENT_NAME" = Some component2 ->
  component1 <> component2 ->
  custom_target c1 <> custom_target c2
  /\ (forall r1 r2, In r1 (install_rules c1) -> In r2 (install_rules c2) -> r1 <> r2)
  /\ (no_slash component1 = true -> no_slash component2 = true ->
      exists entry1 entry2,
        APPDIR bin component1 = bin ++ String "/" entry1
        /\ APPDIR bin component2 = bin ++ String "/" entry2
        /\ no_slash entry1 = true /\ no_slash entry2 = true
        /\ climbs entry1 = false /\ climbs entry2 = false
        /\ entry1 <> entry2).
Proof.
  unfold add_appimage_from_component. intros E1 E2 H1 H2 Hne.
  rewrite H1 in E1. rewrite H2 in E2.
  destruct (one_value_of (parse args1) "DISPLAY_NAME") as [d1 |]; [| discriminate].
  destruct (one_value_of (parse args1) "EXECUTABLE_NAME") as [e1 |]; [| discriminate].
  destruct (one_value_of (parse args2) "DISPLAY_NAME") as [d2 |]; [| discriminate].
  destruct (one_value_of (parse args2) "EXECUTABLE_NAME") as [e2 |]; [| discriminate].
  injection E1 as <-. injection E2 as <-.
  cbn [custom_target install_rules].
  assert (Hpkg : component1 ++ "_package" <> component2 ++ "_package")
    by (intros E; apply Hne; now apply append_inv_tail in E).
  split; [| split].
  - intros E. exact (Hne (append_inv_head "create_appimage_" component1 component2 E)).
  - intros r1 r2 [<- | [<- | []]] [<- | [<- | []]] E; try discriminate;
      injection E; intros; now apply Hpkg.
  - intros S1 S2. exists ("AppDir_" ++ component1), ("AppDir_" ++ component2).
    split; [reflexivity |]. split; [reflexivity |].
    split; [now apply no_slash_append |]. split; [now apply no_slash_append |].
    split; [apply climbs_prefixed; [reflexivity | exact S1 | cbn; lia] |].
    split; [apply climbs_prefixed; [reflexivity | exact S2 | cbn; lia] |].
    intros E. exact (Hne (append_inv_head "AppDir_" component1 component2 E)).
Qed.

Lemma components_are_kept_apart_witness :
  exists c1 c2,
    add_appimage_from_component "/usr/bin/cmake" "/src" "/b"
      ["COMPONENT_NAME"; "viewer"; "DISPLAY_NAME"; "My App"; "EXECUTABLE_NAME"; "viewer-bin"]
    = Configured c1
    /\ add_appimage_from_component "/usr/bin/cmake" "/src" "/b"
         ["COMPONENT_NAME"; "editor"; "DISPLAY_NAME"; "My App"; "EXECUTABLE_NAME"; "editor-bin"]
       = Configured c2
    /\ custom_target c1 <> custom_target c2
    /\ (forall r1 r2, In r1 (install_rules c1) -> In r2 (install_rules c2) -> r1 <> r2).
Proof.
  destruct (add_appimage_from_component "/usr/bin/cmake" "/src" "/b"
              ["COMPONENT_NAME"; "viewer"; "DISPLAY_NAME"; "My App";
               "EXECUTABLE_NAME"; "viewer-bin"]) as [c1 |] eqn:E1;
    [| vm_compute in E1; discriminate].
  destruct (add_appimage_from_component "/usr/bin/cmake" "/src" "/b"
              ["COMPONENT_NAME"; "editor"; "DISPLAY_NAME"; "My App";
               "EXECUTABLE_NAME"; "editor-bin"]) as [c2 |] eqn:E2;
    [| vm_compute in E2; discriminate].
  exists c1, c2. split; [reflexivity |]. split; [reflexivity |].
  assert (Hne : "viewer" <> "editor") by discriminate.
  destruct (components_are_kept_apart "/usr/bin/cmake" "/src" "/b"
              ["COMPONENT_NAME"; "viewer"; "DISPLAY_NAME"; "My App";
               "EXECUTABLE_NAME"; "viewer-bin"]
              ["COMPONENT_NAME"; "editor"; "DISPLAY_NAME"; "My App";
               "EXECUTABLE_NAME"; "editor-bin"]
              c1 c2 "viewer" "editor" E1 E2 eq_refl eq_refl Hne) as (T & R & _).
  split; [exact T | exact R].
Defined.

(** ** What the function hands to the script *)

Lemma linuxdeploy_args_elements_without (src bin component display executable plugin : string)
      (extra : option string) :
  argument src = true -> argument bin = true -> argument component = true ->
  argument display = true -> argument executable = true -> argument plugin = true ->
  if_variable extra = false ->
  unquoted (linuxdeploy_args src bin component display executable plugin extra)
  = ["-DCOMPONENT_NAME=" ++ component;
     "-DAPP_NAME=" ++ display;
     "-DEXECUTABLE_NAME=" ++ executable;
     "-DPLUGIN_TYPE=" ++ plugin;
     "-DCMAKE_CURRENT_BINARY_DIR=" ++ bin;
     "-P";
     src ++ "/cmake/LinuxDeployAppImage.cmake"].
Proof.
  intros Hsrc Hbin Hc Hd He Hp Hoff.
  assert (Hone : forall pre value,
             element pre = true -> argument value = true ->
             unquoted (pre ++ value) = [pre ++ value]).
  { intros pre value Hn Hv. apply unquoted_element.
    apply element_inv in Hn as [Hn Hpre]. apply argument_plain in Hv.
    unfold element, list_plain in *. rewrite all_chars_append, Hpre, Hv.
    now rewrite nonempty_append. }
  unfold linuxdeploy_args.
  rewrite (Hone "-DCOMPONENT_NAME=" component eq_refl Hc).
  rewrite (Hone "-DAPP_NAME=" display eq_refl Hd).
  rewrite (Hone "-DEXECUTABLE_NAME=" executable eq_refl He).
  rewrite (Hone "-DPLUGIN_TYPE=" plugin eq_refl Hp).
  rewrite (Hone "-DCMAKE_CURRENT_BINARY_DIR=" bin eq_refl Hbin).
  cbn [app]. rewrite Hoff.
  rewrite list_APPEND_nonempty by reflexivity.
  cbn [set_list String.concat].
  unfold unquoted, cmExpandList.
  set (d1 := "-DCOMPONENT_NAME=" ++ component).
  set (d2 := "-DAPP_NAME=" ++ display).
  set (d3 := "-DEXECUTABLE_NAME=" ++ executable).
  set (d4 := "-DPLUGIN_TYPE=" ++ plugin).
  set (d5 := "-DCMAKE_CURRENT_BINARY_DIR=" ++ bin).
  set (d8 := src ++ "/cmake/LinuxDeployAppImage.cmake").
  assert (Hpre : forall pre value,
             list_plain pre = true -> argument value = true ->
             list_plain (pre ++ value) = true).
  { intros pre value Hpre Hv. apply argument_plain in Hv.
    unfold list_plain in *. now rewrite all_chars_append, Hpre, Hv. }
  assert (P1 : list_plain d1 = true) by now apply Hpre.
  assert (P2 : list_plain d2 = true) by now apply Hpre.
  assert (P3 : list_plain d3 = true) by now apply Hpre.
  assert (P4 : list_plain d4 = true) by now apply Hpre.
  assert (P5 : list_plain d5 = true) by now apply Hpre.
  assert (P8 : list_plain d8 = true).
  { unfold d8, list_plain. rewrite all_chars_append.
    apply argument_plain in Hsrc. unfold list_plain in Hsrc. now rewrite Hsrc. }
  assert (E : (d1 ++ ";" ++ d2 ++ ";" ++ d3 ++ ";" ++ d4 ++ ";" ++ d5)
              ++ ";" ++ "-P" ++ ";" ++ d8
              = d1 ++ String ";" (d2 ++ String ";" (d3 ++ String ";" (d4 ++ String ";"
                  (d5 ++ String ";" ("-P" ++ String ";" d8)))))).
  { now rewrite !append_assoc. }
  rewrite E.
  rewrite !split_list_element by assumption.
  rewrite (split_list_element "-P") by reflexivity.
  rewrite split_list_last by assumption.
  cbn [fst snd filter]. unfold d1, d2, d3, d4, d5.
  rewrite !nonempty_append by reflexivity.
  replace (nonempty d8) with true; [reflexivity |].
  symmetry. unfold d8. apply nonempty_append.
  unfold argument in Hsrc. apply andb_true_iff in Hsrc. tauto.
Qed.

Lemma absolute_is_not_a_definition (path rest : string) :
  prefix "/" path = true -> definition_of (path ++ rest) = None.
Proof.
  intros Habs. destruct path as [| c path']; [discriminate |].
  change (prefix "/" (String c path'))
    with (if ascii_dec "/" c then prefix "" path' else false) in Habs.
  destruct (ascii_dec "/" c) as [<- |]; [reflexivity | discriminate Habs].
Qed.

Lemma shell_argument_definition (pre value : string) :
  all_chars word_char pre = true -> argument value = true ->
  shell_argument (pre ++ value) = pre ++ value.
Proof.
  intros Hpre Hval. apply shell_argument_word.
  apply argument_word in Hval. now rewrite all_chars_append, Hpre, Hval.
Qed.

(** The variables of the script when the custom command of the function
    runs, with and without the argument that carries the extra variables. *)
Lemma script_variables_of_command (cmake src bin path : string)
      (component display executable plugin : string) (extra : option string)
      (output comment : string) (depends : list string) :
  argument cmake = true -> prefix "/" cmake = true ->
  argument src = true -> prefix "/" src = true ->
  argument bin = true -> argument component = true -> argument display = true ->
  argument executable = true -> argument plugin = true ->
  (if_variable extra = false
   \/ exists vars, extra = Some (set_list vars) /\ cmIsOff (set_list vars) = false
                   /\ Forall (fun v => element v && shell_plain v = true) vars) ->
  script_variables path
    (mk_custom_command output
       (unquoted cmake
        ++ unquoted (linuxdeploy_args src bin component display executable plugin extra))%list
       depends bin comment)
  = mk_variables (Some component) (Some display) (Some executable) (Some plugin)
                 (if if_variable extra then extra else None) bin cmake path.
Proof.
  intros Acmake Hcmake Asrc Habs Abin Ac Ad Ae Ap Hextra.
  pose proof (absolute_is_not_a_definition src "/cmake/LinuxDeployAppImage.cmake" Habs)
    as Dscript.
  pose proof (absolute_is_not_a_definition cmake "" Hcmake) as Dcmake.
  rewrite append_empty_r in Dcmake.
  unfold script_variables, argv. cbn [COMMAND WORKING_DIRECTORY].
  rewrite (unquoted_element cmake) by now apply argument_element.
  destruct Hextra as [Hoff | (vars & -> & Hon & Hvars)].
  - rewrite linuxdeploy_args_elements_without by assumption. rewrite Hoff.
    cbn [map app].
    rewrite !shell_argument_definition by (try assumption; reflexivity).
    rewrite (shell_argument_word (src ++ "/cmake/LinuxDeployAppImage.cmake"))
      by (rewrite all_chars_append, (argument_word src Asrc); reflexivity).
    rewrite (shell_argument_word cmake) by now apply argument_word.
    change (shell_argument "-P") with "-P".
    cbn [defined hd]. rewrite Dscript, Dcmake. reflexivity.
  - apply Forall_and_inv in Hvars as [Helem Hshell].
    pose proof (Forall_element_plain vars Helem) as Hplain.
    destruct (shell_plain_set_list vars Hshell) as [Hspace Hquote].
    rewrite linuxdeploy_args_elements by assumption.
    unfold if_variable. rewrite Hon. cbn [negb map app].
    rewrite shell_argument_EXTRA_ENV_VARS by assumption.
    rewrite !shell_argument_definition by (try assumption; reflexivity).
    rewrite (shell_argument_word (src ++ "/cmake/LinuxDeployAppImage.cmake"))
      by (rewrite all_chars_append, (argument_word src Asrc); reflexivity).
    rewrite (shell_argument_word cmake) by now apply argument_word.
    change (shell_argument "-P") with "-P".
    cbn [defined hd]. rewrite Dscript, Dcmake. reflexivity.
Qed.


(** X14. When the function is called with required values that are plain
    arguments and absolute paths for [cmake] and the source directory, it
    configures, and the script started by its custom command sees exactly
    the values of the call: the component, the display name as [APP_NAME],
    the executable, the plugin type (["qt"] when none was given), the build
    directory as [CMAKE_CURRENT_BINARY_DIR], and the extra variables when
    the list given counts as true (and none otherwise). *)
Theorem command_defines_script_variables (cmake src bin path : string) (args : list string)
        (component display executable : string) :
  one_value_of (parse args) "COMPONENT_NAME" = Some component ->
  one_value_of (parse args) "DISPLAY_NAME" = Some display ->
  one_value_of (parse args) "EXECUTABLE_NAME" = Some executable ->
  argument cmake = true -> prefix "/" cmake = true ->
  argument src = true -> prefix "/" src = true ->
  argument bin = true ->
  argument component = true -> argument display = true -> argument executable = true ->
  let plugin := match one_value_of (parse args) "PLUGIN_TYPE" with
                | Some p => p
                | None => "qt"
                end in
  let extra := multi_value_of (parse args) "EXTRA_ENV_VARS" in
  argument plugin = true ->
  (if_variable extra = false
   \/ exists vars, extra = Some (set_list vars) /\ cmIsOff (set_list vars) = false
                   /\ Forall (fun v => element v && shell_plain v = true) vars) ->
  exists c,
    add_appimage_from_component cmake src bin args = Configured c
    /\ script_variables path (command c)
       = mk_variables (Some component) (Some display) (Some executable) (Some plugin)
                      (if if_variable extra then extra else None) bin cmake path.
Proof.
  intros Hc Hd He Acmake Hcmake Asrc Habs Abin Ac Ad Ae plugin extra Ap Hextra.
  unfold add_appimage_from_component. rewrite Hc, Hd, He.
  fold extra.
  replace (match one_value_of (parse args) "PLUGIN_TYPE" with
           | Some p => p
           | None => "qt"
           end) with plugin by reflexivity.
  eexists. split; [reflexivity |].
  cbn [command].
  now apply script_variables_of_command.
Qed.

Lemma command_defines_script_variables_witness :
  exists c,
    add_appimage_from_component "/usr/bin/cmake" "/src" "/x"
      ["COMPONENT_NAME"; "viewer"; "DISPLAY_NAME"; "My Viewer";
       "EXECUTABLE_NAME"; "viewer-bin"; "EXTRA_ENV_VARS"; "FOO=a"; "BAR=c"]
    = Configured c
    /\ script_variables "/usr/bin:/bin" (command c)
       = mk_variables (Some "viewer") (Some "My Viewer") (Some "viewer-bin") (Some "qt")
                      (Some "FOO=a;BAR=c") "/x" "/usr/bin/cmake" "/usr/bin:/bin".
Proof.
  assert (H : Forall (fun v => element v && shell_plain v = true) ["FOO=a"; "BAR=c"])
    by (repeat constructor).
  exact (command_defines_script_variables "/usr/bin/cmake" "/src" "/x" "/usr/bin:/bin"
           ["COMPONENT_NAME"; "viewer"; "DISPLAY_NAME"; "My Viewer";
            "EXECUTABLE_NAME"; "viewer-bin"; "EXTRA_ENV_VARS"; "FOO=a"; "BAR=c"]
           "viewer" "My Viewer" "viewer-bin"
           eq_refl eq_refl eq_refl eq_refl eq_refl eq_refl eq_refl eq_refl eq_refl
           eq_refl eq_refl eq_refl
           (or_intror (ex_intro _ ["FOO=a"; "BAR=c"] (conj eq_refl (conj eq_refl H))))).
Defined.

(** X15. An extra-variable list whose text CMake reads as a false constant
    (it is empty, or [0], [OFF], [NO], [FALSE], [N], [IGNORE], [NOTFOUND] in
    any case, or it ends in [-NOTFOUND]) is not forwarded: whatever the
    variables in it, the deployment tool is started with the [PATH] entry
    alone. *)
Theorem false_extra_list_is_dropped (cmake src bin path : string) (args : list string)
        (component display executable : string) :
  one_value_of (parse args) "COMPONENT_NAME" = Some component ->
  one_value_of (parse args) "DISPLAY_NAME" = Some display ->
  one_value_of (parse args) "EXECUTABLE_NAME" = Some executable ->
  argument cmake = true -> prefix "/" cmake = true ->
  argument src = true -> prefix "/" src = true ->
  argument bin = true -> list_plain path = true ->
  argument component = true -> argument display = true -> argument executable = true ->
  argument (match one_value_of (parse args) "PLUGIN_TYPE" with
            | Some p => p
            | None => "qt"
            end) = true ->
  if_variable (multi_value_of (parse args) "EXTRA_ENV_VARS") = false ->
  packaged_environment cmake src bin path args
  = Some ["PATH=" ++ bin ++ "/linuxdeploy_tools:" ++ path].
Proof.
  intros Hc Hd He Acmake Hcmake Asrc Habs Abin Ppath Ac Ad Ae Ap Hoff.
  unfold packaged_environment, add_appimage_from_component.
  rewrite Hc, Hd, He.
  cbv zeta. cbn [command].
  rewrite script_variables_of_command by (try assumption; now left).
  rewrite Hoff.
  cbn [CMAKE_CURRENT_BINARY_DIR ENV_PATH EXTRA_ENV_VARS].
  assert (Pdir : list_plain (LINUXDEPLOY_DIR bin) = true).
  { unfold LINUXDEPLOY_DIR, list_plain. rewrite all_chars_append.
    apply argument_plain in Abin. unfold list_plain in Abin. now rewrite Abin. }
  pose proof (LINUXDEPLOY_ENV_elements (LINUXDEPLOY_DIR bin) path [] Pdir Ppath
                                       (Forall_nil _)) as E.
  cbn [map] in E.
  change (deploy_environment (LINUXDEPLOY_DIR bin) path (Some (set_list [])))
    with (deploy_environment (LINUXDEPLOY_DIR bin) path None) in E.
  rewrite E. unfold LINUXDEPLOY_DIR. now rewrite !append_assoc.
Qed.

Lemma false_extra_list_is_dropped_witness :
  packaged_environment "/usr/bin/cmake" "/src" "/x" "/usr/bin:/bin"
    ["COMPONENT_NAME"; "viewer"; "DISPLAY_NAME"; "My Viewer";
     "EXECUTABLE_NAME"; "viewer-bin"; "EXTRA_ENV_VARS"; "QT_DIR=QT_DIR-NOTFOUND"]
  = Some ["PATH=/x/linuxdeploy_tools:/usr/bin:/bin"].
Proof.
  exact (false_extra_list_is_dropped "/usr/bin/cmake" "/src" "/x" "/usr/bin:/bin"
           ["COMPONENT_NAME"; "viewer"; "DISPLAY_NAME"; "My Viewer";
            "EXECUTABLE_NAME"; "viewer-bin"; "EXTRA_ENV_VARS"; "QT_DIR=QT_DIR-NOTFOUND"]
           "viewer" "My Viewer" "viewer-bin"
           eq_refl eq_refl eq_refl eq_refl eq_refl eq_refl eq_refl eq_refl eq_refl
           eq_refl eq_refl eq_refl eq_refl eq_refl).
Defined.

(** X16. The two files together: after a call with plain values, building
    the target in a world where nothing fails runs the script to its end;
    its last two actions are the start of the deployment tool, from the
    build directory, on the directory [AppDir_<component>] and with the
    plugin type of the call, and the message that the AppImage of the
    component was created. *)
Theorem configured_command_creates_appimage (w : World) (t : trace)
        (cmake src bin path : string) (args : list string)
        (component display executable : string) :
  nothing_fails w ->
  one_value_of (parse args) "COMPONENT_NAME" = Some component ->
  one_value_of (parse args) "DISPLAY_NAME" = Some display ->
  one_value_of (parse args) "EXECUTABLE_NAME" = Some executable ->
  argument cmake = true -> prefix "/" cmake = true ->
  argument src = true -> prefix "/" src = true ->
  argument bin = true ->
  argument component = true -> argument display = true -> argument executable = true ->
  let plugin := match one_value_of (parse args) "PLUGIN_TYPE" with
                | Some p => p
                | None => "qt"
                end in
  let extra := multi_value_of (parse args) "EXTRA_ENV_VARS" in
  argument plugin = true ->
  (if_variable extra = false
   \/ exists vars, extra = Some (set_list vars) /\ cmIsOff (set_list vars) = false
                   /\ Forall (fun v => element v && shell_plain v = true) vars) ->
  exists c before,
    add_appimage_from_component cmake src bin args = Configured c
    /\ script w (script_variables path (command c)) t
       = (Done tt,
          (t ++ before
             ++ [EXECUTE_PROCESS
                   (linuxdeploy_command cmake
                      (LINUXDEPLOY_ENV (LINUXDEPLOY_DIR bin) path
                                       (if if_variable extra then extra else None))
                      (LINUXDEPLOY_DIR bin) (APPDIR bin component) plugin)
                   (Some bin);
                 MESSAGE_STATUS ("AppImage created successfully for " ++ component)])%list).
Proof.
  intros Hok Hc Hd He Acmake Hcmake Asrc Habs Abin Ac Ad Ae plugin extra Ap Hextra.
  set (v := mk_variables (Some component) (Some display) (Some executable) (Some plugin)
                         (if if_variable extra then extra else None) bin cmake path).
  destruct (script_reaches_linuxdeploy w Hok v t component display executable
              eq_refl eq_refl eq_refl) as (e & E).
  cbn [PLUGIN_TYPE CMAKE_CURRENT_BINARY_DIR CMAKE_COMMAND ENV_PATH EXTRA_ENV_VARS v] in E.
  unfold add_appimage_from_component. rewrite Hc, Hd, He.
  fold extra.
  replace (match one_value_of (parse args) "PLUGIN_TYPE" with
           | Some p => p
           | None => "qt"
           end) with plugin by reflexivity.
  eexists.
  exists (e ++ [MESSAGE_STATUS ("Running linuxdeploy for " ++ component ++ "...")])%list.
  split; [reflexivity |].
  cbn [command].
  rewrite script_variables_of_command by assumption.
  fold v. rewrite E.
  unfold run_linuxdeploy. run_script. rewrite Hok. cbn [Z.eqb negb].
  now rewrite <- !app_assoc.
Qed.

Lemma configured_command_creates_appimage_witness :
  exists c before,
    add_appimage_from_component "/usr/bin/cmake" "/src" "/x"
      ["COMPONENT_NAME"; "viewer"; "DISPLAY_NAME"; "My Viewer";
       "EXECUTABLE_NAME"; "viewer-bin"; "PLUGIN_TYPE"; "gtk"]
    = Configured c
    /\ script fresh_cache (script_variables "/usr/bin:/bin" (command c)) []
       = (Done tt,
          ([] ++ before
              ++ [EXECUTE_PROCESS
                    (linuxdeploy_command "/usr/bin/cmake"
                       (LINUXDEPLOY_ENV (LINUXDEPLOY_DIR "/x") "/usr/bin:/bin" None)
                       (LINUXDEPLOY_DIR "/x") (APPDIR "/x" "viewer") "gtk")
                    (Some "/x");
                  MESSAGE_STATUS "AppImage created successfully for viewer"])%list).
Proof.
  assert (Hok : nothing_fails fresh_cache) by (intros h a; reflexivity).
  exact (configured_command_creates_appimage fresh_cache [] "/usr/bin/cmake" "/src" "/x"
           "/usr/bin:/bin"
           ["COMPONENT_NAME"; "viewer"; "DISPLAY_NAME"; "My Viewer";
            "EXECUTABLE_NAME"; "viewer-bin"; "PLUGIN_TYPE"; "gtk"]
           "viewer" "My Viewer" "viewer-bin"
           Hok eq_refl eq_refl eq_refl eq_refl eq_refl eq_refl eq_refl eq_refl eq_refl
           eq_refl eq_refl eq_refl (or_introl eq_refl)).
Defined.

(** * The backend object *)

Lemma last_default_irrelevant {A : Type} (x : A) (l : list A) (d d' : A) :
  last (x :: l) d = last (x :: l) d'.
Proof.
  revert x. induction l as [| y l IH]; intros x; [reflexivity |].
  change (last (y :: l) d = last (y :: l) d'). apply IH.
Qed.

Lemma last_cons_default {A : Type} (x : A) (l : list A) (d : A) :
  last (x :: l) d = last l x.
Proof.
  destruct l as [| y l]; [reflexivity |].
  change (last (y :: l) d = last (y :: l) x). apply last_default_irrelevant.
Qed.

Lemma invoke_requested (c : qt.call) (this : qt.Backend) :
  qt.invoke c this = qt.setMessage (qt.requested c) this.
Proof. now destruct c. Qed.

Lemma setMessage_message (msg : string) (this : qt.Backend) :
  qt.message (fst (qt.setMessage msg this)) = msg.
Proof.
  unfold qt.setMessage, qt.message.
  destruct (qt.m_message this =? msg) eqn:E; cbn; [| reflexivity].
  now apply String.eqb_eq.
Qed.

Lemma setMessage_signals (msg : string) (this : qt.Backend) :
  snd (qt.setMessage msg this)
  = if qt.message this =? msg then [] else [qt.messageChanged].
Proof.
  unfold qt.setMessage, qt.message. now destruct (qt.m_message this =? msg).
Qed.

(** X17. Reading the property after any calls gives the text of the last
    call, whether or not that call emitted the signal; with no call it is
    the text the object had. *)
Theorem message_is_last_requested (cs : list qt.call) (this : qt.Backend) :
  qt.message (fst (qt.invoke_all cs this))
  = last (map qt.requested cs) (qt.message this).
Proof.
  revert this. induction cs as [| c rest IH]; intros this; [reflexivity |].
  cbn [qt.invoke_all map].
  destruct (qt.invoke c this) as [this1 emitted1] eqn:E1.
  specialize (IH this1).
  destruct (qt.invoke_all rest this1) as [this2 emitted2]. cbn [fst] in *.
  rewrite IH, last_cons_default. f_equal.
  rewrite invoke_requested in E1.
  pose proof (setMessage_message (qt.requested c) this) as H.
  now rewrite E1 in H.
Qed.

(** X18. The signal tells of every change and of nothing else: a run of
    calls emits no [messageChanged] exactly when every call asked for the
    text the object already had.  So a change of the text a reader sees is
    never silent, and a call that changes nothing is. *)
Theorem signal_iff_change (cs : list qt.call) (this : qt.Backend) :
  snd (qt.invoke_all cs this) = []
  <-> Forall (fun c => qt.requested c = qt.message this) cs.
Proof.
  revert this. induction cs as [| c rest IH]; intros this.
  - split; [constructor | reflexivity].
  - cbn [qt.invoke_all].
    pose proof (setMessage_message (qt.requested c) this) as M1.
    pose proof (setMessage_signals (qt.requested c) this) as S1.
    rewrite <- invoke_requested in M1, S1.
    destruct (qt.invoke c this) as [this1 emitted1].
    specialize (IH this1).
    destruct (qt.invoke_all rest this1) as [this2 emitted2].
    cbn [fst snd] in *. subst emitted1.
    destruct (qt.message this =? qt.requested c) eqn:E.
    + apply String.eqb_eq in E. rewrite M1, <- E in IH. cbn [app].
      rewrite IH. split.
      * intros H. constructor; [now symmetry | exact H].
      * intros H. now inversion H.
    + apply String.eqb_neq in E. split; [discriminate |].
      intros H. inversion H; subst. now contradiction E.
Qed.

(** X19. However often the button is clicked in a row, the signal is
    emitted at most once: once when the object did not show the text of
    the button before the first click, never when it did; after the first
    click the object shows that text. *)
Theorem clicks_notify_once (n : nat) (this : qt.Backend) :
  qt.invoke_all (repeat qt.OnButtonClicked (S n)) this
  = ({| qt.m_message := "Button clicked from QML!" |},
     if qt.message this =? "Button clicked from QML!" then [] else [qt.messageChanged]).
Proof.
  assert (Hfix : forall k,
             qt.invoke_all (repeat qt.OnButtonClicked k)
                           {| qt.m_message := "Button clicked from QML!" |}
             = ({| qt.m_message := "Button clicked from QML!" |}, [])).
  { induction k as [| k IH]; [reflexivity |].
    change (repeat qt.OnButtonClicked (S k))
      with (qt.OnButtonClicked :: repeat qt.OnButtonClicked k).
    change (qt.invoke_all (qt.OnButtonClicked :: repeat qt.OnButtonClicked k)
                          {| qt.m_message := "Button clicked from QML!" |})
      with (let (this2, emitted2) :=
              qt.invoke_all (repeat qt.OnButtonClicked k)
                            {| qt.m_message := "Button clicked from QML!" |} in
            (this2, ([] ++ emitted2)%list)).
    now rewrite IH. }
  change (repeat qt.OnButtonClicked (S n))
    with (qt.OnButtonClicked :: repeat qt.OnButtonClicked n).
  cbn [qt.invoke_all].
  unfold qt.invoke, qt.onButtonClicked, qt.setMessage, qt.message.
  destruct this as [m]. cbn [qt.m_message].
  destruct (m =? "Button clicked from QML!") eqn:E; cbn [negb].
  - apply String.eqb_eq in E. subst m. now rewrite Hfix.
  - now rewrite Hfix.
Qed.

(** * The panel and the backend object *)

Lemma call_keeps_text_current (c : qt.call) (p : Panel.Panel) :
  Panel.Text_text p = qt.message (Panel.backend p) ->
  Panel.Text_text (Panel.call c p) = qt.message (Panel.backend (Panel.call c p)).
Proof.
  intros Hp. unfold Panel.call. rewrite invoke_requested.
  unfold qt.setMessage, qt.message in *.
  destruct (qt.m_message (Panel.backend p) =? qt.requested c) eqn:E; cbn [negb].
  - exact Hp.
  - reflexivity.
Qed.

Lemma calls_keep_text_current (cs : list qt.call) (p : Panel.Panel) :
  Panel.Text_text p = qt.message (Panel.backend p) ->
  Panel.Text_text (Panel.calls cs p) = qt.message (Panel.backend (Panel.calls cs p)).
Proof.
  unfold Panel.calls. revert p.
  induction cs as [| c cs IH]; intros p Hp; [exact Hp |].
  cbn [fold_left]. apply IH. now apply call_keeps_text_current.
Qed.

(** X20. The panel never shows a stale text: from its creation on and
    after any calls on the backend object, clicks of the button or writes
    of the property, the text shown is the message of the object. *)
Theorem panel_shows_the_message (cs : list qt.call) (b : qt.Backend) :
  let p := Panel.calls cs (Panel.create b) in
  Panel.Text_text p = qt.message (Panel.backend p).
Proof.
  cbv zeta. now apply calls_keep_text_current.
Qed.

(** X21. After a click of the button the panel shows the text of the
    button's slot, whatever it showed before. *)
Theorem click_shows_button_text (cs : list qt.call) (b : qt.Backend) :
  Panel.Text_text (Panel.Button_onClicked (Panel.calls cs (Panel.create b)))
  = "Button clicked from QML!".
Proof.
  pose proof (calls_keep_text_current cs (Panel.create b) eq_refl) as Hp.
  unfold Panel.Button_onClicked.
  rewrite (call_keeps_text_current _ _ Hp).
  unfold Panel.call. rewrite invoke_requested.
  pose proof (setMessage_message (qt.requested qt.OnButtonClicked)
                                 (Panel.backend (Panel.calls cs (Panel.create b)))) as M.
  destruct (qt.setMessage (qt.requested qt.OnButtonClicked)
                          (Panel.backend (Panel.calls cs (Panel.create b)))) as [b' emitted].
  cbn [fst] in M.
  assert (D : forall e q, Panel.backend (Panel.deliver e q) = Panel.backend q).
  { induction e as [| x e IH]; intros q; [reflexivity |].
    unfold Panel.deliver in *. cbn [fold_left]. now rewrite IH. }
  now rewrite D.
Qed.

(** * The script that strips debug symbols *)

Import StripDebug.

Lemma fnmatch_empty (s : string) : fnmatch "" s = true <-> s = "".
Proof. destruct s; cbn; split; congruence. Qed.

Lemma fnmatch_star_unfold (p s : string) :
  fnmatch (String "*" p) s
  = fnmatch p s || match s with
                   | EmptyString => false
                   | String _ s' => fnmatch (String "*" p) s'
                   end.
Proof. now destruct s. Qed.

Lemma fnmatch_star (p s : string) :
  fnmatch (String "*" p) s = true <-> exists a b, s = a ++ b /\ fnmatch p b = true.
Proof.
  induction s as [| d s IH]; rewrite fnmatch_star_unfold.
  - rewrite orb_false_r. split.
    + intros H. now exists "", "".
    + intros (a & b & E & H). destruct a; [| discriminate].
      cbn in E. now subst b.
  - rewrite orb_true_iff, IH. split.
    + intros [H | (a & b & E & H)].
      * now exists "", (String d s).
      * exists (String d a), b. cbn. now rewrite E.
    + intros (a & b & E & H). destruct a as [| d' a].
      * cbn in E. subst b. now left.
      * cbn in E. injection E as _ E. right. now exists a, b.
Qed.

Lemma fnmatch_char (c : ascii) (p s : string) :
  Ascii.eqb c "*" = false ->
  fnmatch (String c p) s = true <-> exists b, s = String c b /\ fnmatch p b = true.
Proof.
  intros Hc. cbn [fnmatch]. rewrite Hc. destruct s as [| d s].
  - split; [discriminate | now intros (b & E & _)].
  - rewrite andb_true_iff, Ascii.eqb_eq. split.
    + intros [-> H]. now exists s.
    + intros (b & E & H). injection E as -> ->. now split.
Qed.

(** A pattern that begins with literal characters. *)
Lemma fnmatch_literal (lit p s : string) :
  all_chars (fun c => negb (Ascii.eqb c "*")) lit = true ->
  fnmatch (lit ++ p) s = true <-> exists b, s = lit ++ b /\ fnmatch p b = true.
Proof.
  revert s. induction lit as [| c lit IH]; intros s Hlit.
  - cbn. split; [intros H; now exists s | now intros (b & -> & H)].
  - cbn [all_chars] in Hlit. apply andb_true_iff in Hlit as [Hc Hlit].
    apply negb_true_iff in Hc.
    change (String c lit ++ p) with (String c (lit ++ p)).
    rewrite (fnmatch_char c (lit ++ p) s Hc). split.
    + intros (b & -> & H). apply IH in H as (b' & -> & H); [| exact Hlit].
      now exists b'.
    + intros (b & -> & H). exists (lit ++ b). split; [reflexivity |].
      apply IH; [exact Hlit |]. now exists b.
Qed.

(** The two shapes of the patterns of the script. *)
Lemma fnmatch_below (dir suffix s : string) :
  all_chars (fun c => negb (Ascii.eqb c "*")) dir = true ->
  all_chars (fun c => negb (Ascii.eqb c "*")) suffix = true ->
  fnmatch ("*" ++ dir ++ "*" ++ suffix) s = true
  <-> exists a b, s = a ++ dir ++ b ++ suffix.
Proof.
  intros Hdir Hsuffix.
  assert (Hs : forall r, fnmatch suffix r = true <-> r = suffix).
  { intros r. rewrite <- (append_empty_r suffix) at 1.
    rewrite fnmatch_literal by exact Hsuffix. split.
    - intros (e & -> & H). apply fnmatch_empty in H. subst e. apply append_empty_r.
    - intros ->. exists "". split; [now rewrite append_empty_r | reflexivity]. }
  change ("*" ++ dir ++ "*" ++ suffix) with (String "*" (dir ++ String "*" suffix)).
  rewrite fnmatch_star. split.
  - intros (a & r & -> & H).
    apply fnmatch_literal in H as (r' & -> & H); [| exact Hdir].
    apply fnmatch_star in H as (b & r & -> & H).
    apply Hs in H. subst r. now exists a, b.
  - intros (a & b & ->). exists a, (dir ++ b ++ suffix). split; [reflexivity |].
    apply fnmatch_literal; [exact Hdir |]. exists (b ++ suffix). split; [reflexivity |].
    apply fnmatch_star. exists b, suffix. split; [reflexivity |].
    now apply Hs.
Qed.

Lemma fnmatch_below_versioned (dir infix s : string) :
  all_chars (fun c => negb (Ascii.eqb c "*")) dir = true ->
  all_chars (fun c => negb (Ascii.eqb c "*")) infix = true ->
  fnmatch ("*" ++ dir ++ "*" ++ infix ++ "*") s = true
  <-> exists a b c, s = a ++ dir ++ b ++ infix ++ c.
Proof.
  intros Hdir Hinfix.
  change ("*" ++ dir ++ "*" ++ infix ++ "*")
    with (String "*" (dir ++ String "*" (infix ++ String "*" ""))).
  rewrite fnmatch_star. split.
  - intros (a & r & -> & H).
    apply fnmatch_literal in H as (r' & -> & H); [| exact Hdir].
    apply fnmatch_star in H as (b & r & -> & H).
    apply fnmatch_literal in H as (e & -> & H); [| exact Hinfix].
    now exists a, b, e.
  - intros (a & b & c & ->). exists a, (dir ++ b ++ infix ++ c). split; [reflexivity |].
    apply fnmatch_literal; [exact Hdir |]. exists (b ++ infix ++ c). split; [reflexivity |].
    apply fnmatch_star. exists b, (infix ++ c). split; [reflexivity |].
    apply fnmatch_literal; [exact Hinfix |]. exists c. split; [reflexivity |].
    apply fnmatch_star. exists c, "". split; [now rewrite append_empty_r | reflexivity].
Qed.

(** X22. The files the script picks are exactly those whose path, as
    [find] prints it, has [/debug/lib/] somewhere and then ends in [.a] or
    [.so], or goes on with [.so.] .  Nothing ties [/debug/lib/] to the last
    directory: libraries in directories below [debug/lib] are picked, and
    so is every library below a starting point whose own path has
    [/debug/lib/] in it. *)
Theorem selected_paths (path : string) :
  selected path = true
  <-> (exists a b, path = a ++ "/debug/lib/" ++ b ++ ".a")
      \/ (exists a b, path = a ++ "/debug/lib/" ++ b ++ ".so")
      \/ (exists a b c, path = a ++ "/debug/lib/" ++ b ++ ".so." ++ c).
Proof.
  pose proof (fnmatch_below "/debug/lib/" ".a" path eq_refl eq_refl) as A.
  pose proof (fnmatch_below "/debug/lib/" ".so" path eq_refl eq_refl) as B.
  pose proof (fnmatch_below_versioned "/debug/lib/" ".so." path eq_refl eq_refl) as C.
  change ("*" ++ "/debug/lib/" ++ "*" ++ ".a") with "*/debug/lib/*.a" in A.
  change ("*" ++ "/debug/lib/" ++ "*" ++ ".so") with "*/debug/lib/*.so" in B.
  change ("*" ++ "/debug/lib/" ++ "*" ++ ".so." ++ "*") with "*/debug/lib/*.so.*" in C.
  unfold selected.
  destruct (fnmatch "*/debug/lib/*.a" path);
    destruct (fnmatch "*/debug/lib/*.so" path);
    destruct (fnmatch "*/debug/lib/*.so.*" path); cbn [orb];
    intuition congruence.
Qed.

Lemma stripped_app (e1 e2 : list event) :
  stripped (e1 ++ e2) = (stripped e1 ++ stripped e2)%list.
Proof.
  induction e1 as [| [l | l | f] e1 IH]; cbn; [reflexivity | exact IH | exact IH |].
  now rewrite IH.
Qed.

Section PlainNames.
Variable sys : System.

(** What [xargs] does with plain file names: it starts [strip] on the
    files up to the first child that ends it, and its status is 0 exactly
    when every child exited with status 0. *)
Lemma xargs_plain (files : list string) :
  Forall (fun f => quoted_plain f = true) files ->
  fst (xargs sys files)
  = flat_map (fun f => [Stdout ("Stripping: " ++ f); Strip f]) (up_to_stop sys files)
  /\ (snd (xargs sys files) = 0%Z
      <-> Forall (fun f => strip_strip_debug sys f = Exited 0) files)
  /\ (snd (xargs sys files) = 0%Z \/ snd (xargs sys files) = 123%Z
      \/ snd (xargs sys files) = 124%Z \/ snd (xargs sys files) = 125%Z).
Proof.
  induction 1 as [| f files Hf _ IH].
  - cbn. repeat split; auto.
  - cbn [xargs up_to_stop]. unfold sh_c. rewrite Hf.
    destruct IH as (IHe & IHz & IHs).
    destruct (strip_strip_debug sys f) as [status |] eqn:R; cbn [stops].
    + destruct (status =? 255)%Z eqn:E255.
      * cbn [fst snd flat_map app]. split; [reflexivity |]. split; [| auto].
        split; [discriminate |]. intros H. inversion H as [| ? ? H1 _]; subst.
        rewrite R in H1. injection H1 as ->. discriminate E255.
      * destruct (xargs sys files) as [out' status']. cbn [fst snd] in *.
        split; [cbn [flat_map app]; now rewrite IHe |].
        assert (Hcons : Forall (fun f0 => strip_strip_debug sys f0 = Exited 0) (f :: files)
                        <-> status = 0%Z /\ status' = 0%Z).
        { rewrite IHz. split.
          - intros H. inversion H as [| ? ? H1 H2]; subst. rewrite R in H1.
            injection H1 as ->. now split.
          - intros [-> H]. constructor; assumption. }
        rewrite Hcons. apply Z.eqb_neq in E255.
        destruct (status =? 0)%Z eqn:E0;
          [apply Z.eqb_eq in E0 | apply Z.eqb_neq in E0];
          destruct IHs as [-> | [-> | [-> | ->]]]; cbn; lia.
    + cbn [fst snd flat_map app]. split; [reflexivity |]. split; [| auto].
      split; [discriminate |]. intros H. inversion H as [| ? ? H1 _]; subst.
      rewrite R in H1. discriminate H1.
Qed.

Lemma up_to_stop_all (files : list string) :
  Forall (fun f => stops (strip_strip_debug sys f) = false) files ->
  up_to_stop sys files = files.
Proof.
  induction 1 as [| f files Hf _ IH]; [reflexivity |].
  cbn [up_to_stop]. now rewrite Hf, IH.
Qed.

Lemma stripped_lines (files : list string) :
  stripped (flat_map (fun f => [Stdout ("Stripping: " ++ f); Strip f]) files) = files.
Proof.
  induction files as [| f files IH]; [reflexivity |].
  cbn [flat_map app stripped]. now rewrite IH.
Qed.

Lemma no_closing_line (files : list string) :
  ~ In (Stdout "Stripping complete.")
       (flat_map (fun f => [Stdout ("Stripping: " ++ f); Strip f]) files).
Proof.
  rewrite in_flat_map. intros (f & _ & H).
  destruct H as [H | [H | []]]; [| discriminate H].
  injection H as H. destruct f; discriminate H.
Qed.

End PlainNames.

(** X23. [strip] is started on no file unless [strip] was found, exactly
    one argument was given and it is a directory.  Then, for a directory
    that [find] reads as a starting point and picked files whose names are
    plain inside double quotes, it is started once on each picked file that
    [find] prints below that directory, in the order of [find], up to the
    first file whose child exits with status 255 or is killed; so on every
    picked file when no child ends that way, also on those that come after
    a file on which [strip] failed. *)
Theorem strips_exactly_the_selected (sys : System) (script : string) (args : list string) :
  let dir := nth 0 args "" in
  (command_v_strip sys && (List.length args =? 1)%nat && is_directory sys dir = false ->
   stripped (fst (main sys script args)) = [])
  /\ (command_v_strip sys && (List.length args =? 1)%nat && is_directory sys dir = true ->
      starting_point dir = true ->
      Forall (fun f => quoted_plain f = true) (picked sys dir) ->
      stripped (fst (main sys script args)) = up_to_stop sys (picked sys dir)
      /\ (Forall (fun f => stops (strip_strip_debug sys f) = false) (picked sys dir) ->
          stripped (fst (main sys script args)) = picked sys dir)).
Proof.
  intros dir. unfold main. fold dir. split.
  - destruct (command_v_strip sys); [| reflexivity].
    destruct (List.length args =? 1)%nat; [| reflexivity].
    destruct (is_directory sys dir); [discriminate | reflexivity].
  - intros Hchecks Hstart Hplain.
    destruct (command_v_strip sys); [| discriminate].
    destruct (List.length args =? 1)%nat; [| discriminate].
    destruct (is_directory sys dir); [| discriminate].
    cbn [negb]. unfold find_print0. rewrite Hstart.
    unfold picked in *. destruct (find_type_f sys dir) as [files find_status].
    cbn [fst] in *.
    destruct (xargs_plain sys (filter selected files) Hplain) as (He & _ & _).
    destruct (xargs sys (filter selected files)) as [ev st]. cbn [fst] in He. subst ev.
    assert (E : forall tail,
               stripped
                 ([Stdout ("Target directory: " ++ realpath sys dir);
                   Stdout "Searching for debug libraries to strip..."; Stdout ""]
                    ++ flat_map (fun f => [Stdout ("Stripping: " ++ f); Strip f])
                                (up_to_stop sys (filter selected files))
                    ++ tail)%list
               = (up_to_stop sys (filter selected files) ++ stripped tail)%list).
    { intros tail. rewrite !stripped_app, stripped_lines. reflexivity. }
    assert (R : stripped
                  (fst (if negb ((if negb (st =? 0)%Z then st else find_status) =? 0)%Z
                        then (([Stdout ("Target directory: " ++ realpath sys dir);
                                Stdout "Searching for debug libraries to strip...";
                                Stdout ""]
                                 ++ flat_map (fun f => [Stdout ("Stripping: " ++ f); Strip f])
                                             (up_to_stop sys (filter selected files)))%list,
                              if negb (st =? 0)%Z then st else find_status)
                        else (([Stdout ("Target directory: " ++ realpath sys dir);
                                Stdout "Searching for debug libraries to strip...";
                                Stdout ""]
                                 ++ flat_map (fun f => [Stdout ("Stripping: " ++ f); Strip f])
                                             (up_to_stop sys (filter selected files))
                                 ++ [Stdout ""; Stdout "Stripping complete."])%list, 0%Z)))
                = up_to_stop sys (filter selected files)).
    { destruct (negb ((if negb (st =? 0)%Z then st else find_status) =? 0)%Z); cbn [fst].
      - specialize (E []). rewrite !app_nil_r in E. exact E.
      - rewrite E. cbn [stripped]. apply app_nil_r. }
    split; [exact R |].
    intros Hall. rewrite R. now apply up_to_stop_all.
Qed.

Lemma strips_exactly_the_selected_witness :
  stripped (fst (main two_debug_libraries "strip-debug.sh" ["pk"]))
  = ["pk/zlib/debug/lib/libz.a"; "pk/zlib/debug/lib/libz.so.1"].
Proof.
  assert (P : Forall (fun f => quoted_plain f = true) (picked two_debug_libraries "pk"))
    by (repeat constructor).
  assert (S : Forall (fun f => stops (strip_strip_debug two_debug_libraries f) = false)
                     (picked two_debug_libraries "pk"))
    by (repeat constructor).
  exact (proj2 (proj2 (strips_exactly_the_selected two_debug_libraries "strip-debug.sh"
                         ["pk"]) eq_refl eq_refl P) S).
Defined.

(** X24. For a directory that [find] reads as a starting point and picked
    files whose names are plain inside double quotes, the script ends with
    status 0 exactly when [strip] was found, one argument was given, it is
    a directory, [find] ended with status 0 and [strip] succeeded on every
    picked file; and the line [Stripping complete.] is written exactly
    then. *)
Theorem status_zero_iff_all_stripped (sys : System) (script : string) (args : list string) :
  starting_point (nth 0 args "") = true ->
  Forall (fun f => quoted_plain f = true) (picked sys (nth 0 args "")) ->
  (snd (main sys script args) = 0%Z
   <-> command_v_strip sys = true
       /\ (exists dir, args = [dir] /\ is_directory sys dir = true
                       /\ snd (find_type_f sys dir) = 0%Z
                       /\ Forall (fun f => strip_strip_debug sys f = Exited 0)
                                 (picked sys dir)))
  /\ (In (Stdout "Stripping complete.") (fst (main sys script args))
      <-> snd (main sys script args) = 0%Z).
Proof.
  intros Hstart Hplain. unfold main.
  destruct (command_v_strip sys).
  2: { cbn. split; split; try discriminate; try tauto.
       - now intros [H _].
       - intros [H | []]. discriminate H. }
  cbn [negb].
  destruct args as [| dir [| x args]].
  - discriminate Hstart.
  - cbn [List.length Nat.eqb negb nth] in *.
    destruct (is_directory sys dir) eqn:D; cbn [negb].
    2: { cbn. split; split; try discriminate.
         - intros (_ & d & E & D' & _). injection E as <-. congruence.
         - intros [H | []]. discriminate H. }
    unfold find_print0. rewrite Hstart. unfold picked in *.
    destruct (find_type_f sys dir) as [files find_status] eqn:Efind. cbn [fst snd] in *.
    destruct (xargs_plain sys (filter selected files) Hplain) as (He & Hz & _).
    pose proof (no_closing_line (up_to_stop sys (filter selected files))) as NoLine.
    destruct (xargs sys (filter selected files)) as [ev st]. cbn [fst snd] in *. subst ev.
    assert (Hall : (exists dir0, [dir] = [dir0] /\ is_directory sys dir0 = true
                                 /\ snd (find_type_f sys dir0) = 0%Z
                                 /\ Forall (fun f => strip_strip_debug sys f = Exited 0)
                                           (filter selected (fst (find_type_f sys dir0))))
                   <-> find_status = 0%Z /\ st = 0%Z).
    { rewrite Hz. split.
      - intros (d & E & _ & F & H). injection E as <-. rewrite Efind in F, H. now split.
      - intros [F H]. exists dir. rewrite Efind. now repeat split. }
    rewrite Hall.
    destruct (st =? 0)%Z eqn:Z0; cbn [negb];
      [apply Z.eqb_eq in Z0 | apply Z.eqb_neq in Z0].
    + subst st.
      destruct (find_status =? 0)%Z eqn:F0; cbn [negb fst snd];
        [apply Z.eqb_eq in F0 | apply Z.eqb_neq in F0].
      * split; split; try tauto.
        intros _. apply in_or_app. right. apply in_or_app. right. right. now left.
      * split; split; try tauto.
        intros H. exfalso. apply in_app_or in H as [H | H]; [| contradiction].
        destruct H as [H | [H | [H | []]]]; discriminate H.
    + assert (Z1 : (st =? 0)%Z = false) by now apply Z.eqb_neq.
      rewrite Z1. cbn [negb fst snd]. split; split; try tauto.
      intros H. exfalso. apply in_app_or in H as [H | H]; [| contradiction].
      destruct H as [H | [H | [H | []]]]; discriminate H.
  - cbn. split; split; try discriminate.
    + intros (_ & d & E & _). discriminate E.
    + intros H. repeat (destruct H as [H | H]; [discriminate H |]). destruct H.
Qed.

Lemma status_zero_iff_all_stripped_witness :
  snd (main two_debug_libraries "strip-debug.sh" ["pk"]) <> 0%Z
  /\ ~ In (Stdout "Stripping complete.")
          (fst (main two_debug_libraries "strip-debug.sh" ["pk"])).
Proof.
  assert (P : Forall (fun f => quoted_plain f = true) (picked two_debug_libraries "pk"))
    by (repeat constructor).
  destruct (status_zero_iff_all_stripped two_debug_libraries "strip-debug.sh" ["pk"]
              eq_refl P) as [[Z _] [L _]].
  assert (N : snd (main two_debug_libraries "strip-debug.sh" ["pk"]) <> 0%Z).
  { intros H. apply Z in H. destruct H as (_ & d & E & _ & _ & F).
    injection E as <-. inversion F as [| ? ? H1 _]. discriminate H1. }
  split; [exact N |]. intros H. apply N. now apply L.
Defined.
